(** * Heuristic documentation and code-quality analyzers

    A shallow embedding of [analyze_docs.py] (class [DocAnalyzer]) and
    [analyze_code_quality.py] (class [CodeQualityAnalyzer]).

    Conventions of the embedding:
    - a Python [str] is a list of characters ([text]); the character
      classes of [re] and of [str.strip] are the ones Python uses on ASCII
      text, which is the domain of the model;
    - a Python [int] is a [Z]; a Python [float] is an IEEE 754 binary64
      value ([spec_float] at precision 53), so that quotients are rounded
      exactly as the interpreter rounds them;
    - the regular expressions of the source are terms of [Re.re], run by a
      backtracking matcher with the priorities of Python's [re];
    - the running aggregates ([self.stats]) are records threaded through
      the per-file steps; a raised exception is an explicit outcome. *)

From Stdlib Require Import ZArith List Ascii String Bool Lia ZifyBool.
From Stdlib Require Import Floats.SpecFloat.
From stdpp Require Import gmap strings list.

Open Scope Z_scope.

(** ** Python strings *)

Abbreviation text := (list ascii).

Definition txt (s : string) : text := list_ascii_of_string s.

Module Chars.

Definition code (c : ascii) : N := N_of_ascii c.

Definition between (lo hi : N) (c : ascii) : bool :=
  ((lo <=? code c) && (code c <=? hi))%N.

Definition same (x : ascii) (c : ascii) : bool := (code c =? code x)%N.

(** [\d] *)
Definition digit : ascii -> bool := between 48 57.

Definition upper : ascii -> bool := between 65 90.
Definition lower : ascii -> bool := between 97 122.

(** [[a-zA-Z0-9_]], which is also [\w] *)
Definition word (c : ascii) : bool :=
  lower c || upper c || digit c || same "_" c.

(** [\s], and the characters removed by [str.strip()]:
    tab, newline, vertical tab, form feed, carriage return, the four
    separators 0x1c..0x1f, and the space. *)
Definition space (c : ascii) : bool :=
  between 9 13 c || between 28 31 c || same " " c.

(** [[0-9a-fA-F]] *)
Definition hex (c : ascii) : bool :=
  digit c || between 97 102 c || between 65 70 c.

Definition nl : ascii := ascii_of_N 10.

(** [.] without and with [re.DOTALL] *)
Definition dot (dotall : bool) (c : ascii) : bool :=
  dotall || negb (same nl c).

(** case folding of [re.IGNORECASE] *)
Definition fold (c : ascii) : ascii :=
  if upper c then ascii_of_N (code c + 32) else c.

Definition is_nocase (x : ascii) (c : ascii) : bool :=
  (code (fold c) =? code (fold x))%N.

End Chars.

Module Str.

(** [s.split('\n')] *)
Fixpoint split_nl (s : text) : list text :=
  match s with
  | [] => [[]]
  | c :: s' =>
      if Chars.same Chars.nl c then [] :: split_nl s'
      else match split_nl s' with
           | l :: ls => (c :: l) :: ls
           | [] => [[c]]
           end
  end.

(** ['\n'.join(ls)] *)
Fixpoint join_nl (ls : list text) : text :=
  match ls with
  | [] => []
  | [l] => l
  | l :: ls' => l ++ Chars.nl :: join_nl ls'
  end.

Fixpoint eqb (a b : text) : bool :=
  match a, b with
  | [], [] => true
  | x :: a', y :: b' => Chars.same x y && eqb a' b'
  | _, _ => false
  end.

(** [s.startswith(p)] *)
Fixpoint startswith (p s : text) : bool :=
  match p, s with
  | [], _ => true
  | x :: p', y :: s' => Chars.same x y && startswith p' s'
  | _ :: _, [] => false
  end.

(** [p in s] *)
Fixpoint contains (p s : text) : bool :=
  startswith p s ||
  match s with
  | [] => false
  | _ :: s' => contains p s'
  end.

Fixpoint lstrip (s : text) : text :=
  match s with
  | c :: s' => if Chars.space c then lstrip s' else s
  | [] => []
  end.

(** [s.strip()] *)
Definition strip (s : text) : text := rev (lstrip (rev (lstrip s))).

(** [s.count(c)] for a one-character [c] *)
Definition count (x : ascii) (s : text) : Z :=
  Z.of_nat (length (List.filter (Chars.same x) s)).

(** [x in names] for a list of strings *)
Definition mem (x : text) (names : list text) : bool :=
  existsb (eqb x) names.

End Str.

(** ** Regular expressions

    The fragment of Python's [re] syntax that the two analyzers use.
    Flags are resolved when a pattern is written down: [Bol] and
    [Eol true] are [^] and [$] under [re.MULTILINE], [Chars.dot true] is
    [.] under [re.DOTALL], [lit_nocase] is a literal under
    [re.IGNORECASE]. *)

Module Re.

Inductive re : Type :=
| Eps                                   (* empty pattern *)
| Chr (p : ascii -> bool)               (* one character of a class *)
| Seq (r1 r2 : re)                      (* r1r2 *)
| Alt (r1 r2 : re)                      (* r1|r2, r1 tried first *)
| Star (greedy : bool) (r : re)         (* r* and r*? *)
| Group (r : re)                        (* the capturing group (r) *)
| Bol                                   (* ^ with MULTILINE *)
| Eol (multiline : bool)                (* $ *)
| WordB                                 (* \b *)
| NotBehind (p : ascii -> bool)         (* (?<![...]) *)
| NotAhead (p : ascii -> bool).         (* (?![...]) *)

(** Derived forms *)
Definition Opt (r : re) : re := Alt r Eps.            (* r? *)
Definition Plus (r : re) : re := Seq r (Star true r). (* r+ *)
Fixpoint AtLeast (n : nat) (r : re) : re :=           (* r{n,} *)
  match n with
  | O => Star true r
  | S n' => Seq r (AtLeast n' r)
  end.
Fixpoint Exactly (n : nat) (r : re) : re :=           (* r{n} *)
  match n with
  | O => Eps
  | S n' => Seq r (Exactly n' r)
  end.
Fixpoint lit_with (f : ascii -> ascii -> bool) (s : text) : re :=
  match s with
  | [] => Eps
  | c :: s' => Seq (Chr (f c)) (lit_with f s')
  end.
Definition lit (s : string) : re := lit_with Chars.same (txt s).
Definition lit_nocase (s : string) : re := lit_with Chars.is_nocase (txt s).

(** A position in the subject string: the characters already passed
    (latest first), the characters ahead, and the text of group 1 when
    it has been closed. *)
Record cursor : Type := Cursor {
  behind : text;
  ahead : text;
  group1 : option text
}.

Definition pos (c : cursor) : nat := length (behind c).

Definition prev_is (p : ascii -> bool) (c : cursor) : bool :=
  match behind c with
  | x :: _ => p x
  | [] => false
  end.

Definition next_is (p : ascii -> bool) (c : cursor) : bool :=
  match ahead c with
  | x :: _ => p x
  | [] => false
  end.

(** The text consumed between an earlier cursor and a later one. *)
Definition consumed (c c' : cursor) : text :=
  rev (firstn (pos c' - pos c) (behind c')).

Definition at_bol (c : cursor) : bool :=
  match behind c with
  | [] => true
  | x :: _ => Chars.same Chars.nl x
  end.

Definition at_eol (multiline : bool) (c : cursor) : bool :=
  match ahead c with
  | [] => true
  | x :: rest =>
      Chars.same Chars.nl x &&
      (multiline || match rest with [] => true | _ :: _ => false end)
  end.

Definition at_wordb (c : cursor) : bool :=
  xorb (prev_is Chars.word c) (next_is Chars.word c).

(** The backtracking matcher, in continuation-passing style: [run r c k]
    matches [r] at [c] and hands every way of doing so, in the order of
    Python's priorities, to [k] until [k] accepts one.

    A starred body is iterated at most once per remaining character:
    an iteration that consumes nothing is abandoned, so the bound is
    never the reason why a match is missed. *)
Fixpoint run {A : Type} (r : re) (c : cursor) (k : cursor -> option A)
  {struct r} : option A :=
  match r with
  | Eps => k c
  | Chr p =>
      match ahead c with
      | x :: rest =>
          if p x then k (Cursor (x :: behind c) rest (group1 c)) else None
      | [] => None
      end
  | Seq r1 r2 => run r1 c (fun c' => run r2 c' k)
  | Alt r1 r2 =>
      match run r1 c k with
      | Some m => Some m
      | None => run r2 c k
      end
  | Star greedy r' =>
      (fix iter (n : nat) (c : cursor) {struct n} : option A :=
         match n with
         | O => k c
         | S n' =>
             let more :=
               run r' c (fun c' =>
                 if (pos c <? pos c')%nat then iter n' c' else None) in
             if greedy then
               match more with
               | Some m => Some m
               | None => k c
               end
             else
               match k c with
               | Some m => Some m
               | None => more
               end
         end) (length (ahead c)) c
  | Group r' =>
      run r' c (fun c' =>
        k (Cursor (behind c') (ahead c') (Some (consumed c c'))))
  | Bol => if at_bol c then k c else None
  | Eol multiline => if at_eol multiline c then k c else None
  | WordB => if at_wordb c then k c else None
  | NotBehind p => if prev_is p c then None else k c
  | NotAhead p => if next_is p c then None else k c
  end.

(** A match object: [start()], [end()], [group(0)], [group(1)]. *)
Record rmatch : Type := Match {
  m_start : nat;
  m_end : nat;
  m_text : text;
  m_group : option text
}.

(** [pattern.match(s, pos)] seen from a cursor. *)
Definition match_at (r : re) (bef aft : text) : option rmatch :=
  let c := Cursor bef aft None in
  run r c (fun c' =>
    Some (Match (pos c) (pos c') (consumed c c') (group1 c'))).

(** The scan shared by [finditer], [findall] and [sub]: leftmost
    matches, none overlapping.  [skip] counts the characters of the last
    match still to be stepped over.  None of the source's patterns
    matches the empty string, so the special treatment Python gives to
    empty matches never comes into play; here an empty match would
    simply be followed by a step of one character. *)
Fixpoint scan (r : re) (bef aft : text) (skip : nat) {struct aft}
  : list rmatch :=
  match skip with
  | S sk =>
      match aft with
      | x :: rest => scan r (x :: bef) rest sk
      | [] => []
      end
  | O =>
      match match_at r bef aft with
      | Some m =>
          m :: match aft with
               | x :: rest =>
                   scan r (x :: bef) rest (m_end m - m_start m - 1)
               | [] => []
               end
      | None =>
          match aft with
          | x :: rest => scan r (x :: bef) rest O
          | [] => []
          end
      end
  end.

(** [pattern.finditer(s)] *)
Definition finditer (r : re) (s : text) : list rmatch := scan r [] s O.

(** [pattern.findall(s)]: the text of group 1 when the pattern has a
    group (the empty string when the group took no part), the whole
    match otherwise. *)
Definition findall (has_group : bool) (r : re) (s : text) : list text :=
  map (fun m => if has_group then default [] (m_group m) else m_text m)
      (finditer r s).

(** [re.sub(pattern, '', s)]: the characters outside every match. *)
Fixpoint drop_spans (ms : list rmatch) (i : nat) (s : text) : text :=
  match s with
  | [] => []
  | x :: s' =>
      if existsb (fun m => (m_start m <=? i)%nat && (i <? m_end m)%nat) ms
      then drop_spans ms (S i) s'
      else x :: drop_spans ms (S i) s'
  end.

Definition sub_empty (r : re) (s : text) : text :=
  drop_spans (finditer r s) O s.

End Re.

Declare Scope re_scope.
Delimit Scope re_scope with re.
Bind Scope re_scope with Re.re.
Notation "r1 ~> r2" := (Re.Seq r1 r2)
  (at level 41, right associativity) : re_scope.
Notation "r1 <|> r2" := (Re.Alt r1 r2)
  (at level 42, right associativity) : re_scope.

(** ** The patterns of [DocAnalyzer.__init__] *)

Module DocPatterns.
Import Re.
Local Open Scope re_scope.

Definition s : re := Chr Chars.space.   (* \s *)
Definition w : re := Chr Chars.word.    (* \w *)

(** [^\s*class\s+(\w+)], MULTILINE *)
Definition class_pattern : re :=
  Bol ~> Star true s ~> lit "class" ~> Plus s ~> Group (Plus w).

(** [[^)]] *)
Definition not_rparen (c : ascii) : bool := negb (Chars.same ")" c).

(** [^\s*(?:virtual\s+)?(?:static\s+)?(?:inline\s+)?]
    [(?:const\s+)?(?:\w+(?:\s*\*|\s+&|\s+))\s+]
    [(\w+)\s*\([^)]*\)\s*(?:const)?(?:\s*override)?(?:\s*final)?;?],
    MULTILINE *)
Definition function_pattern : re :=
  Bol ~> Star true s ~>
  Opt (lit "virtual" ~> Plus s) ~>
  Opt (lit "static" ~> Plus s) ~>
  Opt (lit "inline" ~> Plus s) ~>
  Opt (lit "const" ~> Plus s) ~>
  (Plus w ~> (Star true s ~> lit "*" <|> Plus s ~> lit "&" <|> Plus s)) ~>
  Plus s ~>
  Group (Plus w) ~> Star true s ~>
  lit "(" ~> Star true (Chr not_rparen) ~> lit ")" ~> Star true s ~>
  Opt (lit "const") ~>
  Opt (Star true s ~> lit "override") ~>
  Opt (Star true s ~> lit "final") ~>
  Opt (lit ";").

(** [/\*\*.*?\*/], DOTALL *)
Definition doc_block_pattern : re :=
  lit "/**" ~> Star false (Chr (Chars.dot true)) ~> lit "*/".

(** [^\s*///.*$], MULTILINE *)
Definition doc_line_pattern : re :=
  Bol ~> Star true s ~> lit "///" ~>
  Star true (Chr (Chars.dot false)) ~> Eol true.

(** [\\brief|@brief|///<] *)
Definition brief_pattern : re :=
  lit "\brief" <|> lit "@brief" <|> lit "///<".

(** [\\param|@param] *)
Definition param_pattern : re := lit "\param" <|> lit "@param".

(** [\\return|@return] *)
Definition return_pattern : re := lit "\return" <|> lit "@return".

End DocPatterns.

(** ** The patterns of [CodeQualityAnalyzer] *)

Module QualityPatterns.
Import Re.
Local Open Scope re_scope.

Definition d : re := Chr Chars.digit.   (* \d *)
Definition any : re := Chr (Chars.dot false).   (* . *)

(** [[a-zA-Z0-9_]] *)
Definition alnum_ (c : ascii) : bool :=
  Chars.lower c || Chars.upper c || Chars.digit c || Chars.same "_" c.

(** [[a-zA-Z0-9_e]] *)
Definition alnum_e (c : ascii) : bool :=
  Chars.lower c || Chars.upper c || Chars.digit c || Chars.same "_" c
  || Chars.same "e" c.

(** [(?<![a-zA-Z0-9_])]
    [(?:(?:0x[0-9a-fA-F]+)|(?:\d{3,}(?:\.\d+)?)|(?:\d+\.\d{3,}))]
    [(?![a-zA-Z0-9_e])] *)
Definition magic_number_pattern : re :=
  NotBehind alnum_ ~>
  ((lit "0x" ~> Plus (Chr Chars.hex))
   <|> (AtLeast 3 d ~> Opt (lit "." ~> Plus d))
   <|> (Plus d ~> lit "." ~> AtLeast 3 d)) ~>
  NotAhead alnum_e.

(** [(?:19|20)\d{2}] *)
Definition year_pattern : re := (lit "19" <|> lit "20") ~> Exactly 2 d.

(** [//.*?X|/\*.*?X.*?\*/], IGNORECASE, for X among TODO, FIXME, HACK *)
Definition marker_pattern (x : string) : re :=
  (lit "//" ~> Star false any ~> lit_nocase x)
  <|> (lit "/*" ~> Star false any ~> lit_nocase x ~>
       Star false any ~> lit "*/").

Definition todo_pattern : re := marker_pattern "TODO".
Definition fixme_pattern : re := marker_pattern "FIXME".
Definition hack_pattern : re := marker_pattern "HACK".

(** [deprecated|obsolete], IGNORECASE *)
Definition deprecated_pattern : re :=
  lit_nocase "deprecated" <|> lit_nocase "obsolete".

(** [//.*$] *)
Definition line_comment : re := lit "//" ~> Star true any ~> Eol false.

(** [/\*.*?\*/] *)
Definition block_comment : re := lit "/*" ~> Star false any ~> lit "*/".

(** [\b(if|for|while|switch|case)\b] *)
Definition control_pattern : re :=
  WordB ~>
  Group (lit "if" <|> lit "for" <|> lit "while" <|> lit "switch"
         <|> lit "case") ~>
  WordB.

(** [[^{}]] *)
Definition not_brace (c : ascii) : bool :=
  negb (Chars.same "{" c || Chars.same "}" c).

(** [\{ [^{}]* (?: \{ [^{}]* \} [^{}]* )* \}] (written here with spaces), DOTALL *)
Definition function_pattern : re :=
  lit "{" ~> Star true (Chr not_brace) ~>
  Star true (lit "{" ~> Star true (Chr not_brace) ~> lit "}" ~>
             Star true (Chr not_brace)) ~>
  lit "}".

End QualityPatterns.

(** ** Python numbers and exceptions *)

Module Py.

(** binary64 *)
Definition prec : Z := 53.
Definition emax : Z := 1024.

(** [float(n)] for an [int] n: round to nearest, ties to even. *)
Definition of_int (n : Z) : spec_float := binary_normalize prec emax n 0 false.

(** A value that is an [int] or a [float]. *)
Inductive num : Type :=
| Int (n : Z)
| Float (x : spec_float).

Definition to_float (v : num) : spec_float :=
  match v with
  | Int n => of_int n
  | Float x => x
  end.

(** [a > b].  Two ints are compared as integers; otherwise the
    comparison is the one of binary64 (an int operand below 2^53, as
    every count of this program is, converts without rounding). *)
Definition gt (a b : num) : bool :=
  match a, b with
  | Int x, Int y => y <? x
  | _, _ => SFltb (to_float b) (to_float a)
  end.

(** [a >= b] on ints *)
Definition ge (a b : Z) : bool := b <=? a.

Definition is_zero (v : num) : bool :=
  match v with
  | Int n => n =? 0
  | Float (S754_zero _) => true
  | Float _ => false
  end.

Inductive exn : Type :=
| ZeroDivisionError
| ValueError.

Inductive outcome (A : Type) : Type :=
| Ok (a : A)
| Raise (e : exn).
Arguments Ok {A} a.
Arguments Raise {A} e.

(** [a / b]: true division, always a float; a zero divisor raises.
    The quotient of two ints is correctly rounded, which for operands
    below 2^53 is the binary64 quotient of their conversions. *)
Definition truediv (a b : num) : outcome num :=
  if is_zero b then Raise ZeroDivisionError
  else Ok (Float (SFdiv prec emax (to_float a) (to_float b))).

(** [max(a, b)]: the first argument unless the second is greater. *)
Definition max2 (a b : num) : num := if gt b a then b else a.

(** The float literals of the source, as the nearest binary64 values:
    0.7 = 0x1.6666666666666p-1, 0.4 = 0x1.999999999999ap-2,
    0.1 = 0x1.999999999999ap-4. *)
Definition lit_0_7 : spec_float := S754_finite false 6305039478318694 (-53).
Definition lit_0_4 : spec_float := S754_finite false 7205759403792794 (-54).
Definition lit_0_1 : spec_float := S754_finite false 7205759403792794 (-56).

(** [len(l)] *)
Definition len {A : Type} (l : list A) : Z := Z.of_nat (length l).

Definition bind {A B : Type} (m : outcome A) (k : A -> outcome B)
  : outcome B :=
  match m with
  | Ok a => k a
  | Raise e => Raise e
  end.

End Py.

Notation "'let!' x ':=' m 'in' k" := (Py.bind m (fun x => k))
  (at level 10, x name, m at level 100, k at level 200,
   format "'[v' 'let!'  x  ':='  m  'in' '/' k ']'").

(** A path is the tuple of its parts ([filepath.parts]); [str(filepath)]
    is kept as the path itself. *)
Abbreviation Path := (list string).

(** ** [analyze_docs.py]: the Documentation Classifier *)

Module DocAnalyzer.
Import Py.

Inductive category : Type :=
| well_documented
| partially_documented
| poorly_documented.

(** The dict returned by [analyze_file]. *)
Record result : Type := Result {
  r_file : Path;
  r_classes : Z;
  r_functions : Z;
  r_documented_classes : Z;
  r_documented_functions : Z;
  r_doc_blocks : Z;
  r_doc_lines : Z;
  r_brief_count : Z;
  r_param_count : Z;
  r_return_count : Z;
  r_doc_ratio : num;
  r_quality_score : Z;
  r_category : category;
  r_file_size : Z
}.

(** [['if', 'while', 'for', 'switch', 'return']] *)
Definition stoplist : list text :=
  [txt "if"; txt "while"; txt "for"; txt "switch"; txt "return"].

(** The loop that fills [doc_positions]: every line holding a
    documentation opener marks itself and the lines up to
    [min(i + 10, len(lines))]. *)
Fixpoint mark_lines (i n : Z) (lines : list text) (acc : gset Z) : gset Z :=
  match lines with
  | [] => acc
  | line :: rest =>
      let acc' :=
        if Str.contains (txt "/**") line || Str.contains (txt "///") line
        then acc ∪ list_to_set (seqZ i (Z.min (i + 10) n - i))
        else acc in
      mark_lines (i + 1) n rest acc'
  end.

Definition doc_positions (lines : list text) : gset Z :=
  mark_lines 0 (len lines) lines ∅.

(** [content[:match.start()].count('\n')] *)
Definition line_num (content : text) (m : Re.rmatch) : Z :=
  Str.count Chars.nl (firstn (Re.m_start m) content).

(** [line_num in doc_positions or (line_num - 1) in doc_positions
     or (line_num - 2) in doc_positions] *)
Definition covered (positions : gset Z) (n : Z) : bool :=
  bool_decide (n ∈ positions) || bool_decide (n - 1 ∈ positions)
  || bool_decide (n - 2 ∈ positions).

(** One of the two counting loops over [finditer]. *)
Definition count_documented (positions : gset Z) (content : text)
    (ms : list Re.rmatch) : Z :=
  foldl (fun n m => if covered positions (line_num content m) then n + 1 else n)
        0 ms.

(** The ratio tiers: [> 0.7], [> 0.4], [> 0.1]. *)
Definition ratio_bonus (doc_ratio : num) : Z :=
  if gt doc_ratio (Float lit_0_7) then 30
  else if gt doc_ratio (Float lit_0_4) then 15
  else if gt doc_ratio (Float lit_0_1) then 5
  else 0.

(** The categorisation at the end of [analyze_file]. *)
Definition categorize (quality_score : Z) : category :=
  if ge quality_score 60 then well_documented
  else if ge quality_score 25 then partially_documented
  else poorly_documented.

(** The locals of [analyze_file], each as a function of the content. *)

Definition classes (content : text) : list text :=
  Re.findall true DocPatterns.class_pattern content.

(** [functions] after the stoplist has been applied. *)
Definition functions (content : text) : list text :=
  let functions := Re.findall true DocPatterns.function_pattern content in
  List.filter (fun f => negb (Str.mem f stoplist)) functions.

Definition doc_blocks (content : text) : list text :=
  Re.findall false DocPatterns.doc_block_pattern content.

Definition doc_lines (content : text) : list text :=
  Re.findall false DocPatterns.doc_line_pattern content.

Definition all_docs (content : text) : text :=
  Str.join_nl (doc_blocks content ++ doc_lines content).

Definition documented_classes_in (content : text) : Z :=
  count_documented (doc_positions (Str.split_nl content)) content
    (Re.finditer DocPatterns.class_pattern content).

Definition documented_functions_in (content : text) : Z :=
  count_documented (doc_positions (Str.split_nl content)) content
    (Re.finditer DocPatterns.function_pattern content).

Definition total_items (content : text) : Z :=
  len (classes content) + len (functions content).

Definition documented_items (content : text) : Z :=
  documented_classes_in content + documented_functions_in content.

Definition brief_count (content : text) : Z :=
  len (Re.findall false DocPatterns.brief_pattern (all_docs content)).

Definition param_count (content : text) : Z :=
  len (Re.findall false DocPatterns.param_pattern (all_docs content)).

Definition return_count (content : text) : Z :=
  len (Re.findall false DocPatterns.return_pattern (all_docs content)).

(** [documented_items / total_items if total_items > 0 else 0] *)
Definition doc_ratio_of (documented_items total_items : Z) : outcome num :=
  if total_items >? 0
  then truediv (Int documented_items) (Int total_items)
  else Ok (Int 0).

(** The bonus for the share of documentation characters. *)
Definition size_bonus (quality_score doc_chars code_chars : Z) : outcome Z :=
  if code_chars >? 0 then
    let! doc_code_ratio := truediv (Int doc_chars) (Int code_chars) in
    Ok (if gt doc_code_ratio (Float lit_0_1)
        then quality_score + 15 else quality_score)
  else Ok quality_score.

(** The quality assessment, from [quality_score = 0] to the last bonus. *)
Definition quality_score_of (doc_ratio : num)
    (param_count return_count brief_count doc_chars code_chars : Z)
  : outcome Z :=
  let quality_score := 0 in
  let quality_score := quality_score + ratio_bonus doc_ratio in
  let quality_score :=
    if param_count >? 0 then quality_score + 20 else quality_score in
  let quality_score :=
    if return_count >? 0 then quality_score + 20 else quality_score in
  let quality_score :=
    if brief_count >? 0 then quality_score + 15 else quality_score in
  size_bonus quality_score doc_chars code_chars.

(** [analyze_file] once the content has been read. *)
Definition analyze_content (filepath : Path) (content : text)
  : outcome result :=
  let doc_chars := len (all_docs content) in
  let code_chars := len content in
  let! doc_ratio :=
    doc_ratio_of (documented_items content) (total_items content) in
  let! quality_score :=
    quality_score_of doc_ratio (param_count content) (return_count content)
                     (brief_count content) doc_chars code_chars in
  let category := categorize quality_score in
  Ok {| r_file := filepath;
        r_classes := len (classes content);
        r_functions := len (functions content);
        r_documented_classes := documented_classes_in content;
        r_documented_functions := documented_functions_in content;
        r_doc_blocks := len (doc_blocks content);
        r_doc_lines := len (doc_lines content);
        r_brief_count := brief_count content;
        r_param_count := param_count content;
        r_return_count := return_count content;
        r_doc_ratio := doc_ratio;
        r_quality_score := quality_score;
        r_category := category;
        r_file_size := code_chars |}.

(** The values of [files_by_category]. *)
Record by_category : Type := ByCategory {
  well : list result;
  partial : list result;
  poor : list result
}.

(** One value of the [module_stats] defaultdict. *)
Record module_stat : Type := ModuleStat {
  ms_files : Z;
  ms_classes : Z;
  ms_functions : Z;
  ms_doc_classes : Z;
  ms_doc_functions : Z;
  ms_well_doc : Z;
  ms_partial_doc : Z;
  ms_poor_doc : Z
}.

(** The default factory of [module_stats]. *)
Definition new_module_stat : module_stat := ModuleStat 0 0 0 0 0 0 0 0.

(** [self.stats] *)
Record stats : Type := Stats {
  total_files : Z;
  total_classes : Z;
  total_functions : Z;
  documented_classes : Z;
  documented_functions : Z;
  files_by_category : by_category;
  module_stats : gmap string module_stat
}.

(** [self.stats] as [__init__] leaves it. *)
Definition init : stats := Stats 0 0 0 0 0 (ByCategory [] [] []) ∅.

(** [files_by_category[category].append(result)] *)
Definition append_to (c : category) (r : result) (b : by_category)
  : by_category :=
  match c with
  | well_documented => ByCategory (well b ++ [r]) (partial b) (poor b)
  | partially_documented => ByCategory (well b) (partial b ++ [r]) (poor b)
  | poorly_documented => ByCategory (well b) (partial b) (poor b ++ [r])
  end.

(** The module of a file: the part after the first ['source'], and
    ['other'] when there is none. *)
Fixpoint module_of (parts : Path) : string :=
  match parts with
  | [] => "other"
  | p :: rest =>
      if String.eqb p "source"
      then match rest with
           | m :: _ => m
           | [] => "other"
           end
      else module_of rest
  end.

Definition fold_module (r : result) (ms : module_stat) : module_stat :=
  {| ms_files := ms_files ms + 1;
     ms_classes := ms_classes ms + r_classes r;
     ms_functions := ms_functions ms + r_functions r;
     ms_doc_classes := ms_doc_classes ms + r_documented_classes r;
     ms_doc_functions := ms_doc_functions ms + r_documented_functions r;
     ms_well_doc :=
       match r_category r with
       | well_documented => ms_well_doc ms + 1
       | _ => ms_well_doc ms
       end;
     ms_partial_doc :=
       match r_category r with
       | partially_documented => ms_partial_doc ms + 1
       | _ => ms_partial_doc ms
       end;
     ms_poor_doc :=
       match r_category r with
       | poorly_documented => ms_poor_doc ms + 1
       | _ => ms_poor_doc ms
       end |}.

(** The body of [if result:] in [analyze_directory]. *)
Definition fold_result (filepath : Path) (r : result) (st : stats) : stats :=
  let mod_ := module_of filepath in
  let ms := default new_module_stat (module_stats st !! mod_) in
  {| total_files := total_files st + 1;
     total_classes := total_classes st + r_classes r;
     total_functions := total_functions st + r_functions r;
     documented_classes := documented_classes st + r_documented_classes r;
     documented_functions :=
       documented_functions st + r_documented_functions r;
     files_by_category :=
       append_to (r_category r) r (files_by_category st);
     module_stats := <[mod_ := fold_module r ms]> (module_stats st) |}.

(** [['.hh', '.cc', '.h', '.hpp', '.cpp']] *)
Definition extensions : list string := [".hh"; ".cc"; ".h"; ".hpp"; ".cpp"].

Section Run.

(** The file system as the analyzer sees it: [read_text p] is the
    content of [p], or [None] when opening or reading it raises. *)
Variable read_text : Path -> option text.

(** [dir_path.rglob('*' + ext)]: the paths the directory walk yields
    for an extension, in the order it yields them. *)
Variable rglob : string -> list Path.

(** [analyze_file]: [Ok None] is the [return None] of the handler. *)
Definition analyze_file (filepath : Path) : outcome (option result) :=
  match read_text filepath with
  | None => Ok None
  | Some content =>
      let! r := analyze_content filepath content in
      Ok (Some r)
  end.

(** The body of the inner loop of [analyze_directory]. *)
Definition visit (filepath : Path) (st : stats) : outcome stats :=
  if bool_decide ("externals" ∈ filepath) || bool_decide ("examples" ∈ filepath)
  then Ok st
  else
    let! result := analyze_file filepath in
    match result with
    | Some r => Ok (fold_result filepath r st)
    | None => Ok st
    end.

Fixpoint visit_all (paths : list Path) (st : stats) : outcome stats :=
  match paths with
  | [] => Ok st
  | p :: rest =>
      let! st' := visit p st in
      visit_all rest st'
  end.

(** The paths in the order the two nested loops meet them. *)
Definition walk : list Path := concat (map rglob extensions).

Definition analyze_directory (st : stats) : outcome stats :=
  visit_all walk st.

End Run.

End DocAnalyzer.

(** ** [analyze_code_quality.py]: the Quality Indicator Scanner *)

Module CodeQualityAnalyzer.
Import Py.

Record MagicNumbers : Type := {
  files_with_magic_numbers : Z;
  total_magic_numbers : Z
}.

Record Complexity : Type := {
  very_complex : Z;
  complex : Z;
  moderate : Z;
  simple : Z
}.

Record AgeIndicators : Type := {
  very_old : Z;
  old : Z;
  recent : Z;
  modern : Z
}.

Record CodeSmells : Type := {
  todo_comments : Z;
  fixme_comments : Z;
  hack_comments : Z;
  deprecated : Z;
  long_functions : Z;
  deep_nesting : Z
}.

(** The dicts appended to the lists of [examples]. *)
Inductive example : Type :=
| MagicExample (file : Path) (count : Z) (samples : list text)
| DeprecatedExample (file : Path)
| NestingExample (file : Path) (depth : Z).

(** [self.stats]; [examples] is a [defaultdict(list)]. *)
Record stats : Type := Stats {
  magic_numbers : MagicNumbers;
  complexity : Complexity;
  age_indicators : AgeIndicators;
  code_smells : CodeSmells;
  examples : gmap string (list example)
}.

(** [self.stats] as [__init__] leaves it. *)
Definition init : stats :=
  {| magic_numbers := Build_MagicNumbers 0 0;
     complexity := Build_Complexity 0 0 0 0;
     age_indicators := Build_AgeIndicators 0 0 0 0;
     code_smells := Build_CodeSmells 0 0 0 0 0 0;
     examples := ∅ |}.

(** The entries of [result['issues']]: each constructor stands for the
    message the source formats from its arguments. *)
Inductive issue : Type :=
| MagicIssue (n : Z)           (* Contains n magic numbers *)
| VeryComplexIssue             (* Very complex (high cyclomatic complexity) *)
| ComplexIssue                 (* Complex code *)
| VeryOldIssue (year : Z)      (* Contains references to year (likely old code) *)
| OldIssue (year : Z)          (* References year year *)
| TodoIssue (n : Z)            (* Contains n TODO comment(s) *)
| FixmeIssue (n : Z)           (* Contains n FIXME comment(s) *)
| HackIssue (n : Z)            (* Contains n HACK comment(s) *)
| DeprecatedIssue              (* Contains deprecated/obsolete markers *)
| LongFunctionsIssue (n : Z)   (* Contains n very long function(s) (>100 lines) *)
| DeepNestingIssue (depth : Z) (* Deep nesting detected (max depth: depth) *).

(** The dict returned by [analyze_file]. *)
Record result : Type := Result {
  r_file : Path;
  r_issues : list issue
}.

(** *** Updates of the counters *)

Definition set_magic_numbers (f : MagicNumbers -> MagicNumbers) (st : stats)
  : stats :=
  Stats (f (magic_numbers st)) (complexity st) (age_indicators st)
        (code_smells st) (examples st).

Definition set_complexity (f : Complexity -> Complexity) (st : stats)
  : stats :=
  Stats (magic_numbers st) (f (complexity st)) (age_indicators st)
        (code_smells st) (examples st).

Definition set_age_indicators (f : AgeIndicators -> AgeIndicators)
    (st : stats) : stats :=
  Stats (magic_numbers st) (complexity st) (f (age_indicators st))
        (code_smells st) (examples st).

Definition set_code_smells (f : CodeSmells -> CodeSmells) (st : stats)
  : stats :=
  Stats (magic_numbers st) (complexity st) (age_indicators st)
        (f (code_smells st)) (examples st).

Definition set_examples
    (f : gmap string (list example) -> gmap string (list example))
    (st : stats) : stats :=
  Stats (magic_numbers st) (complexity st) (age_indicators st)
        (code_smells st) (f (examples st)).

(** *** The state of the analyzer and the exceptions that escape it

    A computation takes [self.stats] and leaves it updated, also when
    it raises: the updates made before the exception stay. *)
Definition M (A : Type) : Type := stats -> stats * outcome A.

Definition ret {A : Type} (a : A) : M A := fun st => (st, Ok a).

Definition bindM {A B : Type} (m : M A) (k : A -> M B) : M B :=
  fun st =>
    match m st with
    | (st', Ok a) => k a st'
    | (st', Raise e) => (st', Raise e)
    end.

Definition lift {A : Type} (o : outcome A) : M A := fun st => (st, o).

Definition modify (f : stats -> stats) : M unit := fun st => (f st, Ok tt).

Definition when (b : bool) (m : M unit) : M unit := if b then m else ret tt.

Notation "'do!' x ':=' m 'in' k" := (bindM m (fun x => k))
  (at level 10, x name, m at level 100, k at level 200,
   format "'[v' 'do!'  x  ':='  m  'in' '/' k ']'").

(** [self.stats['examples'][key]]: reading a missing key of the
    defaultdict creates it with an empty list. *)
Definition examples_of (key : string) : M (list example) :=
  fun st =>
    match examples st !! key with
    | Some l => (st, Ok l)
    | None => (set_examples (insert key []) st, Ok [])
    end.

(** [self.stats['examples'][key].append(ex)] *)
Definition append_example (key : string) (ex : example) : M unit :=
  modify (set_examples (fun m => <[key := default [] (m !! key) ++ [ex]]> m)).

(** [p.relative_to(root)]: the parts of [p] after those of [root];
    [ValueError] when [p] is not under [root]. *)
Fixpoint relative_to (p root : Path) : outcome Path :=
  match root, p with
  | [], _ => Ok p
  | r :: root', x :: p' =>
      if String.eqb r x then relative_to p' root' else Raise ValueError
  | _ :: _, [] => Raise ValueError
  end.

(** *** Magic numbers *)

(** The comment stripping applied to each line. *)
Definition strip_comments (line : text) : text :=
  let line_code := Re.sub_empty QualityPatterns.line_comment line in
  Re.sub_empty QualityPatterns.block_comment line_code.

Definition code_text (content : text) : text :=
  Str.join_nl (map strip_comments (Str.split_nl content)).

(** [['100', '1000', '0x00', '0xff']] *)
Definition common_constants : list text :=
  [txt "100"; txt "1000"; txt "0x00"; txt "0xff"].

Definition filtered_magic (content : text) : list text :=
  let magic_numbers :=
    Re.findall false QualityPatterns.magic_number_pattern (code_text content) in
  List.filter (fun m => negb (Str.mem m common_constants)) magic_numbers.

Definition count_magic (n : Z) : stats -> stats :=
  set_magic_numbers (fun m =>
    {| files_with_magic_numbers := files_with_magic_numbers m + 1;
       total_magic_numbers := total_magic_numbers m + n |}).

(** *** Complexity *)

Definition control_keywords (content : text) : Z :=
  len (Re.findall true QualityPatterns.control_pattern content).

(** [l.strip() and not l.strip().startswith('//')] *)
Definition is_code_line (l : text) : bool :=
  match Str.strip l with
  | [] => false
  | _ :: _ => negb (Str.startswith (txt "//") (Str.strip l))
  end.

Definition lines_of_code (content : text) : Z :=
  len (List.filter is_code_line (Str.split_nl content)).

(** [control_keywords / max(lines_of_code / 100, 1)] *)
Definition complexity_of (content : text) : outcome num :=
  let! per_hundred := truediv (Int (lines_of_code content)) (Int 100) in
  truediv (Int (control_keywords content)) (max2 per_hundred (Int 1)).

Inductive tier : Type := VeryComplex | Complex | Moderate | Simple.

(** The chain [> 15], [> 10], [> 5]. *)
Definition tier_of (c : num) : tier :=
  if gt c (Int 15) then VeryComplex
  else if gt c (Int 10) then Complex
  else if gt c (Int 5) then Moderate
  else Simple.

(** The counter of a tier, one more. *)
Definition bump_tier (t : tier) (c : Complexity) : Complexity :=
match t with
| VeryComplex =>
    Build_Complexity (very_complex c + 1) (complex c) (moderate c) (simple c)
| Complex =>
    Build_Complexity (very_complex c) (complex c + 1) (moderate c) (simple c)
| Moderate =>
    Build_Complexity (very_complex c) (complex c) (moderate c + 1) (simple c)
| Simple =>
    Build_Complexity (very_complex c) (complex c) (moderate c) (simple c + 1)
end.

Definition count_tier (t : tier) : stats -> stats :=
set_complexity (bump_tier t).

Definition tier_issues (t : tier) : list issue :=
  match t with
  | VeryComplex => [VeryComplexIssue]
  | Complex => [ComplexIssue]
  | Moderate | Simple => []
  end.

(** *** Age indicators *)

(** [int(y)] on a string of decimal digits *)
Definition int_of (y : text) : Z :=
  foldl (fun n c => 10 * n + (Z.of_N (Chars.code c) - 48)) 0 y.

(** [min(l)] on a list with a first element *)
Definition min_of (first : Z) (others : list Z) : Z :=
  foldl Z.min first others.

Inductive age : Type := VeryOld | Old | Recent | Modern.

Definition age_of (oldest_year : Z) : age :=
  if oldest_year <? 2010 then VeryOld
  else if oldest_year <? 2016 then Old
  else if oldest_year <? 2021 then Recent
  else Modern.

Definition count_age (a : age) : stats -> stats :=
  set_age_indicators (fun x =>
    match a with
    | VeryOld => Build_AgeIndicators (very_old x + 1) (old x) (recent x) (modern x)
    | Old => Build_AgeIndicators (very_old x) (old x + 1) (recent x) (modern x)
    | Recent => Build_AgeIndicators (very_old x) (old x) (recent x + 1) (modern x)
    | Modern => Build_AgeIndicators (very_old x) (old x) (recent x) (modern x + 1)
    end).

Definition age_issues (a : age) (oldest_year : Z) : list issue :=
  match a with
  | VeryOld => [VeryOldIssue oldest_year]
  | Old => [OldIssue oldest_year]
  | Recent | Modern => []
  end.

(** *** Code smells *)

Definition add_todo (n : Z) : stats -> stats :=
  set_code_smells (fun x =>
    Build_CodeSmells (todo_comments x + n) (fixme_comments x) (hack_comments x)
                     (deprecated x) (long_functions x) (deep_nesting x)).

Definition add_fixme (n : Z) : stats -> stats :=
  set_code_smells (fun x =>
    Build_CodeSmells (todo_comments x) (fixme_comments x + n) (hack_comments x)
                     (deprecated x) (long_functions x) (deep_nesting x)).

Definition add_hack (n : Z) : stats -> stats :=
  set_code_smells (fun x =>
    Build_CodeSmells (todo_comments x) (fixme_comments x) (hack_comments x + n)
                     (deprecated x) (long_functions x) (deep_nesting x)).

Definition add_deprecated (n : Z) : stats -> stats :=
  set_code_smells (fun x =>
    Build_CodeSmells (todo_comments x) (fixme_comments x) (hack_comments x)
                     (deprecated x + n) (long_functions x) (deep_nesting x)).

Definition add_long_functions (n : Z) : stats -> stats :=
  set_code_smells (fun x =>
    Build_CodeSmells (todo_comments x) (fixme_comments x) (hack_comments x)
                     (deprecated x) (long_functions x + n) (deep_nesting x)).

Definition add_deep_nesting (n : Z) : stats -> stats :=
  set_code_smells (fun x =>
    Build_CodeSmells (todo_comments x) (fixme_comments x) (hack_comments x)
                     (deprecated x) (long_functions x) (deep_nesting x + n)).

(** The blocks longer than 100 lines. *)
Definition long_funcs (content : text) : list text :=
  List.filter (fun f => Str.count Chars.nl f >? 100)
              (Re.findall false QualityPatterns.function_pattern content).

(** The brace-depth loop: the pair is [(current_nesting, max_nesting)]. *)
Definition nest_step (st : Z * Z) (char : ascii) : Z * Z :=
  let '(current_nesting, max_nesting) := st in
  if Chars.same "{" char then
    (current_nesting + 1, Z.max max_nesting (current_nesting + 1))
  else if Chars.same "}" char then (current_nesting - 1, max_nesting)
  else (current_nesting, max_nesting).

Definition max_nesting (content : text) : Z :=
  snd (foldl nest_step (0, 0) content).

Section Run.

(** [self.root_dir] *)
Variable root_dir : Path.

(** The file system: [read_text p] is the content of [p], or [None]
    when opening or reading it raises; [exists_ p] is
    [Path(p).exists()]. *)
Variable read_text : Path -> option text.
Variable exists_ : Path -> bool.

(** The example of a family, recorded while its list has fewer than
    five entries. *)
Definition record_example (key : string) (mk : Path -> example)
    (filepath : Path) : M unit :=
  do! l := examples_of key in
  when (len l <? 5)
    (do! rel := lift (relative_to filepath root_dir) in
     append_example key (mk rel)).

Definition scan_magic (filepath : Path) (content : text) : M (list issue) :=
  let filtered_magic := filtered_magic content in
  if len filtered_magic >=? 5 then
    do! _ := modify (count_magic (len filtered_magic)) in
    do! _ := record_example "magic_numbers"
              (fun rel => MagicExample rel (len filtered_magic)
                                       (take 5 filtered_magic))
              filepath in
    ret [MagicIssue (len filtered_magic)]
  else ret [].

Definition scan_complexity (content : text) : M (list issue) :=
  do! complexity := lift (complexity_of content) in
  do! _ := modify (count_tier (tier_of complexity)) in
  ret (tier_issues (tier_of complexity)).

Definition scan_age (content : text) : M (list issue) :=
  match Re.findall false QualityPatterns.year_pattern content with
  | [] => ret []
  | y :: years =>
      let oldest_year := min_of (int_of y) (map int_of years) in
      do! _ := modify (count_age (age_of oldest_year)) in
      ret (age_issues (age_of oldest_year) oldest_year)
  end.

Definition scan_marker (pattern : Re.re) (add : Z -> stats -> stats)
    (mk : Z -> issue) (content : text) : M (list issue) :=
  let n := len (Re.findall false pattern content) in
  if n >? 0 then
    do! _ := modify (add n) in
    ret [mk n]
  else ret [].

Definition scan_deprecated (filepath : Path) (content : text)
  : M (list issue) :=
  let deprecated :=
    len (Re.findall false QualityPatterns.deprecated_pattern content) in
  if deprecated >? 0 then
    do! _ := modify (add_deprecated 1) in
    do! _ := record_example "deprecated" DeprecatedExample filepath in
    ret [DeprecatedIssue]
  else ret [].

Definition scan_long_functions (content : text) : M (list issue) :=
  match long_funcs content with
  | [] => ret []
  | _ :: _ =>
      do! _ := modify (add_long_functions (len (long_funcs content))) in
      ret [LongFunctionsIssue (len (long_funcs content))]
  end.

Definition scan_nesting (filepath : Path) (content : text)
  : M (list issue) :=
  let max_nesting := max_nesting content in
  if max_nesting >? 6 then
    do! _ := modify (add_deep_nesting 1) in
    do! _ := record_example "deep_nesting"
              (fun rel => NestingExample rel max_nesting) filepath in
    ret [DeepNestingIssue max_nesting]
  else ret [].

(** [analyze_file] once the content has been read: the indicator
    families in the order of the source. *)
Definition analyze_content (filepath : Path) (content : text) : M result :=
  do! magic := scan_magic filepath content in
  do! cplx := scan_complexity content in
  do! years := scan_age content in
  do! todos :=
    scan_marker QualityPatterns.todo_pattern add_todo TodoIssue content in
  do! fixmes :=
    scan_marker QualityPatterns.fixme_pattern add_fixme FixmeIssue content in
  do! hacks :=
    scan_marker QualityPatterns.hack_pattern add_hack HackIssue content in
  do! depr := scan_deprecated filepath content in
  do! long := scan_long_functions content in
  do! nest := scan_nesting filepath content in
  ret {| r_file := filepath;
         r_issues := magic ++ cplx ++ years ++ todos ++ fixmes ++ hacks
                     ++ depr ++ long ++ nest |}.

(** [analyze_file]: [None] is the [return None] of the handler. *)
Definition analyze_file (filepath : Path) : M (option result) :=
  match read_text filepath with
  | None => ret None
  | Some content =>
      do! r := analyze_content filepath content in
      ret (Some r)
  end.

(** The loop of [analyze_from_json] over the [file] entries of the
    poorly documented partition. *)
Fixpoint analyze_files (files : list Path) : M unit :=
  match files with
  | [] => ret tt
  | filepath :: rest =>
      do! _ := (if exists_ filepath
                then do! _ := analyze_file filepath in ret tt
                else ret tt) in
      analyze_files rest
  end.

Definition analyze_from_json (data : DocAnalyzer.stats) : M unit :=
  let poorly_doc_files :=
    DocAnalyzer.poor (DocAnalyzer.files_by_category data) in
  analyze_files (map DocAnalyzer.r_file poorly_doc_files).

End Run.

End CodeQualityAnalyzer.

(** * Vocabulary of the statements *)

Module DocSpec.
Import Py DocAnalyzer.

(** The paths that the directory pass analyzes: not under an excluded
    directory, and readable. *)
Definition analyzable (read_text : Path -> option text) (p : Path) : bool :=
  negb (bool_decide ("externals" ∈ p) || bool_decide ("examples" ∈ p))
  && match read_text p with Some _ => true | None => false end.

(** The number of files over the three category lists. *)
Definition category_total (st : stats) : Z :=
  len (well (files_by_category st))
  + len (partial (files_by_category st))
  + len (poor (files_by_category st)).

(** The results held by the three category lists. *)
Definition categorized (st : stats) : list result :=
  well (files_by_category st) ++ partial (files_by_category st)
  ++ poor (files_by_category st).

End DocSpec.

Module QualitySpec.
Import Py CodeQualityAnalyzer.

(** An identifier: word characters, the first of which is no digit. *)
Definition is_identifier (s : text) : bool :=
match s with
| x :: rest =>
    QualityPatterns.alnum_ x && negb (Chars.digit x)
    && forallb QualityPatterns.alnum_ rest
| [] => false
end.

(** The float literal 1.6 = 0x1.999999999999ap+0. *)
Definition lit_1_6 : spec_float := S754_finite false 7205759403792794 (-52).

(** A Hoare triple for the computations of the scanner: from a state
    satisfying [P], a normal return satisfies [Q] and a raised exception
    leaves a state satisfying [E]. *)
Definition triple {A : Type} (P : stats -> Prop) (m : M A)
  (Q : A -> stats -> Prop) (E : exn -> stats -> Prop) : Prop :=
forall st, P st ->
  match m st with
  | (st', Ok a) => Q a st'
  | (st', Raise e) => E e st'
  end.

(** A property of the state that a computation keeps, however it ends. *)
Definition invariant {A : Type} (I : stats -> Prop) (m : M A) : Prop :=
triple I m (fun _ => I) (fun _ => I).

(** The sum of the four complexity counters. *)
Definition counters_sum (c : Complexity) : Z :=
very_complex c + complex c + moderate c + simple c.

Definition complexity_total (st : stats) : Z := counters_sum (complexity st).

(** Exactly one of the four counters is one more, the others are as
    they were. *)
Definition one_counter_more (c c' : Complexity) : Prop :=
(very_complex c' = very_complex c + 1 /\ complex c' = complex c
 /\ moderate c' = moderate c /\ simple c' = simple c)
\/ (very_complex c' = very_complex c /\ complex c' = complex c + 1
    /\ moderate c' = moderate c /\ simple c' = simple c)
\/ (very_complex c' = very_complex c /\ complex c' = complex c
    /\ moderate c' = moderate c + 1 /\ simple c' = simple c)
\/ (very_complex c' = very_complex c /\ complex c' = complex c
    /\ moderate c' = moderate c /\ simple c' = simple c + 1).

(** The example list of a family; a family never touched has none. *)
Definition examples_for (key : string) (st : stats) : list example :=
default [] (examples st !! key).

(** Every example list holds at most five entries. *)
Definition capped (st : stats) : Prop :=
forall (key : string) (l : list example),
  examples st !! key = Some l -> (length l <= 5)%nat.

(** A list extended by new entries for as long as it has fewer than
    five. *)
Definition cap (l new : list example) : list example :=
l ++ take (5 - length l) new.

(** The state has these complexity counters and these example lists. *)
Definition tracks (c : Complexity) (g : string -> list example) (st : stats)
  : Prop :=
complexity st = c /\ forall key, examples_for key st = g key.

(** The state has this sum of complexity counters and these example
    lists. *)
Definition totals (n : Z) (g : string -> list example) (st : stats) : Prop :=
complexity_total st = n /\ forall key, examples_for key st = g key.

(** The complexity tier of a content. *)
Definition file_tier (content : text) : tier :=
match complexity_of content with
| Ok c => tier_of c
| Raise _ => Simple
end.

(** A path under the root directory. *)
Definition under (root_dir filepath : Path) : Prop :=
exists rel, relative_to filepath root_dir = Ok rel.

Section Entries.
Variable root_dir : Path.
Variable read_text : Path -> option text.
Variable exists_ : Path -> bool.

(** The entry a file with this content qualifies for in a family: one
    for [magic_numbers] when five or more literals remain, one for
    [deprecated] when a marker occurs, one for [deep_nesting] when the
    depth exceeds 6; no other family keeps examples. *)
Definition magic_entry (key : string) (filepath : Path) (content : text)
  : list example :=
if String.eqb "magic_numbers" key && (len (filtered_magic content) >=? 5)
then [MagicExample (drop (length root_dir) filepath)
                   (len (filtered_magic content))
                   (take 5 (filtered_magic content))]
else [].

Definition deprecated_entry (key : string) (filepath : Path) (content : text)
  : list example :=
if String.eqb "deprecated" key
   && (len (Re.findall false QualityPatterns.deprecated_pattern content) >? 0)
then [DeprecatedExample (drop (length root_dir) filepath)]
else [].

Definition nesting_entry (key : string) (filepath : Path) (content : text)
  : list example :=
if String.eqb "deep_nesting" key && (max_nesting content >? 6)
then [NestingExample (drop (length root_dir) filepath) (max_nesting content)]
else [].

Definition entries (key : string) (filepath : Path) (content : text)
  : list example :=
magic_entry key filepath content ++ deprecated_entry key filepath content
++ nesting_entry key filepath content.

(** The files of a run that are analyzed: they exist and can be read. *)
Definition analyzed (filepath : Path) : bool :=
exists_ filepath
&& match read_text filepath with Some _ => true | None => false end.

(** The qualifying entries of a family over a run, in the order in which
    the files are met. *)
Definition run_entries (key : string) (files : list Path) : list example :=
concat (map (fun filepath =>
               if exists_ filepath then
                 match read_text filepath with
                 | Some content => entries key filepath content
                 | None => []
                 end
               else []) files).

End Entries.

End QualitySpec.

(** * Sample inputs *)

Module Samples.

(** The file whose lines are the given ones, each ended by a newline. *)
Definition file_of (lines : list string) : text :=
  concat (map (fun l => txt l ++ [Chars.nl]) lines).

(** A documented class followed by a function whose [else] branch puts
    its [if] on the next line. *)
Definition else_if_file : text :=
  file_of [ "/// Helper";
            "class A;";
            "void f() {";
            "  if (a) b();";
            "  else";
            "    if (c) d();";
            "}" ].

(** A class under a full documentation block. *)
Definition documented_file : text :=
  file_of [ "/** \brief d @param x @return y */";
            "class A;" ].

(** A file without any declaration. *)
Definition plain_file : text := file_of [ "int x;" ].

Definition sample_path : Path := ["/"; "src"; "source"; "run"; "a.cc"].
Definition other_path : Path := ["/"; "src"; "source"; "run"; "b.hh"].
Definition missing_path : Path := ["/"; "src"; "source"; "run"; "c.hh"].

(** A tree of three headers and sources; [c.hh] cannot be read. *)
Definition sample_read (p : Path) : option text :=
  if bool_decide (p = sample_path) then Some else_if_file
  else if bool_decide (p = other_path) then Some documented_file
  else None.

Definition sample_rglob (ext : string) : list Path :=
  if String.eqb ext ".hh" then [other_path; missing_path]
  else if String.eqb ext ".cc" then [sample_path]
  else [].

(** A file of [n] lines of code, sixteen of which hold one control-flow
    keyword each. *)
Definition keyword_file (n : nat) : text :=
file_of (List.repeat "if (x) y;" 16 ++ List.repeat "z;" (n - 16)).

(** A run of the two passes: seven files with the same deeply nested,
    number-laden content, one file that is gone when the second pass
    runs, and one plain file. *)
Definition root : Path := ["/"; "src"].

Definition smelly_file : text :=
file_of [ "// Copyright 1999 TODO fix";
          "int f() {";
          "  if (x) { for (;;) { while (1) { { { { {";
          "    a = 12345 + 0xFE + 3.14159 + 0xFF + 777 + 100;";
          "  } } } } } } }";
          "}";
          "// deprecated" ].

Definition in_run (name : string) : Path := root ++ ["source"; "run"; name].

Definition smelly_paths : list Path :=
map in_run ["a.cc"; "b.cc"; "c.cc"; "d.cc"; "e.cc"; "f.cc"; "g.cc"].

Definition gone_path : Path := in_run "gone.cc".
Definition plain_path : Path := in_run "plain.cc".

Definition quality_read (p : Path) : option text :=
if bool_decide (p ∈ smelly_paths) then Some smelly_file
else if bool_decide (p = plain_path) then Some plain_file
else if bool_decide (p = gone_path) then Some plain_file
else None.

Definition quality_rglob (ext : string) : list Path :=
if String.eqb ext ".cc" then smelly_paths ++ [gone_path; plain_path]
else [].

(** [gone.cc] is deleted between the passes. *)
Definition quality_exists (p : Path) : bool :=
negb (bool_decide (p = gone_path)).

(** The statistics the first pass hands over. *)
Definition handoff : DocAnalyzer.stats :=
match DocAnalyzer.analyze_directory quality_read quality_rglob
        DocAnalyzer.init with
| Py.Ok st => st
| Py.Raise _ => DocAnalyzer.init
end.

End Samples.

(** * The scanner as a fold of per-file effects *)

Module QualityEffect.
Import Py CodeQualityAnalyzer QualitySpec.

(** A computation that, unless it raises, applies [f] to the state and
    returns [v]. *)
Definition effect {A : Type} (m : M A) (f : stats -> stats) (v : A)
  (E : exn -> stats -> Prop) : Prop :=
forall s0 : stats,
  triple (eq s0) m (fun a st => st = f s0 /\ a = v) E.

Section Effect.
Variable root_dir : Path.
Variable read_text : Path -> option text.
Variable exists_ : Path -> bool.

(** An example appended to the list of a family that has room for it. *)
Definition record_effect (key : string) (ex : example) : stats -> stats :=
set_examples (fun m => <[key := cap (default [] (m !! key)) [ex]]> m).

Definition magic_effect (filepath : Path) (content : text) (st : stats)
  : stats :=
if len (filtered_magic content) >=? 5 then
  record_effect "magic_numbers"
    (MagicExample (drop (length root_dir) filepath)
                  (len (filtered_magic content))
                  (take 5 (filtered_magic content)))
    (count_magic (len (filtered_magic content)) st)
else st.

Definition complexity_effect (content : text) : stats -> stats :=
count_tier (file_tier content).

(** The oldest year a content mentions, if it mentions one. *)
Definition oldest_year (content : text) : option Z :=
match Re.findall false QualityPatterns.year_pattern content with
| [] => None
| y :: years => Some (min_of (int_of y) (map int_of years))
end.

Definition age_effect (content : text) (st : stats) : stats :=
match oldest_year content with
| None => st
| Some y => count_age (age_of y) st
end.

Definition marker_count (pattern : Re.re) (content : text) : Z :=
len (Re.findall false pattern content).

Definition marker_effect (pattern : Re.re) (add : Z -> stats -> stats)
    (content : text) (st : stats) : stats :=
if marker_count pattern content >? 0
then add (marker_count pattern content) st
else st.

Definition has_deprecated (content : text) : bool :=
marker_count QualityPatterns.deprecated_pattern content >? 0.

Definition deprecated_effect (filepath : Path) (content : text) (st : stats)
  : stats :=
if has_deprecated content then
  record_effect "deprecated"
    (DeprecatedExample (drop (length root_dir) filepath))
    (add_deprecated 1 st)
else st.

Definition long_effect (content : text) (st : stats) : stats :=
match long_funcs content with
| [] => st
| _ :: _ => add_long_functions (len (long_funcs content)) st
end.

Definition nesting_effect (filepath : Path) (content : text) (st : stats)
  : stats :=
if max_nesting content >? 6 then
  record_effect "deep_nesting"
    (NestingExample (drop (length root_dir) filepath) (max_nesting content))
    (add_deep_nesting 1 st)
else st.

(** The effect of one analyzed file, family after family. *)
Definition file_effect (filepath : Path) (content : text) (st : stats)
  : stats :=
nesting_effect filepath content
  (long_effect content
     (deprecated_effect filepath content
        (marker_effect QualityPatterns.hack_pattern add_hack content
           (marker_effect QualityPatterns.fixme_pattern add_fixme content
              (marker_effect QualityPatterns.todo_pattern add_todo content
                 (age_effect content
                    (complexity_effect content
                       (magic_effect filepath content st)))))))).

(** The issues reported for a content. *)
Definition file_issues (content : text) : list issue :=
(if len (filtered_magic content) >=? 5
 then [MagicIssue (len (filtered_magic content))] else [])
++ tier_issues (file_tier content)
++ match oldest_year content with
   | None => []
   | Some y => age_issues (age_of y) y
   end
++ (if marker_count QualityPatterns.todo_pattern content >? 0
    then [TodoIssue (marker_count QualityPatterns.todo_pattern content)]
    else [])
++ (if marker_count QualityPatterns.fixme_pattern content >? 0
    then [FixmeIssue (marker_count QualityPatterns.fixme_pattern content)]
    else [])
++ (if marker_count QualityPatterns.hack_pattern content >? 0
    then [HackIssue (marker_count QualityPatterns.hack_pattern content)]
    else [])
++ (if has_deprecated content then [DeprecatedIssue] else [])
++ match long_funcs content with
   | [] => []
   | _ :: _ => [LongFunctionsIssue (len (long_funcs content))]
   end
++ (if max_nesting content >? 6
    then [DeepNestingIssue (max_nesting content)] else []).

(** The contents of the files of a run that are analyzed, in order. *)
Definition analyzed_contents (files : list Path) : list (Path * text) :=
omap (fun filepath =>
        if exists_ filepath
        then option_map (pair filepath) (read_text filepath)
        else None) files.

(** The effect of a run: the effects of its analyzed files, in order. *)
Definition run_effect (files : list Path) (st : stats) : stats :=
foldl (fun st '(filepath, content) => file_effect filepath content st)
      st (analyzed_contents files).

End Effect.

(** The sixteen counters of the statistics, in the order of
    [__init__]. *)
Definition counters (st : stats) : list Z :=
[ files_with_magic_numbers (magic_numbers st);
  total_magic_numbers (magic_numbers st);
  very_complex (complexity st); complex (complexity st);
  moderate (complexity st); simple (complexity st);
  very_old (age_indicators st); old (age_indicators st);
  recent (age_indicators st); modern (age_indicators st);
  todo_comments (code_smells st); fixme_comments (code_smells st);
  hack_comments (code_smells st); deprecated (code_smells st);
  long_functions (code_smells st); deep_nesting (code_smells st) ].

Definition indicator (b : bool) : Z := if b then 1 else 0.

Definition tier_is (t t' : tier) : bool :=
match t, t' with
| VeryComplex, VeryComplex | Complex, Complex
| Moderate, Moderate | Simple, Simple => true
| _, _ => false
end.

Definition age_is (a : age) (y : option Z) : bool :=
match y with
| None => false
| Some y =>
    match a, age_of y with
    | VeryOld, VeryOld | Old, Old | Recent, Recent | Modern, Modern => true
    | _, _ => false
    end
end.

(** What one analyzed content adds to each of the sixteen counters. *)
Definition file_counts (content : text) : list Z :=
[ indicator (len (filtered_magic content) >=? 5);
  (if len (filtered_magic content) >=? 5
   then len (filtered_magic content) else 0);
  indicator (tier_is VeryComplex (file_tier content));
  indicator (tier_is Complex (file_tier content));
  indicator (tier_is Moderate (file_tier content));
  indicator (tier_is Simple (file_tier content));
  indicator (age_is VeryOld (oldest_year content));
  indicator (age_is Old (oldest_year content));
  indicator (age_is Recent (oldest_year content));
  indicator (age_is Modern (oldest_year content));
  marker_count QualityPatterns.todo_pattern content;
  marker_count QualityPatterns.fixme_pattern content;
  marker_count QualityPatterns.hack_pattern content;
  indicator (has_deprecated content);
  len (long_funcs content);
  indicator (max_nesting content >? 6) ].

Definition add_counts (a b : list Z) : list Z := zip_with Z.add a b.

(** The bookkeeping that links each example list to the counter of its
    family. *)
Definition accounts (st : stats) : Prop :=
len (examples_for "magic_numbers" st)
  = Z.min 5 (files_with_magic_numbers (magic_numbers st))
/\ len (examples_for "deprecated" st)
   = Z.min 5 (deprecated (code_smells st))
/\ len (examples_for "deep_nesting" st)
   = Z.min 5 (deep_nesting (code_smells st)).

(** The list of a family has room for one more example. *)
Definition room (key : string) (st : stats) : bool :=
len (examples_for key st) <? 5.

(** The families a content qualifies for whose list has room. *)
Definition records_example (content : text) (st : stats) : bool :=
((len (filtered_magic content) >=? 5) && room "magic_numbers" st)
|| (has_deprecated content && room "deprecated" st)
|| ((max_nesting content >? 6) && room "deep_nesting" st).

(** At least five literals were counted for every file counted as
    having magic numbers. *)
Definition magic_floor (st : stats) : Prop :=
0 <= files_with_magic_numbers (magic_numbers st)
/\ 5 * files_with_magic_numbers (magic_numbers st)
   <= total_magic_numbers (magic_numbers st).

(** The sum of the four age counters. *)
Definition age_total (st : stats) : Z :=
very_old (age_indicators st) + old (age_indicators st)
+ recent (age_indicators st) + modern (age_indicators st).

End QualityEffect.

Module EffectSamples.

(** A path outside the root directory of the samples. *)
Definition outside_path : Path := ["/"; "elsewhere"; "a.cc"].

(** The files handed to the second pass in the sample run. *)
Definition run_files : list Path :=
Samples.smelly_paths ++ [Samples.gone_path; Samples.plain_path].

End EffectSamples.

(** * The directory pass as a function of the walked files *)

Module DocCoverage.
Import Py DocAnalyzer DocSpec.

(** A line that holds a documentation opener, as the loop over the
    lines tests it. *)
Definition opener (line : text) : bool :=
Str.contains (txt "/**") line || Str.contains (txt "///") line.

(** The statistics of a module; those of the default factory for a
    module that was never met. *)
Definition module_stat_of (k : string) (st : stats) : module_stat :=
default new_module_stat (module_stats st !! k).

(** The sum of a field over the modules. *)
Definition module_sum (f : module_stat -> Z) (m : gmap string module_stat)
  : Z :=
map_fold (fun _ ms acc => f ms + acc) 0 m.

(** The sum of a field over a list of results. *)
Definition result_sum (f : result -> Z) (l : list result) : Z :=
foldr (fun r acc => f r + acc) 0 l.

Definition same_category (c c' : category) : bool :=
match c, c' with
| well_documented, well_documented
| partially_documented, partially_documented
| poorly_documented, poorly_documented => true
| _, _ => false
end.

Section Walk.
Variable read_text : Path -> option text.

(** The result of the analysis of a path, when the path is analyzed. *)
Definition analysis_of (p : Path) : option result :=
if analyzable read_text p then
  match read_text p with
  | Some content =>
      match analyze_content p content with
      | Ok r => Some r
      | Raise _ => None
      end
  | None => None
  end
else None.

(** The analyses of the paths, in their order. *)
Definition analyses (paths : list Path) : list result :=
omap analysis_of paths.

(** The analyses that fall in a category. *)
Definition results_in (c : category) (paths : list Path) : list result :=
List.filter (fun r => same_category c (r_category r)) (analyses paths).

(** The analyzed paths of a module. *)
Definition module_paths (k : string) (paths : list Path) : list Path :=
List.filter (fun p => analyzable read_text p && String.eqb (module_of p) k)
            paths.

(** The paths that the first pass files as poorly documented. *)
Definition poorly (p : Path) : bool :=
match analysis_of p with
| Some r => same_category poorly_documented (r_category r)
| None => false
end.

End Walk.

(** The site of a match counts as documented. *)
Definition documented_site (content : text) (m : Re.rmatch) : bool :=
covered (doc_positions (Str.split_nl content)) (line_num content m).

(** The three category counters of a module add up to its files. *)
Definition balanced (ms : module_stat) : Prop :=
ms_well_doc ms + ms_partial_doc ms + ms_poor_doc ms = ms_files ms.

Definition in_category (c : category) (r : result) : Z :=
if same_category c (r_category r) then 1 else 0.

(** The results of the files of a module. *)
Definition of_module (k : string) (rs : list result) : list result :=
List.filter (fun r => String.eqb (module_of (r_file r)) k) rs.

(** The statistics after the given results have been folded in, one
    after the other. *)
Definition run_results (rs : list result) (st : stats) : stats :=
foldl (fun st r => fold_result (r_file r) r st) st rs.

End DocCoverage.

(** * What a pattern matches *)

Module ReSpec.
Import Re.

(** Zero or more steps of a relation on cursors. *)
Inductive star (R : cursor -> cursor -> Prop) : cursor -> cursor -> Prop :=
| star_refl (c : cursor) : star R c c
| star_step (c c1 c2 : cursor) : R c c1 -> star R c1 c2 -> star R c c2.

(** One character of a class is passed. *)
Definition step (p : ascii -> bool) (c c' : cursor) : Prop :=
exists x : ascii,
  ahead c = x :: ahead c' /\ p x = true
  /\ behind c' = x :: behind c /\ group1 c' = group1 c.

(** The cursors a pattern can lead to from a cursor, whatever the
    priorities among them. *)
Fixpoint lang (r : re) (c c' : cursor) : Prop :=
match r with
| Eps => c' = c
| Chr p => step p c c'
| Seq r1 r2 => exists c1, lang r1 c c1 /\ lang r2 c1 c'
| Alt r1 r2 => lang r1 c c' \/ lang r2 c c'
| Star _ r' => star (lang r') c c'
| Group r' =>
    exists c1,
      lang r' c c1
      /\ c' = Cursor (behind c1) (ahead c1) (Some (consumed c c1))
| Bol => at_bol c = true /\ c' = c
| Eol multiline => at_eol multiline c = true /\ c' = c
| WordB => at_wordb c = true /\ c' = c
| NotBehind p => prev_is p c = false /\ c' = c
| NotAhead p => next_is p c = false /\ c' = c
end.

(** The second cursor is the first one moved forward over [s]. *)
Definition advance (s : text) (c c' : cursor) : Prop :=
ahead c = s ++ ahead c' /\ behind c' = rev s ++ behind c.

(** A match of the pattern lies at this place of the subject: [pre] is
    the text before it, [post] the text after it. *)
Definition match_of (r : re) (pre : text) (m : rmatch) (post : text) : Prop :=
m_start m = length pre
/\ m_end m = (length pre + length (m_text m))%nat
/\ exists c',
     lang r (Cursor (rev pre) (m_text m ++ post) None) c'
     /\ advance (m_text m) (Cursor (rev pre) (m_text m ++ post) None) c'
     /\ m_group m = group1 c'.

End ReSpec.

(** * Brace depth *)

Module NestingSpec.

(** The opening braces read so far minus the closing ones, after the
    first [k] characters. *)
Definition depth_after (k : nat) (content : text) : Z :=
Str.count "{" (firstn k content) - Str.count "}" (firstn k content).

(** What one character adds to the depth. *)
Definition brace_delta (c : ascii) : Z :=
if Chars.same "{" c then 1 else if Chars.same "}" c then -1 else 0.

End NestingSpec.

(** * The reports on the documentation statistics *)

(** ** [DocAnalyzer.generate_report] *)

Module DocReport.
Import Py DocAnalyzer.

(** [100 * n / max(d, 1)] *)
Definition percent (n d : Z) : outcome num :=
truediv (Int (100 * n)) (max2 (Int d) (Int 1)).

(** The binary64 quotient of [100 * n] by [d], taken as 1 when it is
    smaller. *)
Definition quotient_pct (n d : Z) : num :=
Float (SFdiv prec emax (of_int (100 * n)) (of_int (Z.max d 1))).

(** The dict under ['summary'] that the report returns. *)
Record summary : Type := Summary {
  well_documented_pct : num;
  partially_documented_pct : num;
  poorly_documented_pct : num;
  class_documentation_pct : num;
  function_documentation_pct : num
}.

(** The percentage printed on the row of a module; a module without a
    file has no row. *)
Definition module_row (ms : module_stat) : outcome (option num) :=
if ms_files ms =? 0 then Ok None
else
  let total_items := ms_classes ms + ms_functions ms in
  let doc_items := ms_doc_classes ms + ms_doc_functions ms in
  let! doc_pct := percent doc_items total_items in
  Ok (Some doc_pct).

Fixpoint module_rows (l : list module_stat) : outcome (list (option num)) :=
match l with
| [] => Ok []
| ms :: rest =>
    let! row := module_row ms in
    let! rows := module_rows rest in
    Ok (row :: rows)
end.

(** [generate_report].  What is printed is not kept, but the divisions
    made for the printed lines are, in the order of the source: any of
    them could raise before the summary is built.  The rows of the
    module table are computed for each module; the order in which the
    table prints them is not modelled. *)
Definition generate_report (st : stats) : outcome summary :=
let total := total_files st in
let well := len (well (files_by_category st)) in
let partial := len (partial (files_by_category st)) in
let poor := len (poor (files_by_category st)) in
let! _ := percent (documented_classes st) (total_classes st) in
let! _ := percent (documented_functions st) (total_functions st) in
let! _ := percent well total in
let! _ := percent partial total in
let! _ := percent poor total in
let! _ := module_rows (map snd (map_to_list (module_stats st))) in
let! well_pct := percent well total in
let! partial_pct := percent partial total in
let! poor_pct := percent poor total in
let! class_pct := percent (documented_classes st) (total_classes st) in
let! function_pct :=
  percent (documented_functions st) (total_functions st) in
Ok {| well_documented_pct := well_pct;
      partially_documented_pct := partial_pct;
      poorly_documented_pct := poor_pct;
      class_documentation_pct := class_pct;
      function_documentation_pct := function_pct |}.

End DocReport.

(** ** [show_examples.py] *)

Module ShowExamples.
Import Py DocAnalyzer.

(** ['/home/user/geant4'] *)
Definition project_root : Path := ["/"; "home"; "user"; "geant4"].

(** [sorted(l, key=lambda x: x['quality_score'], reverse=True)]: the
    stable sort by descending score, by insertion from the right. *)
Fixpoint insert_desc (r : result) (l : list result) : list result :=
match l with
| [] => [r]
| x :: l' =>
    if r_quality_score r <? r_quality_score x
    then x :: insert_desc r l'
    else r :: x :: l'
end.

Definition sort_desc (l : list result) : list result :=
foldr insert_desc [] l.

(** [Path(f['file']).relative_to('/home/user/geant4')], with the entry
    it is printed for. *)
Definition shown_entry (f : result) : outcome (Path * result) :=
let! rel_path := CodeQualityAnalyzer.relative_to (r_file f) project_root in
Ok (rel_path, f).

(** A loop that prints one entry after the other. *)
Fixpoint shown_entries (l : list result) : outcome (list (Path * result)) :=
match l with
| [] => Ok []
| f :: rest =>
    let! e := shown_entry f in
    let! es := shown_entries rest in
    Ok (e :: es)
end.

(** [f['classes'] + f['functions'] > 20 and f['doc_blocks'] == 0] *)
Definition is_large_no_docs (f : result) : bool :=
(r_classes f + r_functions f >? 20) && (r_doc_blocks f =? 0).

(** [f['doc_blocks'] > 0 and f['doc_blocks'] < 3] *)
Definition is_minimal_docs (f : result) : bool :=
(r_doc_blocks f >? 0) && (r_doc_blocks f <? 3).

(** What the script shows. *)
Record shown : Type := Shown {
  top_well : list (Path * result);
  top_partial : list (Path * result);
  large_example : option (Path * result);
  minimal_examples : list (Path * result);
  well_count : Z;
  well_pct : num;
  partial_count : Z;
  partial_pct : num;
  poor_count : Z;
  poor_pct : num
}.

(** [show_examples], on the loaded [data]. *)
Definition show_examples (data : stats) : outcome shown :=
let well_doc := take 5 (sort_desc (well (files_by_category data))) in
let! top_well := shown_entries well_doc in
let partial_doc := take 5 (sort_desc (partial (files_by_category data))) in
let! top_partial := shown_entries partial_doc in
let poor_doc := poor (files_by_category data) in
let large_no_docs := List.filter is_large_no_docs poor_doc in
let! large_example :=
  match large_no_docs with
  | f :: _ => let! e := shown_entry f in Ok (Some e)
  | [] => Ok None
  end in
let minimal_docs := take 3 (List.filter is_minimal_docs poor_doc) in
let! minimal_examples := shown_entries minimal_docs in
let! well_pct :=
  truediv (Int (100 * len (well (files_by_category data))))
          (Int (total_files data)) in
let! partial_pct :=
  truediv (Int (100 * len (partial (files_by_category data))))
          (Int (total_files data)) in
let! poor_pct :=
  truediv (Int (100 * len (poor (files_by_category data))))
          (Int (total_files data)) in
Ok {| top_well := top_well;
      top_partial := top_partial;
      large_example := large_example;
      minimal_examples := minimal_examples;
      well_count := len well_doc;
      well_pct := well_pct;
      partial_count := len (partial (files_by_category data));
      partial_pct := partial_pct;
      poor_count := len (poor (files_by_category data));
      poor_pct := poor_pct |}.

(** The results with a given score. *)
Definition with_score (q : Z) (l : list result) : list result :=
List.filter (fun r => r_quality_score r =? q) l.

(** Every file of a list is under the root directory. *)
Definition all_under_root (l : list result) : Prop :=
Forall (fun f => QualitySpec.under project_root (r_file f)) l.

(** A list of results by descending score: no result has a higher
    score than a result before it. *)
Fixpoint descending (l : list result) : Prop :=
match l with
| [] => True
| x :: l' =>
    Forall (fun y => r_quality_score y <= r_quality_score x) l'
    /\ descending l'
end.

End ShowExamples.

Module ReportSamples.
Import Py DocAnalyzer.

(** An empty tree. *)
Definition no_files (ext : string) : list Path := [].

(** A result with this file and score, as the loaded results hold
    it. *)
Definition scored (name : string) (score : Z) : result :=
Result (ShowExamples.project_root ++ ["source"; "run"; name]) 1 0 1 0 1 0 1 1 1
       (Float (of_int 1)) score (categorize score) 44.

(** Six well-documented files, one partially documented one. *)
Definition seven_files : stats :=
Stats 7 7 0 7 0
  (ByCategory [scored "a.hh" 60; scored "b.hh" 100; scored "c.hh" 75;
               scored "d.hh" 100; scored "e.hh" 80; scored "f.hh" 60]
              [scored "g.hh" 40] [])
  ∅.

End ReportSamples.

(** * [docs/scripts/check-links.py]: the documentation link checker *)

(** ** The functions of [str] and [os.path] the script calls

    Paths are strings here, as in the script; [os.path] is the POSIX
    one. *)

Module PosixPath.

(** [not s], for a string or a list *)
Definition is_empty {A : Type} (s : list A) : bool :=
match s with [] => true | _ :: _ => false end.

(** [s.endswith(p)] *)
Definition endswith (p s : text) : bool := Str.startswith (rev p) (rev s).

(** [s.split(c)] for a one-character [c] *)
Fixpoint split (c : ascii) (s : text) : list text :=
match s with
| [] => [[]]
| x :: s' =>
    if Chars.same c x then [] :: split c s'
    else match split c s' with
         | l :: ls => (x :: l) :: ls
         | [] => [[x]]
         end
end.

(** [c.join(ls)] *)
Fixpoint join_with (c : ascii) (ls : list text) : text :=
match ls with
| [] => []
| [l] => l
| l :: ls' => l ++ c :: join_with c ls'
end.

(** [s.lstrip(c)] *)
Fixpoint lstrip_char (c : ascii) (s : text) : text :=
match s with
| x :: s' => if Chars.same c x then lstrip_char c s' else s
| [] => []
end.

(** [s.rstrip(c)] *)
Definition rstrip (c : ascii) (s : text) : text := rev (lstrip_char c (rev s)).

(** [s.rfind(c)]: the index of the last [c], or -1. *)
Definition rfind (c : ascii) (s : text) : Z :=
snd (foldl (fun '(i, found) x => (i + 1, if Chars.same c x then i else found))
           (0, -1) s).

(** [s[i:j]] for indices that are not negative *)
Definition slice (i j : Z) (s : text) : text :=
take (Z.to_nat (j - i)) (drop (Z.to_nat i) s).

(** [os.path.join(a, b)] *)
Definition join (a b : text) : text :=
if Str.startswith (txt "/") b then b
else if is_empty a || endswith (txt "/") a then a ++ b
else a ++ txt "/" ++ b.

(** [os.path.dirname(p)] *)
Definition dirname (p : text) : text :=
let i := rfind "/" p + 1 in
let head := slice 0 i p in
if negb (is_empty head) && negb (Str.eqb head (repeat "/"%char (length head)))
then rstrip "/" head
else head.

(** The loop of [os.path.normpath] over the components. *)
Definition norm_step (initial_slashes : nat) (new_comps : list text)
    (comp : text) : list text :=
if Str.eqb comp [] || Str.eqb comp (txt ".") then new_comps
else if negb (Str.eqb comp (txt ".."))
        || ((initial_slashes =? 0)%nat && is_empty new_comps)
        || (negb (is_empty new_comps)
            && match last new_comps with
               | Some l => Str.eqb l (txt "..")
               | None => false
               end)
then new_comps ++ [comp]
else if negb (is_empty new_comps) then removelast new_comps
else new_comps.

(** [os.path.normpath(path)] *)
Definition normpath (path : text) : text :=
if is_empty path then txt "."
else
  let initial_slashes :=
    if Str.startswith (txt "/") path then
      if Str.startswith (txt "//") path
         && negb (Str.startswith (txt "///") path)
      then 2%nat else 1%nat
    else 0%nat in
  let comps := foldl (norm_step initial_slashes) [] (split "/" path) in
  let path := join_with "/" comps in
  let path := repeat "/"%char initial_slashes ++ path in
  if is_empty path then txt "." else path.

(** [os.path.splitext(p)] *)
Definition splitext (p : text) : text * text :=
let sepIndex := rfind "/" p in
let dotIndex := rfind "." p in
if (dotIndex >? sepIndex)
   && existsb (fun x => negb (Chars.same "." x))
              (slice (sepIndex + 1) dotIndex p)
then (slice 0 dotIndex p, drop (Z.to_nat dotIndex) p)
else (p, []).

End PosixPath.

(** ** Patterns with two capturing groups

    The pattern is written as two patterns in sequence, the first
    holding group 1 and the second group 2: the matcher runs the second
    from every cursor the first reaches, so that backtracking crosses
    the seam as it does inside one pattern. *)

Module Re2.
Import Re.

(** A match object with its two groups. *)
Record rmatch2 : Type := Match2 {
  m_start : nat;
  m_end : nat;
  m_text : text;
  m_group1 : option text;
  m_group2 : option text
}.

Definition match_at2 (r1 r2 : re) (bef aft : text) : option rmatch2 :=
let c := Cursor bef aft None in
run r1 c (fun c1 =>
  run r2 (Cursor (behind c1) (ahead c1) None) (fun c2 =>
    Some (Match2 (pos c) (pos c2) (consumed c c2) (group1 c1) (group1 c2)))).

(** The scan of [Re.scan], for two groups. *)
Fixpoint scan2 (r1 r2 : re) (bef aft : text) (skip : nat) {struct aft}
  : list rmatch2 :=
match skip with
| S sk =>
    match aft with
    | x :: rest => scan2 r1 r2 (x :: bef) rest sk
    | [] => []
    end
| O =>
    match match_at2 r1 r2 bef aft with
    | Some m =>
        m :: match aft with
             | x :: rest =>
                 scan2 r1 r2 (x :: bef) rest (m_end m - m_start m - 1)
             | [] => []
             end
    | None =>
        match aft with
        | x :: rest => scan2 r1 r2 (x :: bef) rest O
        | [] => []
        end
    end
end.

(** [re.findall(pattern, s)] for a pattern with two groups: the pairs
    of the texts of the groups. *)
Definition findall2 (r1 r2 : re) (s : text) : list (text * text) :=
map (fun m => (default [] (m_group1 m), default [] (m_group2 m)))
    (scan2 r1 r2 [] s O).

End Re2.

Module CheckLinks.
Import Re.
Local Open Scope re_scope.

(** [[^\]]]; [[^)]] is [DocPatterns.not_rparen] *)
Definition not_rbracket (c : ascii) : bool := negb (Chars.same "]" c).

(** [\[([^\]]+)\]\(([^)]+)\)], cut before the [\]] that follows group 1 *)
Definition link_text : re := lit "[" ~> Group (Plus (Chr not_rbracket)).
Definition link_url : re :=
lit "](" ~> Group (Plus (Chr DocPatterns.not_rparen)) ~> lit ")".

(** A directory: its subdirectories and its files, by name, in the
    order in which the system lists them.  Symbolic links are left
    out. *)
Inductive tree : Type :=
| Dir (dirs : list (text * tree)) (files : list text).

(** [['node_modules', 'dist', '.vitepress']] *)
Definition pruned : list text :=
[txt "node_modules"; txt "dist"; txt ".vitepress"].

(** [find_markdown_files]: the walk from the top down, the pruned
    directories removed from [dirs] before the walk goes on. *)
Fixpoint find_markdown_files (root : text) (t : tree) : list text :=
match t with
| Dir dirs files =>
    map (PosixPath.join root)
        (List.filter (PosixPath.endswith (txt ".md")) files)
    ++ (fix below (ds : list (text * tree)) : list text :=
          match ds with
          | [] => []
          | (d, sub) :: rest =>
              (if Str.mem d pruned then []
               else find_markdown_files (PosixPath.join root d) sub)
              ++ below rest
          end) dirs
end.

(** The three tests that skip a link. *)
Definition skipped (url : text) : bool :=
Str.startswith (txt "http://") url || Str.startswith (txt "https://") url
|| Str.startswith (txt "#") url
|| Str.startswith (txt "mailto:") url.

(** [resolve_link]; [docs_dir] is the third argument of the source. *)
Definition resolve_link (source_file link_url docs_dir : text)
  : option text * option text :=
let url_parts := PosixPath.split "#" link_url in
let file_url := default [] (url_parts !! 0%nat) in
let anchor :=
  if (1 <? length url_parts)%nat then url_parts !! 1%nat else None in
if PosixPath.is_empty file_url then (None, anchor)
else
  let target :=
    if Str.startswith (txt "/") file_url then
      let file_url := PosixPath.lstrip_char "/" file_url in
      PosixPath.join docs_dir file_url
    else
      let source_dir := PosixPath.dirname source_file in
      PosixPath.normpath (PosixPath.join source_dir file_url) in
  let target :=
    if PosixPath.is_empty (snd (PosixPath.splitext target))
    then target ++ txt ".md" else target in
  (Some target, anchor).

(** An entry of [broken_links]; [source] is kept as the path of the
    file, which the script shortens with [os.path.relpath] for the
    printed report. *)
Record broken : Type := Broken {
  source : text;
  link_text_of : text;
  link_url_of : text;
  resolved : text
}.

Section Files.

(** The file system: [read_text p] is the content of [p], or [None]
    when opening or decoding it raises; [exists_] and [isfile] are
    [os.path.exists] and [os.path.isfile]. *)
Variable read_text : text -> option text.
Variable exists_ : text -> bool.
Variable isfile : text -> bool.

(** [extract_links]: [None] when the file cannot be read, an exception
    that nothing catches. *)
Definition extract_links (file_path docs_dir : text)
  : option (list (text * text)) :=
match read_text file_path with
| None => None
| Some content =>
    let matches := Re2.findall2 link_text link_url content in
    Some (List.filter (fun '(_, url) => negb (skipped url)) matches)
end.

(** [check_file_exists] *)
Definition check_file_exists (file_path : text) : bool :=
exists_ file_path && isfile file_path.

(** The inner loop of [main]: the pair is
    [(total_links, broken_links)]. *)
Definition check_link (md_file docs_dir : text) (acc : Z * list broken)
    (link : text * text) : Z * list broken :=
let '(total_links, broken_links) := acc in
let '(link_text, link_url) := link in
let total_links := total_links + 1 in
let '(target_file, anchor) := resolve_link md_file link_url docs_dir in
match target_file with
| Some target =>
    if negb (PosixPath.is_empty target) && negb (check_file_exists target)
    then (total_links,
          broken_links ++ [Broken md_file link_text link_url target])
    else (total_links, broken_links)
| None => (total_links, broken_links)
end.

(** The outer loop of [main]. *)
Fixpoint check_files (md_files : list text) (docs_dir : text)
    (acc : Z * list broken) : option (Z * list broken) :=
match md_files with
| [] => Some acc
| md_file :: rest =>
    match extract_links md_file docs_dir with
    | None => None
    | Some links =>
        check_files rest docs_dir (foldl (check_link md_file docs_dir) acc links)
    end
end.

(** ['/home/user/geant4/docs'] *)
Definition docs_dir : text := txt "/home/user/geant4/docs".

(** [main], over the tree found at [docs_dir]: the number of broken
    links, or [None] when reading a file raises. *)
Definition main (docs : tree) : option Z :=
let md_files := find_markdown_files docs_dir docs in
match check_files md_files docs_dir (0, []) with
| Some (total_links, broken_links) => Some (Py.len broken_links)
| None => None
end.

(** The links of a file that [extract_links] returns; none when the
    file cannot be read. *)
Definition links_of (md_file : text) : list (text * text) :=
default [] (extract_links md_file docs_dir).

(** The link resolves to a target that is not an existing file. *)
Definition missing (md_file : text) (link : text * text) : bool :=
match fst (resolve_link md_file (snd link) docs_dir) with
| Some target => negb (check_file_exists target)
| None => false
end.

(** The links checked over a list of files, and those among them
    that are missing. *)
Definition link_count (md_files : list text) : Z :=
Py.len (concat (map links_of md_files)).

Definition missing_links (md_files : list text) : list (text * (text * text)) :=
concat (map (fun f => map (pair f) (List.filter (missing f) (links_of f)))
            md_files).

(** Every file of the list can be read. *)
Definition readable (md_files : list text) : bool :=
forallb (fun f => bool_decide (is_Some (read_text f))) md_files.

End Files.

(** The text of a link as it stands in a page. *)
Definition link_source (link : text * text) : text :=
txt "[" ++ fst link ++ txt "](" ++ snd link ++ txt ")".

End CheckLinks.

Module LinkSamples.
Import CheckLinks.

(** A documentation tree: a guide with two pages, and the output of a
    build that the walk must not enter. *)
Definition docs : tree :=
Dir [ (txt "guide", Dir [] [txt "intro.md"; txt "setup.md"; txt "logo.png"]);
      (txt "dist", Dir [] [txt "intro.md"]);
      (txt ".vitepress", Dir [(txt "cache", Dir [] [txt "x.md"])] []) ]
    [txt "index.md"].

Definition index_md : text :=
txt "[Intro](guide/intro) [Setup](/guide/setup.md#install) [Gone](guide/gone) [Web](https://example.org) [Top](#top)".

Definition read_text (p : text) : option text :=
if Str.eqb p (txt "/home/user/geant4/docs/index.md") then Some index_md
else if Str.eqb p (txt "/home/user/geant4/docs/guide/intro.md")
then Some (txt "[Back](../index.md) ![Logo](logo.png)")
else if Str.eqb p (txt "/home/user/geant4/docs/guide/setup.md")
then Some (txt "no link")
else None.

Definition isfile (p : text) : bool :=
Str.mem p [ txt "/home/user/geant4/docs/index.md";
            txt "/home/user/geant4/docs/guide/intro.md";
            txt "/home/user/geant4/docs/guide/setup.md";
            txt "/home/user/geant4/docs/guide/logo.png" ].

End LinkSamples.

(** * The matcher on small inputs

    Each expected value is what Python's [re] returns for the same
    pattern and subject. *)

Module ReExamples.
Import Re.

Example magic_scan :
  findall false QualityPatterns.magic_number_pattern
    (txt "0xFF 0xFE 0xff 3.14159 3.14 v100x 1e10 100e5 1234.5e3 x=0x1F; 0X1F 42 12345")
  = map txt ["0xFF"; "0xFE"; "0xff"; "3.14159"; "1234"; "0x1F"; "12345"].
Proof. vm_compute. reflexivity. Qed.

Example signature_scan :
  findall true DocPatterns.function_pattern Samples.else_if_file = [txt "if"]
  /\ map m_start (finditer DocPatterns.function_pattern Samples.else_if_file)
     = [45%nat].
Proof. split; vm_compute; reflexivity. Qed.

Example doc_line_scan :
  findall false DocPatterns.doc_line_pattern
    (Samples.file_of ["  /// a"; ""; "/// b"; "x /// c"])
  = [txt "  /// a"; Chars.nl :: txt "/// b"].
Proof. vm_compute. reflexivity. Qed.

Example block_scan :
  findall false QualityPatterns.function_pattern
    (txt "f() { a { b } c { d } } g { { { } } }")
  = map txt ["{ a { b } c { d } }"; "{ { } }"].
Proof. vm_compute. reflexivity. Qed.

Example marker_scan :
  findall false QualityPatterns.todo_pattern
    (Samples.file_of ["// a todo b ToDo"; "/* x TODO y */ /* z */"])
  = map txt ["// a todo"; "/* x TODO y */"].
Proof. vm_compute. reflexivity. Qed.

Example comment_strip :
  CodeQualityAnalyzer.strip_comments (txt "a /* 123 */ b /* c */ d // 4567")
  = txt "a  b  d ".
Proof. vm_compute. reflexivity. Qed.

Example keyword_scan :
  findall true QualityPatterns.control_pattern
    (txt "if (x) for while(iffy) case_ switch case: elseif")
  = map txt ["if"; "for"; "while"; "switch"; "case"].
Proof. vm_compute. reflexivity. Qed.

Example split_lines :
  Str.split_nl (Samples.file_of ["a"; "b"]) = [txt "a"; txt "b"; []].
Proof. vm_compute. reflexivity. Qed.

End ReExamples.

(** * Properties of the Documentation Classifier *)

Module DocFacts.
Import Py DocAnalyzer DocSpec.

Lemma truediv_ok (a b : num) :
  is_zero b = false ->
  truediv a b = Ok (Float (SFdiv prec emax (to_float a) (to_float b))).
Proof. intros Hb. unfold truediv. now rewrite Hb. Qed.

Lemma doc_ratio_of_cases (documented total : Z) :
  (0 < total /\
   doc_ratio_of documented total =
     Ok (Float (SFdiv prec emax (of_int documented) (of_int total))))
  \/ (total <= 0 /\ doc_ratio_of documented total = Ok (Int 0)).
Proof.
  unfold doc_ratio_of. destruct (total >? 0) eqn:Ht.
  - left. split; [lia|]. apply truediv_ok. simpl. lia.
  - right. split; [lia|reflexivity].
Qed.

Lemma size_bonus_cases (q doc_chars code_chars : Z) :
  size_bonus q doc_chars code_chars = Ok q
  \/ size_bonus q doc_chars code_chars = Ok (q + 15).
Proof.
  unfold size_bonus. destruct (code_chars >? 0) eqn:Hc; [|now left].
  rewrite (truediv_ok (Int doc_chars) (Int code_chars)) by (simpl; lia).
  cbn [bind]. destruct (gt _ _); [now right|now left].
Qed.

Lemma ratio_bonus_cases (doc_ratio : num) :
  ratio_bonus doc_ratio = 30 \/ ratio_bonus doc_ratio = 15
  \/ ratio_bonus doc_ratio = 5 \/ ratio_bonus doc_ratio = 0.
Proof.
  unfold ratio_bonus.
  destruct (gt doc_ratio (Float lit_0_7)); [now left|].
  destruct (gt doc_ratio (Float lit_0_4)); [now right; left|].
  destruct (gt doc_ratio (Float lit_0_1)); [now right; right; left|].
  now right; right; right.
Qed.

(** The score is a sum of five bonuses, each either absent or at its
    fixed weight. *)
Lemma quality_score_of_sum (doc_ratio : num) (p r b dc cc : Z) :
  exists bp br bb bs,
    quality_score_of doc_ratio p r b dc cc
      = Ok (ratio_bonus doc_ratio + bp + br + bb + bs)
    /\ (bp = 0 \/ bp = 20) /\ (br = 0 \/ br = 20)
    /\ (bb = 0 \/ bb = 15) /\ (bs = 0 \/ bs = 15).
Proof.
  unfold quality_score_of.
  exists (if p >? 0 then 20 else 0), (if r >? 0 then 20 else 0),
         (if b >? 0 then 15 else 0).
  match goal with
  | |- context [size_bonus ?q dc cc] =>
      destruct (size_bonus_cases q dc cc) as [E|E]; rewrite E
  end.
  - exists 0. repeat split;
      try (destruct (p >? 0), (r >? 0), (b >? 0); (f_equal; lia) || tauto).
  - exists 15. repeat split;
      try (destruct (p >? 0), (r >? 0), (b >? 0); (f_equal; lia) || tauto).
Qed.

(** [analyze_content] never raises, and its result has this shape. *)
Lemma analyze_content_shape (filepath : Path) (content : text) :
  exists doc_ratio quality_score,
    doc_ratio_of (documented_items content) (total_items content)
      = Ok doc_ratio
    /\ quality_score_of doc_ratio (param_count content)
         (return_count content) (brief_count content)
         (len (all_docs content)) (len content) = Ok quality_score
    /\ analyze_content filepath content =
       Ok {| r_file := filepath;
             r_classes := len (classes content);
             r_functions := len (functions content);
             r_documented_classes := documented_classes_in content;
             r_documented_functions := documented_functions_in content;
             r_doc_blocks := len (doc_blocks content);
             r_doc_lines := len (doc_lines content);
             r_brief_count := brief_count content;
             r_param_count := param_count content;
             r_return_count := return_count content;
             r_doc_ratio := doc_ratio;
             r_quality_score := quality_score;
             r_category := categorize quality_score;
             r_file_size := len content |}.
Proof.
  unfold analyze_content.
  destruct (doc_ratio_of_cases (documented_items content) (total_items content))
    as [[_ E]|[_ E]]; rewrite E; cbn [bind].
  all: match goal with
       | |- context [quality_score_of ?d ?p ?r ?b ?dc ?cc] =>
           destruct (quality_score_of_sum d p r b dc cc)
             as (bp & br & bb & bs & Eq & _); rewrite Eq; cbn [bind]
       end.
  all: eexists _, _; split; [reflexivity|split; [exact Eq|reflexivity]].
Qed.

Lemma categorize_cases (quality_score : Z) :
  (60 <= quality_score -> categorize quality_score = well_documented)
  /\ (25 <= quality_score < 60 ->
      categorize quality_score = partially_documented)
  /\ (quality_score < 25 -> categorize quality_score = poorly_documented).
Proof.
  unfold categorize, ge.
  destruct (60 <=? quality_score) eqn:H60;
    destruct (25 <=? quality_score) eqn:H25; repeat split; intros; lia || reflexivity.
Qed.

(** C1.  The category of an analyzed file is [categorize] applied to its
    quality score and to nothing else: a score of 60 or more gives
    well_documented, a score from 25 to 59 gives partially_documented,
    a score below 25 gives poorly_documented; 24, 25, 59 and 60 fall
    where these bounds put them. *)
Theorem category_is_function_of_score (filepath : Path) (content : text)
    (r : result) (H : analyze_content filepath content = Ok r) :
  r_category r = categorize (r_quality_score r)
  /\ (forall score : Z,
        (60 <= score -> categorize score = well_documented)
        /\ (25 <= score < 60 -> categorize score = partially_documented)
        /\ (score < 25 -> categorize score = poorly_documented))
  /\ categorize 24 = poorly_documented
  /\ categorize 25 = partially_documented
  /\ categorize 59 = partially_documented
  /\ categorize 60 = well_documented.
Proof.
  destruct (analyze_content_shape filepath content) as (d & q & _ & _ & E).
  rewrite E in H. injection H as <-. cbn [r_category r_quality_score].
  split; [reflexivity|]. split; [apply categorize_cases|].
  repeat split; reflexivity.
Qed.

Lemma category_is_function_of_score_witness :
  analyze_content Samples.sample_path Samples.documented_file
    = Ok (Result Samples.sample_path 1 0 1 0 1 0 1 1 1
                 (Float (of_int 1)) 100 well_documented 44)
  /\ categorize 100 = well_documented.
Proof.
  assert (H : analyze_content Samples.sample_path Samples.documented_file
              = Ok (Result Samples.sample_path 1 0 1 0 1 0 1 1 1
                           (Float (of_int 1)) 100 well_documented 44))
    by (vm_compute; reflexivity).
  split; [exact H|].
  destruct (category_is_function_of_score _ _ _ H) as (_ & Hc & _).
  apply Hc. lia.
Defined.

(** C5.  Every analyzed file gets a quality score between 0 and 100.
    Nothing clamps it: the score is the ratio tier (0, 5, 15 or 30) plus
    four bonuses that are each absent or present once (20, 20, 15, 15). *)
Theorem quality_score_within_0_100 (filepath : Path) (content : text) :
  exists r tier bp br bb bs,
    analyze_content filepath content = Ok r
    /\ r_quality_score r = tier + bp + br + bb + bs
    /\ tier = ratio_bonus (r_doc_ratio r)
    /\ (tier = 30 \/ tier = 15 \/ tier = 5 \/ tier = 0)
    /\ (bp = 0 \/ bp = 20) /\ (br = 0 \/ br = 20)
    /\ (bb = 0 \/ bb = 15) /\ (bs = 0 \/ bs = 15)
    /\ 0 <= r_quality_score r <= 100.
Proof.
  destruct (analyze_content_shape filepath content) as (d & q & _ & Hq & E).
  destruct (quality_score_of_sum d (param_count content)
              (return_count content) (brief_count content)
              (len (all_docs content)) (len content))
    as (bp & br & bb & bs & Hs & Hp & Hr & Hb & Hz).
  rewrite Hq in Hs. injection Hs as ->.
  eexists _, (ratio_bonus d), bp, br, bb, bs.
  split; [exact E|]. cbn [r_quality_score r_doc_ratio].
  pose proof (ratio_bonus_cases d) as Ht.
  repeat split; try assumption; try reflexivity; lia.
Qed.

(** C7.  A file with no class and no callable has documentation ratio 0,
    and the analysis returns: no division by zero is raised. *)
Theorem zero_items_give_zero_ratio (filepath : Path) (content : text)
    (H : total_items content = 0) :
  exists r,
    analyze_content filepath content = Ok r
    /\ r_classes r + r_functions r = 0
    /\ r_doc_ratio r = Int 0.
Proof.
  destruct (analyze_content_shape filepath content) as (d & q & Hd & _ & E).
  rewrite H in Hd. cbn in Hd. injection Hd as <-.
  eexists. split; [exact E|]. cbn [r_classes r_functions r_doc_ratio].
  split; [exact H|reflexivity].
Qed.

Lemma zero_items_give_zero_ratio_witness :
  total_items Samples.plain_file = 0
  /\ exists r,
       analyze_content Samples.sample_path Samples.plain_file = Ok r
       /\ r_classes r + r_functions r = 0
       /\ r_doc_ratio r = Int 0.
Proof.
  split; [vm_compute; reflexivity|].
  apply (zero_items_give_zero_ratio Samples.sample_path Samples.plain_file).
  vm_compute; reflexivity.
Defined.

(** C10.  On the empty file the analysis returns without a division
    error, with quality score 0 and category poorly_documented: the
    character-ratio bonus divides only when the file has a character. *)
Theorem empty_file_is_poorly_documented (filepath : Path) :
  analyze_content filepath [] =
    Ok (Result filepath 0 0 0 0 0 0 0 0 0 (Int 0) 0 poorly_documented 0)
  /\ (forall quality_score doc_chars : Z,
        size_bonus quality_score doc_chars 0 = Ok quality_score)
  /\ (forall (content : text) (quality_score doc_chars : Z),
        size_bonus quality_score doc_chars (len content)
          <> Raise ZeroDivisionError)
  /\ (forall content : text,
        analyze_content filepath content <> Raise ZeroDivisionError).
Proof.
  split; [reflexivity|]. split; [reflexivity|]. split.
  - intros content q dc.
    destruct (size_bonus_cases q dc (len content)) as [E|E]; rewrite E;
      discriminate.
  - intros content.
    destruct (analyze_content_shape filepath content) as (d & q & _ & _ & E).
    rewrite E. discriminate.
Qed.

(** *** The documented count and the stoplist *)

Lemma count_documented_le (positions : gset Z) (content : text)
    (ms : list Re.rmatch) :
  0 <= count_documented positions content ms <= len ms.
Proof.
  unfold count_documented, len.
  enough (G : forall n : Z,
            n <= foldl (fun n m =>
                   if covered positions (line_num content m)
                   then n + 1 else n) n ms
              <= n + Z.of_nat (length ms)) by (specialize (G 0); lia).
  induction ms as [|m ms IH]; intros n; cbn [foldl length].
  - lia.
  - destruct (covered positions (line_num content m)).
    + specialize (IH (n + 1)). lia.
    + specialize (IH n). lia.
Qed.

(** What does hold in general: the documented callables are counted
    among all the matches of the signature pattern, stoplisted names
    included. *)
Lemma documented_functions_le_matches (content : text) :
  documented_functions_in content
    <= len (Re.findall true DocPatterns.function_pattern content).
Proof.
  unfold documented_functions_in, Re.findall, len.
  rewrite length_map.
  apply count_documented_le.
Qed.

Lemma documented_classes_le_classes (content : text) :
  documented_classes_in content <= len (classes content).
Proof.
  unfold documented_classes_in, classes, Re.findall, len.
  rewrite length_map.
  apply count_documented_le.
Qed.

(** C2.  On a file where an [else] is followed by an [if] on the next
    line, the signature pattern matches with the name [if]: the stoplist
    removes it from the callables that are counted, but the loop that
    counts the documented callables runs over the unfiltered matches.
    The documented items (2) exceed the total items (1) and the
    documentation ratio is 2.0. *)
Theorem documented_items_exceed_total_items :
  Re.findall true DocPatterns.function_pattern Samples.else_if_file
    = [txt "if"]
  /\ functions Samples.else_if_file = []
  /\ total_items Samples.else_if_file = 1
  /\ documented_items Samples.else_if_file = 2
  /\ analyze_content Samples.sample_path Samples.else_if_file
     = Ok (Result Samples.sample_path 1 0 1 1 0 1 0 0 0
                  (Float (of_int 2)) 45 partially_documented 70)
  /\ gt (Float (of_int 2)) (Int 1) = true.
Proof. repeat split; vm_compute; reflexivity. Qed.

(** *** The directory pass *)

Section Directory.
Variable read_text : Path -> option text.

Lemma fold_result_total (p : Path) (r : result) (st : stats) :
  total_files (fold_result p r st) = total_files st + 1
  /\ category_total (fold_result p r st) = category_total st + 1.
Proof.
  unfold category_total, fold_result, append_to, len; cbn.
  destruct (r_category r); cbn; rewrite length_app; cbn; lia.
Qed.

Lemma fold_result_categorized (p : Path) (r r' : result) (st : stats) :
  r' ∈ categorized (fold_result p r st) ->
  r' ∈ categorized st \/ r' = r.
Proof.
  unfold categorized, fold_result, append_to; cbn.
  destruct (r_category r); cbn; rewrite !elem_of_app;
    rewrite ?elem_of_app, ?list_elem_of_singleton; tauto.
Qed.

(** One step of the walk: a path that is analyzed folds one result,
    whose [file] is that path; any other path leaves the statistics
    as they are. *)
Lemma visit_cases (p : Path) (st : stats) :
  (analyzable read_text p = true /\
   exists r, r_file r = p /\ visit read_text p st = Ok (fold_result p r st))
  \/ (analyzable read_text p = false /\ visit read_text p st = Ok st).
Proof.
  unfold visit, analyzable, analyze_file.
  destruct (bool_decide _ || bool_decide _); [now right|].
  destruct (read_text p) as [content|]; [|now right].
  left. split; [reflexivity|].
  destruct (analyze_content_shape p content) as (d & q & _ & _ & E).
  rewrite E. cbn [bind]. eexists. split; [|reflexivity]. reflexivity.
Qed.

Lemma visit_all_spec (paths : list Path) (st : stats) :
  exists st',
    visit_all read_text paths st = Ok st'
    /\ total_files st' = total_files st + len (List.filter (analyzable read_text) paths)
    /\ category_total st' = category_total st + len (List.filter (analyzable read_text) paths)
    /\ (forall r, r ∈ categorized st' ->
          r ∈ categorized st \/ (r_file r ∈ paths /\ analyzable read_text (r_file r) = true)).
Proof.
  revert st. induction paths as [|p paths IH]; intros st; cbn [visit_all].
  - exists st. split; [reflexivity|]. unfold len; cbn [List.filter length].
    split; [lia|]. split; [lia|]. intros r Hr. now left.
  - destruct (visit_cases p st) as [(Ha & r & Hf & E)|(Ha & E)];
      rewrite E; cbn [bind List.filter]; rewrite Ha.
    + destruct (IH (fold_result p r st)) as (st' & E' & Ht & Hc & Hm).
      exists st'. split; [exact E'|].
      destruct (fold_result_total p r st) as [Ht1 Hc1].
      unfold len in *. cbn [length].
      split; [lia|]. split; [lia|].
      intros r' Hr'. destruct (Hm r' Hr') as [Hin|[Hin Hok]].
      * destruct (fold_result_categorized p r r' st Hin) as [? | ->].
        -- now left.
        -- right. rewrite Hf. split; [apply list_elem_of_here|exact Ha].
      * right. split; [now apply list_elem_of_further|exact Hok].
    + destruct (IH st) as (st' & E' & Ht & Hc & Hm).
      exists st'. split; [exact E'|]. split; [exact Ht|]. split; [exact Hc|].
      intros r' Hr'. destruct (Hm r' Hr') as [Hin|[Hin Hok]].
      * now left.
      * right. split; [now apply list_elem_of_further|exact Hok].
Qed.

End Directory.

(** C4.  A run of [analyze_directory] from the initial statistics
    returns, and afterwards the three category lists together hold as
    many files as [total_files] counts, which is the number of walked
    paths that were analyzed.  A path whose read fails is the [file] of
    no categorized result, and visiting it leaves every counter as it
    was. *)
Theorem category_counts_sum_to_total_files
    (read_text : Path -> option text) (rglob : string -> list Path) :
  exists st',
    analyze_directory read_text rglob init = Ok st'
    /\ len (well (files_by_category st'))
       + len (partial (files_by_category st'))
       + len (poor (files_by_category st')) = total_files st'
    /\ total_files st' = len (List.filter (analyzable read_text) (walk rglob))
    /\ (forall p : Path, read_text p = None ->
          (forall r, r ∈ categorized st' -> r_file r <> p)
          /\ (forall st, visit read_text p st = Ok st)).
Proof.
  unfold analyze_directory.
  destruct (visit_all_spec read_text (walk rglob) init)
    as (st' & E & Ht & Hc & Hm).
  exists st'. split; [exact E|].
  change (total_files init) with 0 in Ht.
  change (category_total init) with 0 in Hc.
  unfold category_total in Hc.
  split; [lia|]. split; [lia|].
  intros p Hp. split.
  - intros r Hr Heq. subst p. destruct (Hm r Hr) as [Hin|[_ Hok]].
    + cbn in Hin. inversion Hin.
    + unfold analyzable in Hok. rewrite Hp in Hok.
      rewrite andb_false_r in Hok. discriminate.
  - intros st. destruct (visit_cases read_text p st) as [(Ha & _)|(_ & E')].
    + unfold analyzable in Ha. rewrite Hp, andb_false_r in Ha. discriminate.
    + exact E'.
Qed.

Lemma category_counts_sum_to_total_files_witness :
  Samples.sample_read Samples.missing_path = None
  /\ exists st',
       analyze_directory Samples.sample_read Samples.sample_rglob init = Ok st'
       /\ total_files st' = 2
       /\ (forall r, r ∈ categorized st' -> r_file r <> Samples.missing_path).
Proof.
  assert (Hn : Samples.sample_read Samples.missing_path = None)
    by (vm_compute; reflexivity).
  split; [exact Hn|].
  destruct (category_counts_sum_to_total_files
              Samples.sample_read Samples.sample_rglob)
    as (st' & E & _ & Ht & Hm).
  exists st'. split; [exact E|]. split.
  - rewrite Ht. vm_compute. reflexivity.
  - apply (Hm Samples.missing_path Hn).
Defined.

End DocFacts.

(** * Properties of the Quality Indicator Scanner *)

Module QualityFacts.
Import Py CodeQualityAnalyzer QualitySpec.

(** The literals of the source denote the binary64 values nearest to
    them: each is the correctly rounded quotient of the decimal's
    numerator and denominator. *)
Lemma float_literals :
  SFdiv prec emax (of_int 7) (of_int 10) = lit_0_7
  /\ SFdiv prec emax (of_int 4) (of_int 10) = lit_0_4
  /\ SFdiv prec emax (of_int 1) (of_int 10) = lit_0_1
  /\ SFdiv prec emax (of_int 16) (of_int 10) = lit_1_6.
Proof. repeat split; vm_compute; reflexivity. Qed.

(** *** Magic numbers *)

(** A scan finds nothing when the pattern fails at every position it
    is tried at. *)
Lemma scan_nil (r : Re.re) (I : text -> text -> Prop) :
  (forall bef aft, I bef aft -> Re.match_at r bef aft = None) ->
  (forall bef x aft, I bef (x :: aft) -> I (x :: bef) aft) ->
  forall aft bef, I bef aft -> Re.scan r bef aft O = [].
Proof.
  intros Hnone Hstep aft. induction aft as [|x aft IH]; intros bef HI.
  - cbn [Re.scan]. now rewrite (Hnone _ _ HI).
  - cbn [Re.scan]. rewrite (Hnone _ _ HI). apply IH. now apply Hstep.
Qed.

Lemma drop_spans_nil (s : text) (i : nat) : Re.drop_spans [] i s = s.
Proof.
  revert i. induction s as [|x s IH]; intros i; cbn; [reflexivity|].
  now rewrite IH.
Qed.

Lemma alnum_not_special (x : ascii) :
  QualityPatterns.alnum_ x = true ->
  Chars.same Chars.nl x = false /\ Chars.same "/" x = false.
Proof.
  unfold QualityPatterns.alnum_, Chars.lower, Chars.upper, Chars.digit,
    Chars.between, Chars.same, Chars.nl.
  generalize (Chars.code x). intros n H.
  change (Chars.code (ascii_of_N 10)) with 10%N.
  change (Chars.code "/") with 47%N.
  change (Chars.code "_") with 95%N in H. lia.
Qed.

Lemma line_comment_needs_slash (bef aft : text) :
  Re.next_is (Chars.same "/") (Re.Cursor bef aft None) = false ->
  Re.match_at QualityPatterns.line_comment bef aft = None.
Proof.
  unfold Re.match_at, QualityPatterns.line_comment, Re.lit, Re.next_is.
  cbn [txt list_ascii_of_string Re.lit_with Re.run Re.ahead].
  destruct aft as [|x aft]; [reflexivity|]. now intros ->.
Qed.

Lemma block_comment_needs_slash (bef aft : text) :
  Re.next_is (Chars.same "/") (Re.Cursor bef aft None) = false ->
  Re.match_at QualityPatterns.block_comment bef aft = None.
Proof.
  unfold Re.match_at, QualityPatterns.block_comment, Re.lit, Re.next_is.
  cbn [txt list_ascii_of_string Re.lit_with Re.run Re.ahead].
  destruct aft as [|x aft]; [reflexivity|]. now intros ->.
Qed.

Lemma magic_needs_boundary (bef aft : text) (x : ascii) :
  QualityPatterns.alnum_ x = true ->
  Re.match_at QualityPatterns.magic_number_pattern (x :: bef) aft = None.
Proof.
  intros H. unfold Re.match_at, QualityPatterns.magic_number_pattern.
  cbn [Re.run Re.prev_is Re.behind]. now rewrite H.
Qed.

Lemma magic_needs_digit (aft : text) :
  Re.next_is Chars.digit (Re.Cursor [] aft None) = false ->
  Re.match_at QualityPatterns.magic_number_pattern [] aft = None.
Proof.
  unfold Re.match_at, QualityPatterns.magic_number_pattern, Re.lit, Re.next_is,
    Re.Plus, QualityPatterns.d.
  cbn [txt list_ascii_of_string Re.lit_with Re.run Re.ahead Re.AtLeast
       Re.prev_is Re.behind].
  destruct aft as [|x aft]; [reflexivity|]. intros H. rewrite H.
  replace (Chars.same "0" x) with false; [reflexivity|].
  revert H. unfold Chars.digit, Chars.between, Chars.same.
  change (Chars.code "0") with 48%N. lia.
Qed.

Lemma split_nl_word (s : text) :
  forallb QualityPatterns.alnum_ s = true -> Str.split_nl s = [s].
Proof.
  induction s as [|x s IH]; cbn [forallb Str.split_nl]; [reflexivity|].
  intros [Hx Hs]%andb_prop.
  destruct (alnum_not_special x Hx) as [-> _]. now rewrite (IH Hs).
Qed.

Lemma no_comment_in_word (r : Re.re) (s : text) :
  (forall bef aft,
      Re.next_is (Chars.same "/") (Re.Cursor bef aft None) = false ->
      Re.match_at r bef aft = None) ->
  forallb QualityPatterns.alnum_ s = true -> Re.sub_empty r s = s.
Proof.
  intros Hr Hs. unfold Re.sub_empty, Re.finditer.
  rewrite (scan_nil r (fun _ aft => forallb QualityPatterns.alnum_ aft = true)).
  - apply drop_spans_nil.
  - intros bef aft H. apply Hr. destruct aft as [|x aft]; [reflexivity|].
    cbn in H |- *. apply andb_prop in H as [Hx _].
    now destruct (alnum_not_special x Hx).
  - intros bef x aft H. cbn in H. now apply andb_prop in H as [_ H].
  - exact Hs.
Qed.

Lemma identifier_not_flagged (s : text) :
  is_identifier s = true -> filtered_magic s = [].
Proof.
  destruct s as [|x s]; [discriminate|]. cbn [is_identifier].
  intros [[Hx Hd]%andb_prop Hs]%andb_prop.
  assert (Hw : forallb QualityPatterns.alnum_ (x :: s) = true)
    by (cbn; now rewrite Hx, Hs).
  unfold filtered_magic, code_text, strip_comments.
  rewrite (split_nl_word _ Hw). cbn [map Str.join_nl].
  rewrite (no_comment_in_word _ _ line_comment_needs_slash Hw).
  rewrite (no_comment_in_word _ _ block_comment_needs_slash Hw).
  unfold Re.findall, Re.finditer.
  rewrite (scan_nil QualityPatterns.magic_number_pattern
             (fun bef aft =>
                forallb QualityPatterns.alnum_ aft = true
                /\ match bef with
                   | [] => Re.next_is Chars.digit (Re.Cursor [] aft None) = false
                   | b :: _ => QualityPatterns.alnum_ b = true
                   end)).
  - reflexivity.
  - intros bef aft [_ H]. destruct bef as [|b bef].
    + now apply magic_needs_digit.
    + now apply magic_needs_boundary.
  - intros bef y aft [H _]. cbn in H. apply andb_prop in H as [Hy H].
    split; assumption.
  - split; [exact Hw|]. cbn. now apply negb_true_iff.
Qed.

(** C3, as the code has it.  On isolated literals: [42] is not flagged;
    [12345] is flagged; [0xff] in lower case is matched by the pattern
    and removed by the filter of conventional constants, while [0xFF] in
    upper case and [0xFE] are flagged, the filter comparing strings
    exactly; [3.14159] is flagged and [3.14] is not; the digits inside
    [v100x], and inside any identifier, are not flagged.  The literals
    are looked for once the comments are stripped. *)
Theorem magic_number_literals :
  filtered_magic (txt "42") = []
  /\ filtered_magic (txt "12345") = [txt "12345"]
  /\ Re.findall false QualityPatterns.magic_number_pattern
       (code_text (txt "0xff")) = [txt "0xff"]
  /\ filtered_magic (txt "0xff") = []
  /\ filtered_magic (txt "0xFF") = [txt "0xFF"]
  /\ filtered_magic (txt "0xFE") = [txt "0xFE"]
  /\ filtered_magic (txt "3.14159") = [txt "3.14159"]
  /\ filtered_magic (txt "3.14") = []
  /\ filtered_magic (txt "v100x") = []
  /\ (forall s : text, is_identifier s = true -> filtered_magic s = [])
  /\ filtered_magic (txt "a = 42; b = 12345; /* 77777 */ // 99999")
     = [txt "12345"].
Proof.
  repeat match goal with |- _ /\ _ => split end.
  10: exact identifier_not_flagged.
  all: vm_compute; reflexivity.
Qed.

Lemma magic_number_literals_witness :
  is_identifier (txt "v100x") = true /\ filtered_magic (txt "v100x") = [].
Proof.
  split; [vm_compute; reflexivity|].
  destruct magic_number_literals
    as (_ & _ & _ & _ & _ & _ & _ & _ & _ & H & _).
  apply H. vm_compute; reflexivity.
Defined.

(** C3 as stated fails on [0xFF]: the filter of conventional constants
    does not remove it. *)
Lemma upper_case_0xFF_is_flagged :
  Str.mem (txt "0xFF") common_constants = false
  /\ filtered_magic (txt "0xFF") <> [].
Proof. split; [vm_compute; reflexivity|vm_compute; discriminate]. Qed.

(** *** Complexity *)

(** The divisor [max(lines_of_code / 100, 1)] is never zero, so the
    division returns: the complexity is the binary64 quotient of the
    keyword count by that maximum. *)
Lemma complexity_of_formula (content : text) :
  complexity_of content =
  Ok (Float (SFdiv prec emax (of_int (control_keywords content))
        (to_float
           (max2 (Float (SFdiv prec emax (of_int (lines_of_code content))
                           (of_int 100)))
                 (Int 1))))).
Proof.
  unfold complexity_of.
  rewrite (DocFacts.truediv_ok (Int (lines_of_code content)) (Int 100))
    by reflexivity.
  cbn [bind]. apply DocFacts.truediv_ok.
  unfold max2.
  match goal with |- context [gt (Int 1) (Float ?x)] => generalize x end.
  intros x. destruct x as [s|s| |s m e].
  - now destruct s.
  - now destruct (gt _ _).
  - now destruct (gt _ _).
  - now destruct (gt _ _).
Qed.

Lemma complexity_of_ok (content : text) :
  exists x, complexity_of content = Ok (Float x).
Proof. eexists. apply complexity_of_formula. Qed.

(** C6.  The complexity is the keyword count divided by
    [max(lines_of_code / 100, 1)], in binary64.  With 16 control-flow
    keywords, 100 lines of code give exactly 16.0 and the file is counted
    very complex; 1000 lines of code give exactly 1.6 and the file is
    counted simple. *)
Theorem complexity_per_hundred_lines (short long : text)
    (Hks : control_keywords short = 16) (Hls : lines_of_code short = 100)
    (Hkl : control_keywords long = 16) (Hll : lines_of_code long = 1000) :
  (forall content : text,
      complexity_of content =
      Ok (Float (SFdiv prec emax (of_int (control_keywords content))
            (to_float
               (max2 (Float (SFdiv prec emax (of_int (lines_of_code content))
                               (of_int 100)))
                     (Int 1))))))
  /\ complexity_of short = Ok (Float (of_int 16))
  /\ (forall st, scan_complexity short st
                 = (count_tier VeryComplex st, Ok [VeryComplexIssue]))
  /\ complexity_of long = Ok (Float lit_1_6)
  /\ (forall st, scan_complexity long st = (count_tier Simple st, Ok []))
  /\ (forall st, very_complex (complexity (count_tier VeryComplex st))
                 = very_complex (complexity st) + 1)
  /\ (forall st, simple (complexity (count_tier Simple st))
                 = simple (complexity st) + 1).
Proof.
  assert (Es : complexity_of short = Ok (Float (of_int 16)))
    by (unfold complexity_of; rewrite Hks, Hls; vm_compute; reflexivity).
  assert (El : complexity_of long = Ok (Float lit_1_6))
    by (unfold complexity_of; rewrite Hkl, Hll; vm_compute; reflexivity).
  split; [exact complexity_of_formula|].
  split; [exact Es|]. split.
  { intros st. unfold scan_complexity, bindM, lift. rewrite Es. reflexivity. }
  split; [exact El|]. split.
  { intros st. unfold scan_complexity, bindM, lift. rewrite El. reflexivity. }
  split; intros st; reflexivity.
Qed.

Lemma complexity_per_hundred_lines_witness :
  (control_keywords (Samples.keyword_file 100) = 16
   /\ lines_of_code (Samples.keyword_file 100) = 100
   /\ control_keywords (Samples.keyword_file 1000) = 16
   /\ lines_of_code (Samples.keyword_file 1000) = 1000)
  /\ complexity_of (Samples.keyword_file 100) = Ok (Float (of_int 16))
  /\ complexity_of (Samples.keyword_file 1000) = Ok (Float lit_1_6).
Proof.
  assert (H1 : control_keywords (Samples.keyword_file 100) = 16)
    by (vm_compute; reflexivity).
  assert (H2 : lines_of_code (Samples.keyword_file 100) = 100)
    by (vm_compute; reflexivity).
  assert (H3 : control_keywords (Samples.keyword_file 1000) = 16)
    by (vm_compute; reflexivity).
  assert (H4 : lines_of_code (Samples.keyword_file 1000) = 1000)
    by (vm_compute; reflexivity).
  split; [repeat split; assumption|].
  destruct (complexity_per_hundred_lines _ _ H1 H2 H3 H4)
    as (_ & Es & _ & El & _).
  split; assumption.
Defined.

(** *** Rules for triples *)

Lemma triple_ret {A : Type} (P : stats -> Prop) (a : A)
    (Q : A -> stats -> Prop) (E : exn -> stats -> Prop) :
  (forall st, P st -> Q a st) -> triple P (ret a) Q E.
Proof. intros H st HP. cbn. auto. Qed.

Lemma triple_bind {A B : Type} (P : stats -> Prop) (m : M A) (k : A -> M B)
    (R : A -> stats -> Prop) (Q : B -> stats -> Prop)
    (E : exn -> stats -> Prop) :
  triple P m R E -> (forall a, triple (R a) (k a) Q E) ->
  triple P (bindM m k) Q E.
Proof.
  intros Hm Hk st HP. unfold bindM. specialize (Hm st HP).
  destruct (m st) as [st' [a|e]]; [|exact Hm].
  apply (Hk a st' Hm).
Qed.

Lemma triple_modify (P : stats -> Prop) (f : stats -> stats)
    (Q : unit -> stats -> Prop) (E : exn -> stats -> Prop) :
  (forall st, P st -> Q tt (f st)) -> triple P (modify f) Q E.
Proof. intros H st HP. cbn. auto. Qed.

Lemma triple_lift {A : Type} (P : stats -> Prop) (o : outcome A)
    (Q : A -> stats -> Prop) (E : exn -> stats -> Prop) :
  (forall st, P st ->
     match o with Ok a => Q a st | Raise e => E e st end) ->
  triple P (lift o) Q E.
Proof. intros H st HP. unfold lift. specialize (H st HP). now destruct o. Qed.

Lemma triple_conseq {A : Type} (P P' : stats -> Prop) (m : M A)
    (Q Q' : A -> stats -> Prop) (E E' : exn -> stats -> Prop) :
  triple P m Q E ->
  (forall st, P' st -> P st) ->
  (forall a st, Q a st -> Q' a st) ->
  (forall e st, E e st -> E' e st) ->
  triple P' m Q' E'.
Proof.
  intros H HP HQ HE st HP'. specialize (H st (HP st HP')).
  destruct (m st) as [st' [a|e]]; auto.
Qed.

Lemma triple_exists {A X : Type} (P : X -> stats -> Prop) (m : M A)
    (Q : A -> stats -> Prop) (E : exn -> stats -> Prop) :
  (forall x, triple (P x) m Q E) ->
  triple (fun st => exists x, P x st) m Q E.
Proof. intros H st [x HP]. exact (H x st HP). Qed.

Lemma triple_assume {A : Type} (F : Prop) (P : stats -> Prop) (m : M A)
    (Q : A -> stats -> Prop) (E : exn -> stats -> Prop) :
  (F -> triple P m Q E) -> triple (fun st => F /\ P st) m Q E.
Proof. intros H st [HF HP]. exact (H HF st HP). Qed.

(** *** Small facts on the vocabulary *)

Lemma cap_nil (l : list example) : cap l [] = l.
Proof. unfold cap. now rewrite take_nil, app_nil_r. Qed.

Lemma cap_one_room (l : list example) (x : example) :
  (length l < 5)%nat -> cap l [x] = l ++ [x].
Proof.
  intros H. unfold cap. destruct (5 - length l)%nat eqn:E; [lia|].
  cbn. now rewrite take_nil.
Qed.

Lemma cap_full (l new : list example) :
  (5 <= length l)%nat -> cap l new = l.
Proof.
  intros H. unfold cap. replace (5 - length l)%nat with 0%nat by lia.
  now rewrite take_0, app_nil_r.
Qed.

Lemma cap_cap (l a b : list example) : cap (cap l a) b = cap l (a ++ b).
Proof.
  unfold cap. rewrite <- app_assoc. f_equal.
  rewrite take_app. f_equal.
  rewrite length_app, length_take. f_equal. lia.
Qed.

Lemma cap_from_nil (new : list example) : cap [] new = take 5 new.
Proof. reflexivity. Qed.

Lemma relative_to_drop (p root rel : Path) :
  relative_to p root = Ok rel -> rel = drop (length root) p.
Proof.
  revert p. induction root as [|r root IH]; intros p H.
  - destruct p; cbn in H; now injection H as <-.
  - destruct p as [|x p]; cbn in H; [discriminate|].
    destruct (String.eqb r x); [|discriminate].
    cbn. now apply IH.
Qed.

Lemma tracks_ext (c : Complexity) (g g' : string -> list example)
    (st : stats) :
  (forall key, g key = g' key) -> tracks c g st -> tracks c g' st.
Proof.
  intros Hg [Hc He]. split; [exact Hc|]. intros key. now rewrite He.
Qed.

(** *** The effect of the analysis of one file and of a run *)

Section Steps.
Variable root_dir : Path.
Variable read_text : Path -> option text.
Variable exists_ : Path -> bool.

Lemma record_example_tracks (key : string) (mk : Path -> example)
    (filepath : Path) (c : Complexity) (g : string -> list example) :
  triple (tracks c g) (record_example root_dir key mk filepath)
    (fun _ => tracks c (fun k =>
       cap (g k) (if String.eqb key k
                  then [mk (drop (length root_dir) filepath)] else [])))
    (fun _ _ => ~ under root_dir filepath).
Proof.
  intros st [Hc Hg]. unfold record_example, bindM, examples_of.
  destruct (examples st !! key) as [l|] eqn:Hk.
  - assert (Hl : g key = l) by (rewrite <- Hg; unfold examples_for; now rewrite Hk).
    unfold when. destruct (len l <? 5) eqn:Hlen.
    + unfold lift. destruct (relative_to filepath root_dir) as [rel|e] eqn:Hr.
      * cbn. split; [exact Hc|]. intros k.
        apply relative_to_drop in Hr. subst rel.
        unfold examples_for. cbn.
        destruct (String.eqb_spec key k) as [->|Hne].
        -- rewrite lookup_insert_eq, Hk, Hl. cbn.
           symmetry. apply cap_one_room. unfold len in Hlen. lia.
        -- rewrite lookup_insert_ne by exact Hne. rewrite cap_nil. apply Hg.
      * intros [rel Hrel]. congruence.
    + cbn. split; [exact Hc|]. intros k. rewrite Hg.
      destruct (String.eqb_spec key k) as [->|Hne].
      * rewrite Hl. symmetry. apply cap_full. unfold len in Hlen. lia.
      * now rewrite cap_nil.
  - assert (Hl : g key = []) by (rewrite <- Hg; unfold examples_for; now rewrite Hk).
    cbn [when len length Z.of_nat Z.ltb Z.compare].
    unfold lift. destruct (relative_to filepath root_dir) as [rel|e] eqn:Hr.
    + cbn. split; [exact Hc|]. intros k.
      apply relative_to_drop in Hr. subst rel.
      unfold examples_for. cbn.
      destruct (String.eqb_spec key k) as [->|Hne].
      * rewrite !lookup_insert_eq, Hl. reflexivity.
      * rewrite !lookup_insert_ne by exact Hne. rewrite cap_nil. apply Hg.
    + intros [rel Hrel]. congruence.
Qed.


Lemma modify_tracks (f : stats -> stats) (c : Complexity)
    (g : string -> list example) (E : exn -> stats -> Prop) :
  (forall st, complexity (f st) = complexity st) ->
  (forall st, examples (f st) = examples st) ->
  triple (tracks c g) (modify f) (fun _ => tracks c g) E.
Proof.
  intros Hc He. apply triple_modify. intros st [H1 H2]. split.
  - now rewrite Hc.
  - intros key. unfold examples_for. rewrite He. apply H2.
Qed.

Lemma ret_tracks {A : Type} (a : A) (c : Complexity)
    (g g' : string -> list example) (E : exn -> stats -> Prop) :
  (forall key, g key = g' key) ->
  triple (tracks c g) (ret a) (fun _ => tracks c g') E.
Proof. intros Hg. apply triple_ret. intros st. now apply tracks_ext. Qed.

(** The scans that record an example share one shape: a counter is
    updated, the example is recorded, the issue is returned. *)
Ltac recording_scan :=
  match goal with
  | |- triple _ (if ?b then _ else _) _ _ => destruct b
  end;
  [ eapply triple_bind; [now apply modify_tracks|]; intros ?;
    eapply triple_bind; [apply record_example_tracks|]; intros ?;
    apply ret_tracks; intros key; now rewrite andb_true_r
  | apply ret_tracks; intros key; now rewrite andb_false_r, cap_nil ].

Lemma scan_magic_tracks (filepath : Path) (content : text)
    (c : Complexity) (g : string -> list example) :
  triple (tracks c g) (scan_magic root_dir filepath content)
    (fun _ => tracks c (fun k =>
       cap (g k) (magic_entry root_dir k filepath content)))
    (fun _ _ => ~ under root_dir filepath).
Proof. unfold scan_magic, magic_entry. recording_scan. Qed.

Lemma scan_deprecated_tracks (filepath : Path) (content : text)
    (c : Complexity) (g : string -> list example) :
  triple (tracks c g) (scan_deprecated root_dir filepath content)
    (fun _ => tracks c (fun k =>
       cap (g k) (deprecated_entry root_dir k filepath content)))
    (fun _ _ => ~ under root_dir filepath).
Proof. unfold scan_deprecated, deprecated_entry. recording_scan. Qed.

Lemma scan_nesting_tracks (filepath : Path) (content : text)
    (c : Complexity) (g : string -> list example) :
  triple (tracks c g) (scan_nesting root_dir filepath content)
    (fun _ => tracks c (fun k =>
       cap (g k) (nesting_entry root_dir k filepath content)))
    (fun _ _ => ~ under root_dir filepath).
Proof. unfold scan_nesting, nesting_entry. recording_scan. Qed.

Lemma scan_complexity_tracks (content : text) (c : Complexity)
    (g : string -> list example) (E : exn -> stats -> Prop) :
  triple (tracks c g) (scan_complexity content)
    (fun _ => tracks (bump_tier (file_tier content) c) g) E.
Proof.
  unfold scan_complexity, file_tier.
  destruct (complexity_of_ok content) as [x ->].
  eapply triple_bind.
  { apply triple_lift with (Q := fun y st => y = Float x /\ tracks c g st).
    auto. }
  intros y. apply triple_assume. intros ->.
  eapply triple_bind
    with (R := fun _ => tracks (bump_tier (tier_of (Float x)) c) g).
  - apply triple_modify. intros st [Hc Hg]. split; [|exact Hg].
    cbn. now rewrite Hc.
  - intros ?. apply triple_ret. auto.
Qed.

Lemma scan_age_tracks (content : text) (c : Complexity)
    (g : string -> list example) (E : exn -> stats -> Prop) :
  triple (tracks c g) (scan_age content) (fun _ => tracks c g) E.
Proof.
  unfold scan_age.
  destruct (Re.findall false QualityPatterns.year_pattern content).
  - now apply ret_tracks.
  - eapply triple_bind; [now apply modify_tracks|]. intros ?.
    now apply ret_tracks.
Qed.

Lemma scan_marker_tracks (pattern : Re.re) (add : Z -> stats -> stats)
    (mk : Z -> issue) (content : text) (c : Complexity)
    (g : string -> list example) (E : exn -> stats -> Prop) :
  (forall n st, complexity (add n st) = complexity st) ->
  (forall n st, examples (add n st) = examples st) ->
  triple (tracks c g) (scan_marker pattern add mk content)
    (fun _ => tracks c g) E.
Proof.
  intros Hc He. unfold scan_marker.
  destruct (len (Re.findall false pattern content) >? 0).
  - eapply triple_bind; [now apply modify_tracks|]. intros ?.
    now apply ret_tracks.
  - now apply ret_tracks.
Qed.

Lemma scan_long_functions_tracks (content : text) (c : Complexity)
    (g : string -> list example) (E : exn -> stats -> Prop) :
  triple (tracks c g) (scan_long_functions content) (fun _ => tracks c g) E.
Proof.
  unfold scan_long_functions. destruct (long_funcs content).
  - now apply ret_tracks.
  - eapply triple_bind; [now apply modify_tracks|]. intros ?.
    now apply ret_tracks.
Qed.

(** The effect of one analyzed file: the counter of its tier is one
    more, and every example list is extended by the entries the file
    qualifies for while its cap is not reached; if an exception is
    raised, the file is not under the root directory. *)
Lemma analyze_content_tracks (filepath : Path) (content : text)
    (c : Complexity) (g : string -> list example) :
  triple (tracks c g) (analyze_content root_dir filepath content)
    (fun _ => tracks (bump_tier (file_tier content) c) (fun k =>
       cap (g k) (entries root_dir k filepath content)))
    (fun _ _ => ~ under root_dir filepath).
Proof.
  unfold analyze_content.
  eapply triple_bind; [apply scan_magic_tracks|]. intros ?.
  eapply triple_bind; [apply scan_complexity_tracks|]. intros ?.
  eapply triple_bind; [apply scan_age_tracks|]. intros ?.
  eapply triple_bind; [now apply scan_marker_tracks|]. intros ?.
  eapply triple_bind; [now apply scan_marker_tracks|]. intros ?.
  eapply triple_bind; [now apply scan_marker_tracks|]. intros ?.
  eapply triple_bind; [apply scan_deprecated_tracks|]. intros ?.
  eapply triple_bind; [apply scan_long_functions_tracks|]. intros ?.
  eapply triple_bind; [apply scan_nesting_tracks|]. intros ?.
  apply ret_tracks. intros key. unfold entries. now rewrite !cap_cap.
Qed.


Lemma bump_tier_sum (t : tier) (c : Complexity) :
  counters_sum (bump_tier t c) = counters_sum c + 1.
Proof. unfold counters_sum. destruct t; cbn; lia. Qed.

Lemma bump_tier_one_more (t : tier) (c : Complexity) :
  one_counter_more c (bump_tier t c).
Proof.
  unfold one_counter_more.
  destruct t; cbn; [left|right; left|right; right; left|right; right; right];
    repeat split; reflexivity.
Qed.

Lemma analyze_file_tracks (filepath : Path) (c : Complexity)
    (g : string -> list example) :
  triple (tracks c g) (analyze_file root_dir read_text filepath)
    (fun r st =>
       match read_text filepath with
       | Some content =>
           r <> None
           /\ tracks (bump_tier (file_tier content) c)
                (fun k => cap (g k) (entries root_dir k filepath content)) st
       | None => r = None /\ tracks c g st
       end)
    (fun _ _ => ~ under root_dir filepath).
Proof.
  unfold analyze_file. destruct (read_text filepath) as [content|].
  - eapply triple_bind; [apply analyze_content_tracks|]. intros r.
    apply triple_ret. intros st H. split; [discriminate|exact H].
  - apply triple_ret. intros st H. split; [reflexivity|exact H].
Qed.

Lemma totals_of_tracks (c : Complexity) (g g' : string -> list example)
    (n : Z) (st : stats) :
  counters_sum c = n -> (forall key, g key = g' key) ->
  tracks c g st -> totals n g' st.
Proof.
  intros Hn Hg [Hc He]. split.
  - unfold complexity_total. now rewrite Hc.
  - intros key. now rewrite He.
Qed.

Lemma tracks_of_totals (n : Z) (g : string -> list example) (st : stats) :
  totals n g st -> exists c, counters_sum c = n /\ tracks c g st.
Proof. intros [Hn He]. exists (complexity st). now repeat split. Qed.

(** The part of the loop body of [analyze_from_json] for one file. *)
Lemma visit_file_totals (filepath : Path) (n : Z)
    (g : string -> list example) :
  triple (totals n g)
    (if exists_ filepath
     then bindM (analyze_file root_dir read_text filepath) (fun _ => ret tt)
     else ret tt)
    (fun _ =>
       totals (n + (if analyzed read_text exists_ filepath then 1 else 0))
         (fun k => cap (g k)
            (if exists_ filepath then
               match read_text filepath with
               | Some content => entries root_dir k filepath content
               | None => []
               end
             else [])))
    (fun _ _ => ~ under root_dir filepath).
Proof.
  unfold analyzed. destruct (exists_ filepath); cbn [andb].
  - eapply triple_bind; [|intros r; apply triple_ret; intros st H; exact H].
    intros st Ht. destruct (tracks_of_totals _ _ _ Ht) as (c & Hn & Htr).
    pose proof (analyze_file_tracks filepath c g st Htr) as H.
    destruct (analyze_file root_dir read_text filepath st) as [st' [r|e]];
      [|exact H].
    destruct (read_text filepath) as [content|];
      destruct H as [_ H]; revert H; apply totals_of_tracks.
    + rewrite bump_tier_sum. lia.
    + reflexivity.
    + lia.
    + intros key. now rewrite cap_nil.
  - apply triple_ret. intros st [Hn He]. split; [lia|].
    intros key. now rewrite cap_nil.
Qed.

(** The effect of a run over a list of files. *)
Lemma analyze_files_totals (files : list Path) (n : Z)
    (g : string -> list example) :
  triple (totals n g) (analyze_files root_dir read_text exists_ files)
    (fun _ =>
       totals (n + len (List.filter (analyzed read_text exists_) files))
              (fun k => cap (g k)
                          (run_entries root_dir read_text exists_ k files)))
    (fun _ _ => ~ Forall (under root_dir) files).
Proof.
  revert n g. induction files as [|filepath rest IH]; intros n g.
  - apply triple_ret. intros st [Hn He]. split.
    + unfold len. cbn [List.filter length Z.of_nat]. lia.
    + intros key. cbn. now rewrite cap_nil.
  - cbn [analyze_files].
    eapply triple_bind.
    + eapply triple_conseq;
        [apply (visit_file_totals filepath n g)
        |intros st H; exact H|intros a st H; exact H|].
      intros e st H HF. apply H. now inversion HF.
    + intros ?. eapply triple_conseq;
        [apply IH|intros st H; exact H| |].
      * intros ? st [Hn He]. split.
        -- rewrite Hn. unfold len. cbn [List.filter].
           destruct (analyzed read_text exists_ filepath); cbn [length]; lia.
        -- intros key. rewrite He, cap_cap. reflexivity.
      * intros e st H HF. apply H. now inversion HF.
Qed.

(** *** The cap on the example lists, however a computation ends *)

Lemma capped_insert (key : string) (l : list example) (st : stats) :
  (length l <= 5)%nat -> capped st ->
  capped (set_examples (insert key l) st).
Proof.
  intros Hl Hc k l'. cbn.
  destruct (String.eqb_spec key k) as [->|Hne].
  - rewrite lookup_insert_eq. now intros [= <-].
  - rewrite lookup_insert_ne by exact Hne. apply Hc.
Qed.

Lemma invariant_modify (f : stats -> stats) :
  (forall st, examples (f st) = examples st) ->
  invariant capped (modify f).
Proof.
  intros He. apply triple_modify. intros st Hc k l. rewrite He. apply Hc.
Qed.

Lemma invariant_ret {A : Type} (a : A) : invariant capped (ret a).
Proof. now apply triple_ret. Qed.

Lemma invariant_bind {A B : Type} (m : M A) (k : A -> M B) :
  invariant capped m -> (forall a, invariant capped (k a)) ->
  invariant capped (bindM m k).
Proof. intros Hm Hk. eapply triple_bind; [exact Hm|exact Hk]. Qed.

Lemma invariant_lift {A : Type} (o : outcome A) : invariant capped (lift o).
Proof. apply triple_lift. intros st H. now destruct o. Qed.

Lemma record_example_capped (key : string) (mk : Path -> example)
    (filepath : Path) :
  invariant capped (record_example root_dir key mk filepath).
Proof.
  intros st Hc. unfold record_example, bindM, examples_of.
  destruct (examples st !! key) as [l|] eqn:Hk.
  - unfold when. destruct (len l <? 5) eqn:Hlen; [|exact Hc].
    unfold lift. destruct (relative_to filepath root_dir) as [rel|e];
      [|exact Hc].
    cbn. intros k l'. cbn.
    destruct (String.eqb_spec key k) as [->|Hne].
    + rewrite lookup_insert_eq, Hk. intros [= <-]. cbn.
      rewrite length_app. cbn. unfold len in Hlen. lia.
    + rewrite lookup_insert_ne by exact Hne. apply Hc.
  - cbn [when len length Z.of_nat Z.ltb Z.compare].
    assert (Hc' : capped (set_examples (insert key []) st))
      by (apply capped_insert; [cbn; lia|exact Hc]).
    unfold lift. destruct (relative_to filepath root_dir) as [rel|e];
      [|exact Hc'].
    cbn. intros k l'. cbn.
    destruct (String.eqb_spec key k) as [->|Hne].
    + rewrite !lookup_insert_eq. intros [= <-]. cbn. lia.
    + rewrite !lookup_insert_ne by exact Hne. apply Hc.
Qed.

Lemma analyze_content_capped (filepath : Path) (content : text) :
  invariant capped (analyze_content root_dir filepath content).
Proof.
  unfold analyze_content, scan_magic, scan_complexity, scan_age, scan_marker,
    scan_deprecated, scan_long_functions, scan_nesting.
  repeat first
    [ apply record_example_capped
    | apply invariant_bind; [|intros ?]
    | apply invariant_ret
    | apply invariant_lift
    | apply invariant_modify; intros ?; reflexivity
    | match goal with
      | |- invariant _ (if ?b then _ else _) => destruct b
      | |- invariant _ (match ?l with [] => _ | _ :: _ => _ end) => destruct l
      end ].
Qed.

Lemma analyze_files_capped (files : list Path) :
  invariant capped (analyze_files root_dir read_text exists_ files).
Proof.
  induction files as [|filepath rest IH]; cbn [analyze_files].
  - apply invariant_ret.
  - apply invariant_bind; [|intros ?; exact IH].
    destruct (exists_ filepath); [|apply invariant_ret].
    apply invariant_bind; [|intros ?; apply invariant_ret].
    unfold analyze_file. destruct (read_text filepath); [|apply invariant_ret].
    apply invariant_bind; [|intros ?; apply invariant_ret].
    apply analyze_content_capped.
Qed.

End Steps.

(** C9.  An analysis of a file that returns a result leaves exactly one
    of the four complexity counters one higher and the other three as
    they were.  After a run from the initial statistics that returns,
    the four counters sum to the number of files of the poorly documented
    partition that exist and could be read.  A run returns whenever its
    files are under the root directory. *)
Theorem complexity_counters_count_files (root_dir : Path)
    (read_text : Path -> option text) (exists_ : Path -> bool)
    (data : DocAnalyzer.stats) :
  (forall filepath st st' r,
      analyze_file root_dir read_text filepath st = (st', Ok (Some r)) ->
      one_counter_more (complexity st) (complexity st'))
  /\ (forall st',
        analyze_from_json root_dir read_text exists_ data init = (st', Ok tt) ->
        very_complex (complexity st') + complex (complexity st')
        + moderate (complexity st') + simple (complexity st')
        = len (List.filter (analyzed read_text exists_)
                 (map DocAnalyzer.r_file
                    (DocAnalyzer.poor (DocAnalyzer.files_by_category data)))))
  /\ (Forall (under root_dir)
        (map DocAnalyzer.r_file
           (DocAnalyzer.poor (DocAnalyzer.files_by_category data))) ->
      exists st',
        analyze_from_json root_dir read_text exists_ data init = (st', Ok tt)).
Proof.
  split; [|split].
  - intros filepath st st' r H.
    pose proof (analyze_file_tracks root_dir read_text filepath
                  (complexity st) (fun key => examples_for key st) st) as Ht.
    rewrite H in Ht.
    destruct (read_text filepath) as [content|].
    + destruct Ht as [_ [Hc _]]; [now split|].
      rewrite Hc. apply bump_tier_one_more.
    + destruct Ht as [Hr _]; [now split|]. discriminate.
  - intros st' H. unfold analyze_from_json in H.
    pose proof (analyze_files_totals root_dir read_text exists_
                  (map DocAnalyzer.r_file
                     (DocAnalyzer.poor (DocAnalyzer.files_by_category data)))
                  0 (fun _ => []) init) as Ht.
    rewrite H in Ht. destruct Ht as [Hn _]; [now split|].
    unfold complexity_total, counters_sum in Hn. lia.
  - intros HF. unfold analyze_from_json.
    pose proof (analyze_files_totals root_dir read_text exists_
                  (map DocAnalyzer.r_file
                     (DocAnalyzer.poor (DocAnalyzer.files_by_category data)))
                  0 (fun _ => []) init) as Ht.
    destruct (analyze_files _ _ _ _ init) as [st' [[]|e]].
    + now exists st'.
    + exfalso. apply Ht; [now split|exact HF].
Qed.

Lemma complexity_counters_count_files_witness :
  Forall (under Samples.root)
    (map DocAnalyzer.r_file
       (DocAnalyzer.poor (DocAnalyzer.files_by_category Samples.handoff)))
  /\ exists st',
       analyze_from_json Samples.root Samples.quality_read
         Samples.quality_exists Samples.handoff init = (st', Ok tt)
       /\ very_complex (complexity st') + complex (complexity st')
          + moderate (complexity st') + simple (complexity st') = 8.
Proof.
  assert (HF : Forall (under Samples.root)
                 (map DocAnalyzer.r_file
                    (DocAnalyzer.poor
                       (DocAnalyzer.files_by_category Samples.handoff))))
    by (replace (map DocAnalyzer.r_file
                   (DocAnalyzer.poor
                      (DocAnalyzer.files_by_category Samples.handoff)))
          with (Samples.smelly_paths
                ++ [Samples.gone_path; Samples.plain_path])
          by (vm_compute; reflexivity);
        repeat constructor; eexists; reflexivity).
  split; [exact HF|].
  destruct (complexity_counters_count_files Samples.root Samples.quality_read
              Samples.quality_exists Samples.handoff) as (_ & Hsum & Hret).
  destruct (Hret HF) as [st' E].
  exists st'. split; [exact E|].
  rewrite (Hsum st' E). vm_compute. reflexivity.
Defined.

(** C8.  Whatever the files of a run and however it ends, no example
    list holds more than five entries.  After a run from the initial
    statistics that returns, the example list of every family is the
    first five, in the order in which the files were met, of the entries
    that the analyzed files qualify for in that family.  A run returns
    whenever its files are under the root directory. *)
Theorem example_lists_hold_first_five (root_dir : Path)
    (read_text : Path -> option text) (exists_ : Path -> bool)
    (data : DocAnalyzer.stats) :
  (forall (key : string) (l : list example),
      examples (fst (analyze_from_json root_dir read_text exists_ data init))
        !! key = Some l ->
      (length l <= 5)%nat)
  /\ (forall st',
        analyze_from_json root_dir read_text exists_ data init = (st', Ok tt) ->
        forall key : string,
          examples_for key st'
          = take 5 (run_entries root_dir read_text exists_ key
                      (map DocAnalyzer.r_file
                         (DocAnalyzer.poor
                            (DocAnalyzer.files_by_category data)))))
  /\ (Forall (under root_dir)
        (map DocAnalyzer.r_file
           (DocAnalyzer.poor (DocAnalyzer.files_by_category data))) ->
      exists st',
        analyze_from_json root_dir read_text exists_ data init = (st', Ok tt)).
Proof.
  split; [|split].
  - pose proof (analyze_files_capped root_dir read_text exists_
                  (map DocAnalyzer.r_file
                     (DocAnalyzer.poor (DocAnalyzer.files_by_category data)))
                  init) as Hc.
    unfold analyze_from_json.
    destruct (analyze_files _ _ _ _ init) as [st' [[]|e]]; cbn [fst];
      apply Hc; intros key l; cbn; rewrite lookup_empty; discriminate.
  - intros st' H key. unfold analyze_from_json in H.
    pose proof (analyze_files_totals root_dir read_text exists_
                  (map DocAnalyzer.r_file
                     (DocAnalyzer.poor (DocAnalyzer.files_by_category data)))
                  0 (fun _ => []) init) as Ht.
    rewrite H in Ht. destruct Ht as [_ He]; [now split|].
    rewrite He. apply cap_from_nil.
  - intros HF. unfold analyze_from_json.
    pose proof (analyze_files_totals root_dir read_text exists_
                  (map DocAnalyzer.r_file
                     (DocAnalyzer.poor (DocAnalyzer.files_by_category data)))
                  0 (fun _ => []) init) as Ht.
    destruct (analyze_files _ _ _ _ init) as [st' [[]|e]].
    + now exists st'.
    + exfalso. apply Ht; [now split|exact HF].
Qed.

Lemma example_lists_hold_first_five_witness :
  Forall (under Samples.root)
    (map DocAnalyzer.r_file
       (DocAnalyzer.poor (DocAnalyzer.files_by_category Samples.handoff)))
  /\ exists st',
       analyze_from_json Samples.root Samples.quality_read
         Samples.quality_exists Samples.handoff init = (st', Ok tt)
       /\ examples_for "deep_nesting" st'
          = map (fun name => NestingExample ["source"; "run"; name] 8)
                ["a.cc"; "b.cc"; "c.cc"; "d.cc"; "e.cc"].
Proof.
  assert (HF : Forall (under Samples.root)
                 (map DocAnalyzer.r_file
                    (DocAnalyzer.poor
                       (DocAnalyzer.files_by_category Samples.handoff))))
    by (replace (map DocAnalyzer.r_file
                   (DocAnalyzer.poor
                      (DocAnalyzer.files_by_category Samples.handoff)))
          with (Samples.smelly_paths
                ++ [Samples.gone_path; Samples.plain_path])
          by (vm_compute; reflexivity);
        repeat constructor; eexists; reflexivity).
  split; [exact HF|].
  destruct (example_lists_hold_first_five Samples.root Samples.quality_read
              Samples.quality_exists Samples.handoff) as (_ & Hfirst & Hret).
  destruct (Hret HF) as [st' E].
  exists st'. split; [exact E|].
  rewrite (Hfirst st' E). vm_compute. reflexivity.
Defined.

End QualityFacts.

(** * The scanner's bookkeeping and its errors *)

Module EffectFacts.
Import Py CodeQualityAnalyzer QualitySpec QualityEffect QualityFacts.

(** *** Rules for effects *)

Lemma effect_ret {A : Type} (a : A) (E : exn -> stats -> Prop) :
  effect (ret a) (fun st => st) a E.
Proof. intros s0 st <-. cbn. now split. Qed.

Lemma effect_modify (f : stats -> stats) (E : exn -> stats -> Prop) :
  effect (modify f) f tt E.
Proof. intros s0 st <-. cbn. now split. Qed.

Lemma effect_bind {A B : Type} (m : M A) (k : A -> M B)
    (f g : stats -> stats) (v : A) (w : B) (E : exn -> stats -> Prop) :
  effect m f v E -> effect (k v) g w E ->
  effect (bindM m k) (fun st => g (f st)) w E.
Proof.
  intros Hm Hk s0 st <-. unfold bindM.
  specialize (Hm s0 s0 eq_refl).
  destruct (m s0) as [st' [a|e]]; [|exact Hm].
  destruct Hm as [-> ->]. apply (Hk (f s0) (f s0) eq_refl).
Qed.

Lemma effect_ext {A : Type} (m : M A) (f g : stats -> stats) (v w : A)
    (E : exn -> stats -> Prop) :
  (forall st, f st = g st) -> v = w -> effect m f v E -> effect m g w E.
Proof.
  intros Hf <- Hm s0 st <-. specialize (Hm s0 s0 eq_refl).
  destruct (m s0) as [st' [a|e]]; [|exact Hm].
  destruct Hm as [-> ->]. now rewrite Hf.
Qed.

Lemma effect_lift_ok {A : Type} (a : A) (E : exn -> stats -> Prop) :
  effect (lift (Ok a)) (fun st => st) a E.
Proof. intros s0 st <-. cbn. now split. Qed.

Lemma add_counts_swap (a x y : list Z) :
  add_counts (add_counts a x) y = add_counts (add_counts a y) x.
Proof.
  unfold add_counts. revert x y.
  induction a as [|n a IH]; intros [|x xs] [|y ys]; cbn; try reflexivity.
  f_equal; [lia|apply IH].
Qed.

Lemma foldl_add_counts_perm (l l' : list (list Z)) :
  l ≡ₚ l' -> forall a, foldl add_counts a l = foldl add_counts a l'.
Proof.
  induction 1 as [|x l l' _ IH|x y l|l l' l'' _ IH1 _ IH2]; intros a;
    cbn [foldl].
  - reflexivity.
  - apply IH.
  - now rewrite add_counts_swap.
  - now rewrite IH1.
Qed.

Lemma triple_assume_r {A : Type} (F : Prop) (P : stats -> Prop) (m : M A)
    (Q : A -> stats -> Prop) (E : exn -> stats -> Prop) :
  (F -> triple P m Q E) -> triple (fun st => P st /\ F) m Q E.
Proof. intros H st [HP HF]. exact (H HF st HP). Qed.

Lemma effect_keeps_examples {A : Type} (m : M A) (f : stats -> stats)
    (v : A) (E : exn -> stats -> Prop)
    (ex0 : gmap string (list example)) :
  effect m f v E -> (forall s, examples (f s) = examples s) ->
  triple (fun st => examples st = ex0) m
    (fun _ st => examples st = ex0) E.
Proof.
  intros Hm Hf st Hex. specialize (Hm st st eq_refl).
  destruct (m st) as [st' [a|e]]; [|exact Hm].
  destruct Hm as [-> _]. now rewrite Hf.
Qed.

Section Effects.
Variable root_dir : Path.
Variable read_text : Path -> option text.
Variable exists_ : Path -> bool.

Lemma record_example_effect (key : string) (mk : Path -> example)
    (filepath : Path) :
  effect (record_example root_dir key mk filepath)
    (record_effect key (mk (drop (length root_dir) filepath))) tt
    (fun _ _ => ~ under root_dir filepath).
Proof.
  intros s0 st <-.
  unfold record_example, bindM, examples_of, record_effect, append_example,
    modify, set_examples, when, lift, ret.
  destruct s0 as [mn cx ag cs ex]. cbn [examples magic_numbers
    complexity age_indicators code_smells].
  destruct (ex !! key) as [l|] eqn:Hk; cbn [default].
  - destruct (len l <? 5) eqn:Hlen.
    + destruct (relative_to filepath root_dir) as [rel|e] eqn:Hr.
      * apply relative_to_drop in Hr. subst rel.
        cbn [examples magic_numbers complexity age_indicators code_smells].
        split; [|reflexivity]. rewrite Hk. cbn [default].
        assert (Hl : (length l < 5)%nat) by (unfold len in Hlen; lia).
        rewrite (cap_one_room l _ Hl). reflexivity.
      * intros [rel Hrel]. congruence.
    + split; [|reflexivity].
      assert (Hl : (5 <= length l)%nat) by (unfold len in Hlen; lia).
      rewrite (cap_full l _ Hl). now rewrite insert_id.
  - change (len [] <? 5) with true. cbn iota.
    cbn [examples magic_numbers complexity age_indicators code_smells].
    destruct (relative_to filepath root_dir) as [rel|e] eqn:Hr.
    + apply relative_to_drop in Hr. subst rel.
      cbn [examples magic_numbers complexity age_indicators code_smells].
      split; [|reflexivity]. rewrite lookup_insert_eq. cbn [default].
      now rewrite insert_insert_eq.
    + intros [rel Hrel]. congruence.
Qed.

Ltac effect_step :=
  first
    [ apply record_example_effect
    | apply effect_modify
    | apply effect_ret
    | eapply effect_bind ].

Lemma scan_magic_effect (filepath : Path) (content : text) :
  effect (scan_magic root_dir filepath content)
    (magic_effect root_dir filepath content)
    (if len (filtered_magic content) >=? 5
     then [MagicIssue (len (filtered_magic content))] else [])
    (fun _ _ => ~ under root_dir filepath).
Proof.
  unfold scan_magic, magic_effect.
  destruct (len (filtered_magic content) >=? 5).
  - eapply effect_ext; [| |repeat effect_step]; [intros st|]; reflexivity.
  - apply effect_ret.
Qed.

Lemma scan_complexity_effect (content : text) (E : exn -> stats -> Prop) :
  effect (scan_complexity content) (complexity_effect content)
    (tier_issues (file_tier content)) E.
Proof.
  unfold scan_complexity, complexity_effect, file_tier.
  destruct (complexity_of_ok content) as [x ->].
  eapply effect_ext; [| |eapply effect_bind; [apply effect_lift_ok|]];
    [| |eapply effect_bind; [apply effect_modify|apply effect_ret]];
    [intros st|]; reflexivity.
Qed.

Lemma scan_age_effect (content : text) (E : exn -> stats -> Prop) :
  effect (scan_age content) (age_effect content)
    (match oldest_year content with
     | None => []
     | Some y => age_issues (age_of y) y
     end) E.
Proof.
  unfold scan_age, age_effect, oldest_year.
  destruct (Re.findall false QualityPatterns.year_pattern content).
  - apply effect_ret.
  - eapply effect_ext; [| |repeat effect_step]; [intros st|]; reflexivity.
Qed.

Lemma scan_marker_effect (pattern : Re.re) (add : Z -> stats -> stats)
    (mk : Z -> issue) (content : text) (E : exn -> stats -> Prop) :
  effect (scan_marker pattern add mk content)
    (marker_effect pattern add content)
    (if marker_count pattern content >? 0
     then [mk (marker_count pattern content)] else []) E.
Proof.
  unfold scan_marker, marker_effect, marker_count.
  destruct (len (Re.findall false pattern content) >? 0).
  - eapply effect_ext; [| |repeat effect_step]; [intros st|]; reflexivity.
  - apply effect_ret.
Qed.

Lemma scan_deprecated_effect (filepath : Path) (content : text) :
  effect (scan_deprecated root_dir filepath content)
    (deprecated_effect root_dir filepath content)
    (if has_deprecated content then [DeprecatedIssue] else [])
    (fun _ _ => ~ under root_dir filepath).
Proof.
  unfold scan_deprecated, deprecated_effect, has_deprecated, marker_count.
  destruct (len (Re.findall false QualityPatterns.deprecated_pattern content) >? 0).
  - eapply effect_ext; [| |repeat effect_step]; [intros st|]; reflexivity.
  - apply effect_ret.
Qed.

Lemma scan_long_functions_effect (content : text)
    (E : exn -> stats -> Prop) :
  effect (scan_long_functions content) (long_effect content)
    (match long_funcs content with
     | [] => []
     | _ :: _ => [LongFunctionsIssue (len (long_funcs content))]
     end) E.
Proof.
  unfold scan_long_functions, long_effect.
  destruct (long_funcs content).
  - apply effect_ret.
  - eapply effect_ext; [| |repeat effect_step]; [intros st|]; reflexivity.
Qed.

Lemma scan_nesting_effect (filepath : Path) (content : text) :
  effect (scan_nesting root_dir filepath content)
    (nesting_effect root_dir filepath content)
    (if max_nesting content >? 6
     then [DeepNestingIssue (max_nesting content)] else [])
    (fun _ _ => ~ under root_dir filepath).
Proof.
  unfold scan_nesting, nesting_effect.
  destruct (max_nesting content >? 6).
  - eapply effect_ext; [| |repeat effect_step]; [intros st|]; reflexivity.
  - apply effect_ret.
Qed.

(** The analysis of one content, when it returns, applies the effect
    of the file and reports the issues of the content. *)
Lemma analyze_content_effect (filepath : Path) (content : text) :
  effect (analyze_content root_dir filepath content)
    (file_effect root_dir filepath content)
    (Result filepath (file_issues content))
    (fun _ _ => ~ under root_dir filepath).
Proof.
  unfold analyze_content.
  eapply effect_ext; [| |
    eapply effect_bind; [apply scan_magic_effect|];
    eapply effect_bind; [apply scan_complexity_effect|];
    eapply effect_bind; [apply scan_age_effect|];
    eapply effect_bind; [apply scan_marker_effect|];
    eapply effect_bind; [apply scan_marker_effect|];
    eapply effect_bind; [apply scan_marker_effect|];
    eapply effect_bind; [apply scan_deprecated_effect|];
    eapply effect_bind; [apply scan_long_functions_effect|];
    eapply effect_bind; [apply scan_nesting_effect|];
    apply effect_ret]; [intros st|]; reflexivity.
Qed.

Lemma analyze_files_effect (files : list Path) :
  effect (analyze_files root_dir read_text exists_ files)
    (run_effect root_dir read_text exists_ files) tt
    (fun _ _ => ~ Forall (under root_dir) files).
Proof.
  induction files as [|filepath rest IH]; cbn [analyze_files].
  - apply effect_ret.
  - unfold run_effect, analyzed_contents. cbn [omap list_omap].
    intros s0 st <-. unfold bindM.
    destruct (exists_ filepath).
    + unfold analyze_file. destruct (read_text filepath) as [content|];
        cbn [option_map].
      * unfold bindM.
        pose proof (analyze_content_effect filepath content s0 s0 eq_refl) as H.
        destruct (analyze_content root_dir filepath content s0)
          as [st' [r|e]].
        -- destruct H as [-> _]. cbn [ret foldl].
           pose proof (IH (file_effect root_dir filepath content s0) _ eq_refl)
             as H'.
           destruct (analyze_files _ _ _ rest _) as [st'' [[]|e]].
           ++ exact H'.
           ++ intros HF. apply H'. now inversion HF.
        -- intros HF. apply H. now inversion HF.
      * cbn [ret]. pose proof (IH s0 s0 eq_refl) as H'.
        destruct (analyze_files _ _ _ rest s0) as [st'' [[]|e]].
        -- exact H'.
        -- intros HF. apply H'. now inversion HF.
    + cbn [ret]. pose proof (IH s0 s0 eq_refl) as H'.
      destruct (analyze_files _ _ _ rest s0) as [st'' [[]|e]].
      * exact H'.
      * intros HF. apply H'. now inversion HF.
Qed.

(** *** The counters *)

Ltac counting :=
  unfold counters, add_counts, record_effect, count_magic, count_tier,
    count_age, add_todo, add_fixme, add_hack, add_deprecated,
    add_long_functions, add_deep_nesting, set_examples, set_magic_numbers,
    set_complexity, set_age_indicators, set_code_smells, bump_tier,
    indicator, marker_count, len in *;
  cbn; repeat (f_equal; try lia).

Lemma counters_file_effect (filepath : Path) (content : text) (st : stats) :
  counters (file_effect root_dir filepath content st)
  = add_counts (counters st) (file_counts content).
Proof.
  assert (Hm : forall st, counters (magic_effect root_dir filepath content st)
    = add_counts (counters st)
        [indicator (len (filtered_magic content) >=? 5);
         (if len (filtered_magic content) >=? 5
          then len (filtered_magic content) else 0);
         0; 0; 0; 0; 0; 0; 0; 0; 0; 0; 0; 0; 0; 0]).
  { intros s. unfold magic_effect.
    destruct (len (filtered_magic content) >=? 5); counting. }
  assert (Hc : forall st, counters (complexity_effect content st)
    = add_counts (counters st)
        [0; 0; indicator (tier_is VeryComplex (file_tier content));
         indicator (tier_is Complex (file_tier content));
         indicator (tier_is Moderate (file_tier content));
         indicator (tier_is Simple (file_tier content));
         0; 0; 0; 0; 0; 0; 0; 0; 0; 0]).
  { intros s. unfold complexity_effect.
    destruct (file_tier content); counting. }
  assert (Ha : forall st, counters (age_effect content st)
    = add_counts (counters st)
        [0; 0; 0; 0; 0; 0;
         indicator (age_is VeryOld (oldest_year content));
         indicator (age_is Old (oldest_year content));
         indicator (age_is Recent (oldest_year content));
         indicator (age_is Modern (oldest_year content));
         0; 0; 0; 0; 0; 0]).
  { intros s. unfold age_effect, age_is.
    destruct (oldest_year content) as [y|]; [destruct (age_of y)|]; counting. }
  assert (Ht : forall pattern st,
    counters (marker_effect pattern add_todo content st)
    = add_counts (counters st)
        [0; 0; 0; 0; 0; 0; 0; 0; 0; 0; marker_count pattern content;
         0; 0; 0; 0; 0]).
  { intros pattern s. unfold marker_effect.
    destruct (marker_count pattern content >? 0) eqn:E; counting. }
  assert (Hf : forall pattern st,
    counters (marker_effect pattern add_fixme content st)
    = add_counts (counters st)
        [0; 0; 0; 0; 0; 0; 0; 0; 0; 0; 0; marker_count pattern content;
         0; 0; 0; 0]).
  { intros pattern s. unfold marker_effect.
    destruct (marker_count pattern content >? 0) eqn:E; counting. }
  assert (Hh : forall pattern st,
    counters (marker_effect pattern add_hack content st)
    = add_counts (counters st)
        [0; 0; 0; 0; 0; 0; 0; 0; 0; 0; 0; 0; marker_count pattern content;
         0; 0; 0]).
  { intros pattern s. unfold marker_effect.
    destruct (marker_count pattern content >? 0) eqn:E; counting. }
  assert (Hd : forall st,
    counters (deprecated_effect root_dir filepath content st)
    = add_counts (counters st)
        [0; 0; 0; 0; 0; 0; 0; 0; 0; 0; 0; 0; 0;
         indicator (has_deprecated content); 0; 0]).
  { intros s. unfold deprecated_effect.
    destruct (has_deprecated content); counting. }
  assert (Hl : forall st, counters (long_effect content st)
    = add_counts (counters st)
        [0; 0; 0; 0; 0; 0; 0; 0; 0; 0; 0; 0; 0; 0;
         len (long_funcs content); 0]).
  { intros s. unfold long_effect.
    destruct (long_funcs content); counting. }
  assert (Hn : forall st,
    counters (nesting_effect root_dir filepath content st)
    = add_counts (counters st)
        [0; 0; 0; 0; 0; 0; 0; 0; 0; 0; 0; 0; 0; 0; 0;
         indicator (max_nesting content >? 6)]).
  { intros s. unfold nesting_effect.
    destruct (max_nesting content >? 6); counting. }
  unfold file_effect. rewrite Hn, Hl, Hd, Hh, Hf, Ht, Ha, Hc, Hm.
  unfold counters, file_counts, add_counts. cbn [zip_with].
  repeat (f_equal; try lia).
Qed.

Lemma counters_run_effect (files : list Path) (st : stats) :
  counters (run_effect root_dir read_text exists_ files st)
  = foldl add_counts (counters st)
      (map (fun pc => file_counts pc.2)
           (analyzed_contents read_text exists_ files)).
Proof.
  unfold run_effect.
  generalize (analyzed_contents read_text exists_ files). intros l.
  revert st. induction l as [|[p c] l IH]; intros st; cbn [foldl map].
  - reflexivity.
  - rewrite IH, counters_file_effect. reflexivity.
Qed.

(** *** The example lists and their counters *)

Lemma examples_for_record_effect (key k : string) (ex : example)
    (st : stats) :
  examples_for k (record_effect key ex st)
  = if String.eqb key k then cap (examples_for key st) [ex]
    else examples_for k st.
Proof.
  unfold examples_for, record_effect, set_examples. cbn [examples].
  destruct (String.eqb_spec key k) as [->|Hne].
  - now rewrite lookup_insert_eq.
  - now rewrite lookup_insert_ne.
Qed.

Lemma len_cap_one (l : list example) (x : example) :
  len (cap l [x]) = if len l <? 5 then len l + 1 else len l.
Proof.
  destruct (len l <? 5) eqn:E; unfold len in *.
  - rewrite cap_one_room by lia. rewrite length_app. cbn. lia.
  - now rewrite cap_full by lia.
Qed.

Lemma accounts_file_effect (filepath : Path) (content : text) (st : stats) :
  accounts st -> accounts (file_effect root_dir filepath content st).
Proof.
  assert (Hm : forall st, accounts st ->
                 accounts (magic_effect root_dir filepath content st)).
  { intros s (H1 & H2 & H3). unfold magic_effect.
    destruct (len (filtered_magic content) >=? 5); [|now repeat split].
    unfold accounts. rewrite !examples_for_record_effect. cbn [String.eqb
      Ascii.eqb Bool.eqb andb].
    rewrite len_cap_one.
    change (examples_for "magic_numbers" (count_magic _ s))
      with (examples_for "magic_numbers" s).
    change (examples_for "deprecated" (count_magic _ s))
      with (examples_for "deprecated" s).
    change (examples_for "deep_nesting" (count_magic _ s))
      with (examples_for "deep_nesting" s).
    cbn [magic_numbers code_smells record_effect count_magic set_examples
         set_magic_numbers files_with_magic_numbers].
    destruct (len (examples_for "magic_numbers" s) <? 5) eqn:E;
      repeat split; try assumption; lia. }
  assert (Hd : forall st, accounts st ->
                 accounts (deprecated_effect root_dir filepath content st)).
  { intros s (H1 & H2 & H3). unfold deprecated_effect.
    destruct (has_deprecated content); [|now repeat split].
    unfold accounts. rewrite !examples_for_record_effect. cbn [String.eqb
      Ascii.eqb Bool.eqb andb].
    rewrite len_cap_one.
    change (examples_for "magic_numbers" (add_deprecated 1 s))
      with (examples_for "magic_numbers" s).
    change (examples_for "deprecated" (add_deprecated 1 s))
      with (examples_for "deprecated" s).
    change (examples_for "deep_nesting" (add_deprecated 1 s))
      with (examples_for "deep_nesting" s).
    cbn [magic_numbers code_smells record_effect add_deprecated set_examples
         set_code_smells deprecated deep_nesting].
    destruct (len (examples_for "deprecated" s) <? 5) eqn:E;
      repeat split; try assumption; lia. }
  assert (Hn : forall st, accounts st ->
                 accounts (nesting_effect root_dir filepath content st)).
  { intros s (H1 & H2 & H3). unfold nesting_effect.
    destruct (max_nesting content >? 6); [|now repeat split].
    unfold accounts. rewrite !examples_for_record_effect. cbn [String.eqb
      Ascii.eqb Bool.eqb andb].
    rewrite len_cap_one.
    change (examples_for "magic_numbers" (add_deep_nesting 1 s))
      with (examples_for "magic_numbers" s).
    change (examples_for "deprecated" (add_deep_nesting 1 s))
      with (examples_for "deprecated" s).
    change (examples_for "deep_nesting" (add_deep_nesting 1 s))
      with (examples_for "deep_nesting" s).
    cbn [magic_numbers code_smells record_effect add_deep_nesting set_examples
         set_code_smells deprecated deep_nesting].
    destruct (len (examples_for "deep_nesting" s) <? 5) eqn:E;
      repeat split; try assumption; lia. }
  assert (Hother : forall (f : stats -> stats) st,
            (forall s, examples (f s) = examples s) ->
            (forall s, files_with_magic_numbers (magic_numbers (f s))
                       = files_with_magic_numbers (magic_numbers s)) ->
            (forall s, deprecated (code_smells (f s))
                       = deprecated (code_smells s)) ->
            (forall s, deep_nesting (code_smells (f s))
                       = deep_nesting (code_smells s)) ->
            accounts st -> accounts (f st)).
  { intros f s He H1 H2 H3. unfold accounts, examples_for.
    now rewrite He, H1, H2, H3. }
  intros H. unfold file_effect.
  apply Hn.
  apply Hother; [| | | |]; try (intros s; unfold long_effect;
    destruct (long_funcs content); reflexivity).
  apply Hd.
  apply Hother; [| | | |]; try (intros s; unfold marker_effect;
    destruct (_ >? 0); reflexivity).
  apply Hother; [| | | |]; try (intros s; unfold marker_effect;
    destruct (_ >? 0); reflexivity).
  apply Hother; [| | | |]; try (intros s; unfold marker_effect;
    destruct (_ >? 0); reflexivity).
  apply Hother; [| | | |]; try (intros s; unfold age_effect;
    destruct (oldest_year content); reflexivity).
  apply Hother; [| | | |]; try (intros s; reflexivity).
  apply Hm. exact H.
Qed.

Lemma accounts_run_effect (files : list Path) (st : stats) :
  accounts st -> accounts (run_effect root_dir read_text exists_ files st).
Proof.
  unfold run_effect.
  generalize (analyzed_contents read_text exists_ files). intros l.
  revert st. induction l as [|[p c] l IH]; intros st H; cbn [foldl].
  - exact H.
  - apply IH. now apply accounts_file_effect.
Qed.

(** *** When the analysis of a file raises *)

Section Raises.
Variable filepath : Path.
Variable e : exn.
Hypothesis outside : relative_to filepath root_dir = Raise e.
Variable ex0 : gmap string (list example).

Let roomx (key : string) : bool := len (default [] (ex0 !! key)) <? 5.

Lemma record_example_outcome (key : string) (mk : Path -> example) :
  triple (fun st => examples st = ex0)
    (record_example root_dir key mk filepath)
    (fun _ st => examples st = ex0 /\ roomx key = false)
    (fun e' _ => e' = e /\ roomx key = true).
Proof.
  intros st <-. subst roomx. cbn beta.
  unfold record_example, bindM, examples_of, when, lift, ret.
  destruct (examples st !! key) as [l|]; cbn [default from_option id].
  - destruct (len l <? 5).
    + rewrite outside. now split.
    + now split.
  - change (len [] <? 5) with true. cbn iota. rewrite outside. now split.
Qed.

Lemma recording_outcome (q : bool) (key : string) (mk : Path -> example)
    (f : stats -> stats) (issues : list issue) :
  (forall s, examples (f s) = examples s) ->
  triple (fun st => examples st = ex0)
    (if q then
       bindM (modify f) (fun _ =>
       bindM (record_example root_dir key mk filepath) (fun _ =>
       ret issues))
     else ret [])
    (fun _ st => examples st = ex0 /\ q && roomx key = false)
    (fun e' _ => e' = e /\ q && roomx key = true).
Proof.
  intros Hf. destruct q; cbn [andb].
  - eapply triple_bind.
    { apply triple_modify with (Q := fun _ st => examples st = ex0).
      intros st <-. apply Hf. }
    intros ?. eapply triple_bind; [apply record_example_outcome|].
    intros ?. apply triple_ret. auto.
  - apply triple_ret. auto.
Qed.

Lemma analyze_content_outcome (content : text) :
  triple (fun st => examples st = ex0)
    (analyze_content root_dir filepath content)
    (fun _ _ =>
       (len (filtered_magic content) >=? 5) && roomx "magic_numbers" = false
       /\ has_deprecated content && roomx "deprecated" = false
       /\ (max_nesting content >? 6) && roomx "deep_nesting" = false)
    (fun e' _ =>
       e' = e
       /\ ((len (filtered_magic content) >=? 5) && roomx "magic_numbers"
           || has_deprecated content && roomx "deprecated"
           || (max_nesting content >? 6) && roomx "deep_nesting") = true).
Proof.
  unfold analyze_content.
  eapply triple_bind.
  { eapply triple_conseq;
      [apply (recording_outcome (len (filtered_magic content) >=? 5)
                "magic_numbers"); intros s; reflexivity
      |intros ? H; exact H|intros ? ? H; exact H|].
    intros e' st [-> H]. split; [reflexivity|]. now rewrite H. }
  intros ?. apply triple_assume_r. intros F1.
  eapply triple_bind.
  { eapply effect_keeps_examples; [apply scan_complexity_effect|].
    intros s. reflexivity. }
  intros ?. eapply triple_bind.
  { eapply effect_keeps_examples; [apply scan_age_effect|].
    intros s. unfold age_effect. now destruct (oldest_year content). }
  intros ?. eapply triple_bind.
  { eapply effect_keeps_examples; [apply scan_marker_effect|].
    intros s. unfold marker_effect. now destruct (_ >? 0). }
  intros ?. eapply triple_bind.
  { eapply effect_keeps_examples; [apply scan_marker_effect|].
    intros s. unfold marker_effect. now destruct (_ >? 0). }
  intros ?. eapply triple_bind.
  { eapply effect_keeps_examples; [apply scan_marker_effect|].
    intros s. unfold marker_effect. now destruct (_ >? 0). }
  intros ?. eapply triple_bind.
  { eapply triple_conseq;
      [apply (recording_outcome (has_deprecated content) "deprecated");
       intros s; reflexivity
      |intros ? H; exact H|intros ? ? H; exact H|].
    intros e' st [-> H]. split; [reflexivity|].
    rewrite H. now rewrite orb_true_r. }
  intros ?. apply triple_assume_r. intros F2.
  eapply triple_bind.
  { eapply effect_keeps_examples; [apply scan_long_functions_effect|].
    intros s. unfold long_effect. now destruct (long_funcs content). }
  intros ?. eapply triple_bind.
  { eapply triple_conseq;
      [apply (recording_outcome (max_nesting content >? 6) "deep_nesting");
       intros s; reflexivity
      |intros ? H; exact H|intros ? ? H; exact H|].
    intros e' st [-> H]. split; [reflexivity|].
    rewrite H. now rewrite orb_true_r. }
  intros ?. apply triple_assume_r. intros F3.
  apply triple_ret. intros st _. repeat split; assumption.
Qed.

End Raises.

(** *** Invariants of the counters, however a computation ends *)

Lemma keeps_record_example (I : stats -> Prop) (key : string)
    (mk : Path -> example) (filepath : Path) :
  (forall g st, I st -> I (set_examples g st)) ->
  invariant I (record_example root_dir key mk filepath).
Proof.
  intros HI st H.
  unfold record_example, bindM, examples_of, when, lift, ret,
    append_example, modify.
  destruct (examples st !! key) as [l|].
  - destruct (len l <? 5); [|exact H].
    destruct (relative_to filepath root_dir); [now apply HI|exact H].
  - change (len [] <? 5) with true. cbn iota.
    destruct (relative_to filepath root_dir); now repeat apply HI.
Qed.

Lemma keeps_bind {A B : Type} (I : stats -> Prop) (m : M A) (k : A -> M B) :
  invariant I m -> (forall a, invariant I (k a)) -> invariant I (bindM m k).
Proof. intros Hm Hk. eapply triple_bind; [exact Hm|exact Hk]. Qed.

Lemma keeps_ret {A : Type} (I : stats -> Prop) (a : A) : invariant I (ret a).
Proof. now apply triple_ret. Qed.

Lemma keeps_lift {A : Type} (I : stats -> Prop) (o : outcome A) :
  invariant I (lift o).
Proof. apply triple_lift. intros st H. now destruct o. Qed.

Lemma keeps_modify (I : stats -> Prop) (f : stats -> stats) :
  (forall st, I st -> I (f st)) -> invariant I (modify f).
Proof. intros H. now apply triple_modify. Qed.

Lemma analyze_content_magic_floor (filepath : Path) (content : text) :
  invariant magic_floor (analyze_content root_dir filepath content).
Proof.
  assert (Hx : forall g st, magic_floor st -> magic_floor (set_examples g st))
    by (intros g st H; exact H).
  unfold analyze_content, scan_magic, scan_complexity, scan_age,
    scan_marker, scan_deprecated, scan_long_functions, scan_nesting.
  destruct (len (filtered_magic content) >=? 5) eqn:Hq.
  all: repeat first
    [ apply keeps_record_example; exact Hx
    | apply keeps_bind; [|intros ?]
    | apply keeps_ret
    | apply keeps_lift
    | apply keeps_modify; intros st [H1 H2]; split; cbn; lia
    | match goal with
      | |- invariant _ (if ?b then _ else _) => destruct b
      | |- invariant _ (match ?l with [] => _ | _ :: _ => _ end) =>
          destruct l
      end ].
Qed.

Lemma analyze_files_magic_floor (files : list Path) :
  invariant magic_floor (analyze_files root_dir read_text exists_ files).
Proof.
  induction files as [|filepath rest IH]; cbn [analyze_files].
  - apply keeps_ret.
  - apply keeps_bind; [|intros ?; exact IH].
    destruct (exists_ filepath); [|apply keeps_ret].
    apply keeps_bind; [|intros ?; apply keeps_ret].
    unfold analyze_file. destruct (read_text filepath); [|apply keeps_ret].
    apply keeps_bind; [|intros ?; apply keeps_ret].
    apply analyze_content_magic_floor.
Qed.

(** *** Counters that count files *)

Lemma run_effect_count (phi : stats -> Z) (b : text -> bool) :
  (forall filepath content st,
      phi (file_effect root_dir filepath content st)
      = phi st + indicator (b content)) ->
  forall files st,
    phi (run_effect root_dir read_text exists_ files st)
    = phi st
      + len (List.filter (fun pc => b pc.2)
               (analyzed_contents read_text exists_ files)).
Proof.
  intros Hphi files. unfold run_effect.
  generalize (analyzed_contents read_text exists_ files). intros l.
  induction l as [|[p c] l IH]; intros st; cbn [foldl List.filter].
  - unfold len. cbn. lia.
  - rewrite IH, Hphi. cbn [snd]. unfold len, indicator.
    destruct (b c); cbn [length]; lia.
Qed.

Lemma file_effect_counts (filepath : Path) (content : text) (st : stats) :
  files_with_magic_numbers (magic_numbers (file_effect root_dir filepath content st))
    = files_with_magic_numbers (magic_numbers st)
      + indicator (len (filtered_magic content) >=? 5)
  /\ counters_sum (complexity (file_effect root_dir filepath content st))
     = counters_sum (complexity st) + indicator true
  /\ very_old (age_indicators (file_effect root_dir filepath content st))
     + old (age_indicators (file_effect root_dir filepath content st))
     + recent (age_indicators (file_effect root_dir filepath content st))
     + modern (age_indicators (file_effect root_dir filepath content st))
     = very_old (age_indicators st) + old (age_indicators st)
       + recent (age_indicators st) + modern (age_indicators st)
       + indicator (bool_decide (is_Some (oldest_year content)))
  /\ deprecated (code_smells (file_effect root_dir filepath content st))
     = deprecated (code_smells st) + indicator (has_deprecated content)
  /\ deep_nesting (code_smells (file_effect root_dir filepath content st))
     = deep_nesting (code_smells st) + indicator (max_nesting content >? 6).
Proof.
  pose proof (counters_file_effect filepath content st) as H.
  unfold counters, file_counts, add_counts in H. cbn [zip_with] in H.
  injection H as H1 H2 H3 H4 H5 H6 H7 H8 H9 H10 H11 H12 H13 H14 H15 H16.
  unfold counters_sum. rewrite H1, H3, H4, H5, H6, H7, H8, H9, H10, H14, H16.
  repeat split; try reflexivity.
  - unfold indicator. destruct (file_tier content); cbn; lia.
  - unfold indicator, age_is.
    destruct (oldest_year content) as [y|]; [destruct (age_of y)|]; cbn; lia.
Qed.

Lemma record_example_raises (key : string) (mk : Path -> example)
    (filepath : Path) (e : exn) (st : stats) :
  relative_to filepath root_dir = Raise e ->
  room key st = true ->
  exists st',
    record_example root_dir key mk filepath st = (st', Raise e)
    /\ counters st' = counters st
    /\ forall k, examples_for k st' = examples_for k st.
Proof.
  intros Hr Hroom. unfold room, examples_for in Hroom.
  unfold record_example, bindM, examples_of, when, lift, ret.
  destruct (examples st !! key) as [l|] eqn:Hk; cbn [default from_option id] in Hroom.
  - rewrite Hroom, Hr. exists st. now repeat split.
  - change (len [] <? 5) with true. cbn iota. rewrite Hr.
    eexists. split; [reflexivity|]. split; [reflexivity|].
    intros k. unfold examples_for, set_examples. cbn [examples].
    destruct (String.eqb_spec key k) as [->|Hne].
    + now rewrite lookup_insert_eq, Hk.
    + now rewrite lookup_insert_ne.
Qed.

End Effects.
(** X1.  Whether the analysis of a file raises is decided by its path,
    its content and the example lists alone: it raises the [ValueError]
    of [relative_to] exactly when the file is outside the root directory
    and qualifies for a family whose example list still has room;
    otherwise it returns the issues of the content. *)
Theorem analysis_raises_exactly_when (root_dir filepath : Path)
    (content : text) (st : stats) :
  snd (analyze_content root_dir filepath content st) =
  match relative_to filepath root_dir with
  | Ok _ => Ok (Result filepath (file_issues content))
  | Raise e =>
      if records_example content st then Raise e
      else Ok (Result filepath (file_issues content))
  end.
Proof.
  pose proof (analyze_content_effect root_dir filepath content st st eq_refl)
    as He.
  destruct (relative_to filepath root_dir) as [rel|e] eqn:Hr.
  - destruct (analyze_content root_dir filepath content st) as [st' [r|e]];
      cbn [snd].
    + now destruct He as [_ ->].
    + exfalso. apply He. now exists rel.
  - pose proof (analyze_content_outcome root_dir filepath e Hr (examples st)
                  content st eq_refl) as Ho.
    unfold records_example, room, examples_for.
    destruct (analyze_content root_dir filepath content st) as [st' [r|e']];
      cbn [snd].
    + destruct He as [_ ->]. destruct Ho as (F1 & F2 & F3).
      now rewrite F1, F2, F3.
    + destruct Ho as [-> Ho]. now rewrite Ho.
Qed.

(** X2.  An exception does not undo what was counted before it: when a
    file outside the root directory has five or more magic numbers and
    the list of magic-number examples has room, the analysis raises
    after counting the file and its literals, records no example and
    counts the file in no other family. *)
Theorem raise_keeps_the_magic_count (root_dir filepath : Path)
    (content : text) (st : stats) (e : exn)
    (Hout : relative_to filepath root_dir = Raise e)
    (Hq : (len (filtered_magic content) >=? 5) = true)
    (Hroom : room "magic_numbers" st = true) :
  exists st',
    analyze_content root_dir filepath content st = (st', Raise e)
    /\ counters st'
       = add_counts (counters st)
           [1; len (filtered_magic content); 0; 0; 0; 0; 0; 0; 0; 0; 0; 0;
            0; 0; 0; 0]
    /\ forall key, examples_for key st' = examples_for key st.
Proof.
  unfold analyze_content, scan_magic. rewrite Hq.
  unfold bindM at 1 2. cbn [modify].
  destruct (record_example_raises root_dir "magic_numbers"
              (fun rel => MagicExample rel (len (filtered_magic content))
                            (take 5 (filtered_magic content)))
              filepath e (count_magic (len (filtered_magic content)) st)
              Hout Hroom) as (st' & E & Hc & Hx).
  unfold bindM at 1. rewrite E. exists st'. split; [reflexivity|].
  split; [|exact Hx]. rewrite Hc.
  unfold counters, add_counts, count_magic, set_magic_numbers. cbn.
  repeat (f_equal; try lia).
Qed.

Lemma raise_keeps_the_magic_count_witness :
  relative_to EffectSamples.outside_path Samples.root = Raise ValueError
  /\ exists st',
       analyze_content Samples.root EffectSamples.outside_path
         Samples.smelly_file init = (st', Raise ValueError)
       /\ counters st' = [1; 5; 0; 0; 0; 0; 0; 0; 0; 0; 0; 0; 0; 0; 0; 0].
Proof.
  assert (Hout : relative_to EffectSamples.outside_path Samples.root
                 = Raise ValueError) by reflexivity.
  split; [exact Hout|].
  destruct (raise_keeps_the_magic_count Samples.root
              EffectSamples.outside_path Samples.smelly_file init ValueError
              Hout) as (st' & E & Hc & _);
    [vm_compute; reflexivity|vm_compute; reflexivity|].
  exists st'. split; [exact E|]. rewrite Hc. vm_compute. reflexivity.
Defined.

(** X3.  After a run that returns, the example list of each recording
    family holds as many entries as its counter says, up to five:
    [magic_numbers] against [files_with_magic_numbers], [deprecated] and
    [deep_nesting] against the counters of the same name. *)
Theorem example_lists_follow_counters (root_dir : Path)
    (read_text : Path -> option text) (exists_ : Path -> bool)
    (files : list Path) (st' : stats)
    (H : analyze_files root_dir read_text exists_ files init = (st', Ok tt)) :
  len (examples_for "magic_numbers" st')
    = Z.min 5 (files_with_magic_numbers (magic_numbers st'))
  /\ len (examples_for "deprecated" st')
     = Z.min 5 (deprecated (code_smells st'))
  /\ len (examples_for "deep_nesting" st')
     = Z.min 5 (deep_nesting (code_smells st')).
Proof.
  pose proof (analyze_files_effect root_dir read_text exists_ files init init
                eq_refl) as He.
  rewrite H in He. destruct He as [-> _].
  apply accounts_run_effect. now repeat split.
Qed.

Lemma example_lists_follow_counters_witness :
  exists st',
    analyze_files Samples.root Samples.quality_read Samples.quality_exists
      EffectSamples.run_files init = (st', Ok tt)
    /\ len (examples_for "deep_nesting" st') = 5
    /\ deep_nesting (code_smells st') = 7.
Proof.
  eexists. split; [vm_compute; reflexivity|].
  split.
  - etransitivity.
    + apply (example_lists_follow_counters Samples.root Samples.quality_read
               Samples.quality_exists EffectSamples.run_files).
      vm_compute; reflexivity.
    + vm_compute; reflexivity.
  - vm_compute; reflexivity.
Defined.

(** X4.  However a run ends, every file counted in
    [files_with_magic_numbers] has brought at least five literals to
    [total_magic_numbers]. *)
Theorem magic_total_is_five_per_file (root_dir : Path)
    (read_text : Path -> option text) (exists_ : Path -> bool)
    (files : list Path) :
  0 <= files_with_magic_numbers
         (magic_numbers
            (fst (analyze_files root_dir read_text exists_ files init)))
  /\ 5 * files_with_magic_numbers
           (magic_numbers
              (fst (analyze_files root_dir read_text exists_ files init)))
     <= total_magic_numbers
          (magic_numbers
             (fst (analyze_files root_dir read_text exists_ files init))).
Proof.
  pose proof (analyze_files_magic_floor root_dir read_text exists_ files init)
    as H.
  destruct (analyze_files root_dir read_text exists_ files init)
    as [st' [[]|e]]; cbn [fst]; apply H; split; cbn; lia.
Qed.

(** X5.  The order of the files does not change the counters: two runs
    that return, over the same files in different orders, end with the
    same sixteen counters (only the example lists can differ). *)
Theorem counters_do_not_depend_on_order (root_dir : Path)
    (read_text : Path -> option text) (exists_ : Path -> bool)
    (files files' : list Path) (st st1 st2 : stats)
    (Hperm : files ≡ₚ files')
    (H1 : analyze_files root_dir read_text exists_ files st = (st1, Ok tt))
    (H2 : analyze_files root_dir read_text exists_ files' st = (st2, Ok tt)) :
  counters st1 = counters st2.
Proof.
  pose proof (analyze_files_effect root_dir read_text exists_ files st st
                eq_refl) as E1.
  pose proof (analyze_files_effect root_dir read_text exists_ files' st st
                eq_refl) as E2.
  rewrite H1 in E1. rewrite H2 in E2.
  destruct E1 as [-> _]. destruct E2 as [-> _].
  rewrite !counters_run_effect.
  apply foldl_add_counts_perm.
  apply Permutation_map. unfold analyzed_contents. now rewrite Hperm.
Qed.

Lemma counters_do_not_depend_on_order_witness :
  EffectSamples.run_files ≡ₚ rev EffectSamples.run_files
  /\ exists st1 st2,
       analyze_files Samples.root Samples.quality_read Samples.quality_exists
         EffectSamples.run_files init = (st1, Ok tt)
       /\ analyze_files Samples.root Samples.quality_read
            Samples.quality_exists (rev EffectSamples.run_files) init
          = (st2, Ok tt)
       /\ counters st1 = counters st2.
Proof.
  assert (Hp : EffectSamples.run_files ≡ₚ rev EffectSamples.run_files)
    by (symmetry; apply Permutation_rev).
  split; [exact Hp|].
  eexists _, _. split; [vm_compute; reflexivity|].
  split; [vm_compute; reflexivity|].
  apply (counters_do_not_depend_on_order Samples.root Samples.quality_read
           Samples.quality_exists _ _ init _ _ Hp);
    vm_compute; reflexivity.
Defined.

(** X6.  After a run that returns, each file-level counter is the
    number of analyzed files with the family's feature, every file
    counted at most once: [files_with_magic_numbers] counts the files
    with five or more literals, the four age counters together the files
    that mention a year, [deprecated] the files with a marker (however
    many markers), [deep_nesting] the files deeper than 6; the four
    complexity counters together count every analyzed file. *)
Theorem file_counters_count_files (root_dir : Path)
    (read_text : Path -> option text) (exists_ : Path -> bool)
    (files : list Path) (st' : stats)
    (H : analyze_files root_dir read_text exists_ files init = (st', Ok tt)) :
  files_with_magic_numbers (magic_numbers st')
    = len (List.filter (fun pc => len (filtered_magic pc.2) >=? 5)
             (analyzed_contents read_text exists_ files))
  /\ age_total st'
     = len (List.filter
              (fun pc => bool_decide (is_Some (oldest_year pc.2)))
              (analyzed_contents read_text exists_ files))
  /\ deprecated (code_smells st')
     = len (List.filter (fun pc => has_deprecated pc.2)
              (analyzed_contents read_text exists_ files))
  /\ deep_nesting (code_smells st')
     = len (List.filter (fun pc => max_nesting pc.2 >? 6)
              (analyzed_contents read_text exists_ files))
  /\ complexity_total st'
     = len (analyzed_contents read_text exists_ files).
Proof.
  pose proof (analyze_files_effect root_dir read_text exists_ files init init
                eq_refl) as He.
  rewrite H in He. destruct He as [-> _].
  split; [|split; [|split; [|split]]].
  - rewrite (run_effect_count root_dir read_text exists_
               (fun st => files_with_magic_numbers (magic_numbers st))
               (fun c => len (filtered_magic c) >=? 5));
      [reflexivity|].
    intros p c s. apply (file_effect_counts root_dir p c s).
  - rewrite (run_effect_count root_dir read_text exists_ age_total
               (fun c => bool_decide (is_Some (oldest_year c))));
      [reflexivity|].
    intros p c s. apply (file_effect_counts root_dir p c s).
  - rewrite (run_effect_count root_dir read_text exists_
               (fun st => deprecated (code_smells st)) has_deprecated);
      [reflexivity|].
    intros p c s. apply (file_effect_counts root_dir p c s).
  - rewrite (run_effect_count root_dir read_text exists_
               (fun st => deep_nesting (code_smells st))
               (fun c => max_nesting c >? 6));
      [reflexivity|].
    intros p c s. apply (file_effect_counts root_dir p c s).
  - rewrite (run_effect_count root_dir read_text exists_ complexity_total
               (fun _ => true)).
    + change (complexity_total init) with 0.
      rewrite Z.add_0_l. f_equal.
      induction (analyzed_contents read_text exists_ files) as [|x l IH];
        cbn; [reflexivity|now rewrite IH].
    + intros p c s. apply (file_effect_counts root_dir p c s).
Qed.

Lemma file_counters_count_files_witness :
  exists st',
    analyze_files Samples.root Samples.quality_read Samples.quality_exists
      EffectSamples.run_files init = (st', Ok tt)
    /\ age_total st' = 7 /\ complexity_total st' = 8.
Proof.
  eexists. split; [vm_compute; reflexivity|].
  destruct (file_counters_count_files Samples.root Samples.quality_read
              Samples.quality_exists EffectSamples.run_files _
              ltac:(vm_compute; reflexivity)) as (_ & Ha & _ & _ & Hc).
  split; [rewrite Ha|rewrite Hc]; vm_compute; reflexivity.
Defined.

End EffectFacts.

(** * Facts on strings *)

Module StrFacts.

Lemma same_eq (x c : ascii) : Chars.same x c = true <-> c = x.
Proof.
  unfold Chars.same, Chars.code. rewrite N.eqb_eq. split.
  - intros H. rewrite <- (ascii_N_embedding c), <- (ascii_N_embedding x).
    now rewrite H.
  - now intros ->.
Qed.

Lemma same_refl (x : ascii) : Chars.same x x = true.
Proof. now apply same_eq. Qed.

Lemma startswith_spec (p s : text) :
  Str.startswith p s = true <-> exists b, s = p ++ b.
Proof.
  revert s. induction p as [|x p IH]; intros s; cbn [Str.startswith].
  - split; [now exists s|reflexivity].
  - destruct s as [|y s].
    + split; [discriminate|]. now intros [b H].
    + rewrite andb_true_iff, same_eq, IH. split.
      * intros [-> [b ->]]. now exists b.
      * intros [b [= -> ->]]. split; [reflexivity|now exists b].
Qed.

Lemma contains_spec (p s : text) :
  Str.contains p s = true <-> exists a b, s = a ++ p ++ b.
Proof.
  induction s as [|y s IH]; cbn [Str.contains];
    rewrite orb_true_iff, startswith_spec.
  - split.
    + intros [[b H]|H]; [|discriminate]. now exists [], b.
    + intros (a & b & H). left. destruct a as [|? a]; [|discriminate].
      now exists b.
  - rewrite IH. split.
    + intros [[b H]|(a & b & ->)]; [now exists [], b|].
      now exists (y :: a), b.
    + intros (a & b & H). destruct a as [|z a].
      * left. now exists b.
      * right. injection H as -> ->. now exists a, b.
Qed.

Lemma split_nl_nonempty (s : text) : Str.split_nl s <> [].
Proof.
  destruct s as [|c s]; cbn [Str.split_nl]; [discriminate|].
  destruct (Chars.same Chars.nl c); [discriminate|].
  now destruct (Str.split_nl s).
Qed.

(** Splitting at the newlines and joining again gives the text back. *)
Lemma join_split_nl (s : text) : Str.join_nl (Str.split_nl s) = s.
Proof.
  induction s as [|c s IH]; cbn [Str.split_nl]; [reflexivity|].
  pose proof (split_nl_nonempty s) as Hne.
  destruct (Str.split_nl s) as [|l ls] eqn:E; [contradiction|].
  destruct (Chars.same Chars.nl c) eqn:Hc.
  - apply same_eq in Hc as ->.
    change (Str.join_nl ([] :: l :: ls))
      with ([] ++ Chars.nl :: Str.join_nl (l :: ls)).
    now rewrite IH.
  - destruct ls as [|l' ls]; cbn [Str.join_nl app] in *; now rewrite IH.
Qed.

(** Every element of a joined list is a piece of the joined text. *)
Lemma join_nl_piece (ls : list text) (l : text) :
  l ∈ ls -> exists a b, Str.join_nl ls = a ++ l ++ b.
Proof.
  induction ls as [|l0 ls IH]; [now intros H%elem_of_nil|].
  intros [->|H]%elem_of_cons.
  - destruct ls as [|l1 ls]; cbn [Str.join_nl].
    + exists [], []. now rewrite app_nil_r.
    + now exists [], (Chars.nl :: Str.join_nl (l1 :: ls)).
  - destruct (IH H) as (a & b & E). destruct ls as [|l1 ls].
    + now apply elem_of_nil in H.
    + change (Str.join_nl (l0 :: l1 :: ls))
        with (l0 ++ Chars.nl :: Str.join_nl (l1 :: ls)).
      rewrite E. exists (l0 ++ Chars.nl :: a), b.
      now rewrite <- app_assoc.
Qed.

(** What a line contains, the text contains. *)
Lemma contains_line (p s line : text) :
  line ∈ Str.split_nl s -> Str.contains p line = true ->
  Str.contains p s = true.
Proof.
  intros Hl Hp. apply contains_spec in Hp as (a & b & ->).
  apply join_nl_piece in Hl as (a' & b' & E). rewrite join_split_nl in E.
  apply contains_spec. exists (a' ++ a), (b ++ b').
  rewrite E. now rewrite <- !app_assoc.
Qed.

End StrFacts.

(** * Soundness of the matcher *)

Module ReFacts.
Import Re ReSpec.

Lemma advance_refl (c : cursor) : advance [] c c.
Proof. now split. Qed.

Lemma advance_trans (s t : text) (c c1 c2 : cursor) :
  advance s c c1 -> advance t c1 c2 -> advance (s ++ t) c c2.
Proof.
  intros [H1 H2] [H3 H4]. split.
  - now rewrite H1, H3, app_assoc.
  - now rewrite H4, H2, rev_app_distr, app_assoc.
Qed.

Lemma star_advance (R : cursor -> cursor -> Prop) (c c' : cursor) :
  (forall c c', R c c' -> exists s, advance s c c') ->
  star R c c' -> exists s, advance s c c'.
Proof.
  intros HR. induction 1 as [c|c c1 c2 H1 _ IH].
  - exists []. apply advance_refl.
  - destruct (HR _ _ H1) as [s Hs]. destruct IH as [t Ht].
    exists (s ++ t). eapply advance_trans; eassumption.
Qed.

(** A pattern only moves the cursor forward. *)
Lemma lang_advance (r : re) (c c' : cursor) :
  lang r c c' -> exists s, advance s c c'.
Proof.
  revert c c'. induction r as [|p|r1 IH1 r2 IH2|r1 IH1 r2 IH2|g r IH|r IH
                               | |ml| |p|p]; intros c c'; cbn [lang].
  - intros ->. exists []. apply advance_refl.
  - intros (x & Ha & _ & Hb & _). exists [x]. now split.
  - intros (c1 & H1 & H2). destruct (IH1 _ _ H1) as [s Hs].
    destruct (IH2 _ _ H2) as [t Ht]. exists (s ++ t).
    eapply advance_trans; eassumption.
  - intros [H|H]; [now apply IH1|now apply IH2].
  - now apply star_advance.
  - intros (c1 & H1 & ->). destruct (IH _ _ H1) as [s Hs]. exists s.
    exact Hs.
  - intros [_ ->]. exists []. apply advance_refl.
  - intros [_ ->]. exists []. apply advance_refl.
  - intros [_ ->]. exists []. apply advance_refl.
  - intros [_ ->]. exists []. apply advance_refl.
  - intros [_ ->]. exists []. apply advance_refl.
Qed.

(** Whatever the matcher hands to its continuation is a cursor the
    pattern leads to. *)
Lemma run_sound {A : Type} (r : re) (c : cursor) (k : cursor -> option A)
    (a : A) :
  run r c k = Some a -> exists c', lang r c c' /\ k c' = Some a.
Proof.
  revert c k a. induction r as [|p|r1 IH1 r2 IH2|r1 IH1 r2 IH2|g r IH|r IH
                                | |ml| |p|p]; intros c k a; cbn [run lang].
  - intros H. now exists c.
  - destruct (ahead c) as [|x rest] eqn:Ha; [discriminate|].
    destruct (p x) eqn:Hp; [|discriminate]. intros H.
    eexists. split; [|exact H]. exists x. cbn. now rewrite Ha.
  - intros H. apply IH1 in H as (c1 & H1 & H).
    apply IH2 in H as (c2 & H2 & H). exists c2. split; [|exact H].
    now exists c1.
  - destruct (run r1 c k) as [m|] eqn:E1.
    + intros [= ->]. apply IH1 in E1 as (c' & H1 & H). exists c'.
      split; [now left|exact H].
    + intros H. apply IH2 in H as (c' & H2 & H). exists c'.
      split; [now right|exact H].
  - generalize (length (ahead c)). intros n. revert c a.
    induction n as [|n IHn]; intros c a.
    { intros H. exists c. split; [constructor|exact H]. }
    assert (Hmore : forall b,
              run r c (fun c' =>
                if (pos c <? pos c')%nat
                then (fix iter (n : nat) (c : cursor) {struct n} : option A :=
                        match n with
                        | O => k c
                        | S n' =>
                            let more :=
                              run r c (fun c' =>
                                if (pos c <? pos c')%nat
                                then iter n' c' else None) in
                            if g then
                              match more with
                              | Some m => Some m
                              | None => k c
                              end
                            else
                              match k c with
                              | Some m => Some m
                              | None => more
                              end
                        end) n c'
                else None) = Some b ->
              exists c', star (lang r) c c' /\ k c' = Some b).
    { intros b Em. apply IH in Em as (c1 & H1 & Hk).
      destruct (pos c <? pos c1)%nat; [|discriminate].
      apply IHn in Hk as (c2 & H2 & Hk). exists c2.
      split; [econstructor; eassumption|exact Hk]. }
    cbv zeta.
    match goal with
    | |- context [run r c ?k'] => destruct (run r c k') as [m|] eqn:Em
    end.
    + destruct g.
      * intros [= ->]. now apply Hmore.
      * destruct (k c) as [m'|] eqn:Ek.
        -- intros [= ->]. exists c. split; [constructor|exact Ek].
        -- intros [= ->]. now apply Hmore.
    + destruct g.
      * intros H. exists c. split; [constructor|exact H].
      * destruct (k c) as [m'|] eqn:Ek; [|discriminate].
        intros [= ->]. exists c. split; [constructor|exact Ek].
  - intros H. apply IH in H as (c1 & H1 & H). eexists. split; [|exact H].
    now exists c1.
  - destruct (at_bol c) eqn:E; [|discriminate]. intros H. now exists c.
  - destruct (at_eol ml c) eqn:E; [|discriminate]. intros H. now exists c.
  - destruct (at_wordb c) eqn:E; [|discriminate]. intros H. now exists c.
  - destruct (prev_is p c) eqn:E; [discriminate|]. intros H. now exists c.
  - destruct (next_is p c) eqn:E; [discriminate|]. intros H. now exists c.
Qed.

Lemma consumed_advance (s : text) (c c' : cursor) :
  advance s c c' ->
  consumed c c' = s /\ pos c' = (pos c + length s)%nat.
Proof.
  intros [_ Hb]. unfold consumed, pos. rewrite Hb, length_app, length_rev.
  split; [|lia].
  replace (length s + length (behind c) - length (behind c))%nat
    with (length (rev s)) by (rewrite length_rev; lia).
  now rewrite firstn_app, Nat.sub_diag, firstn_all, app_nil_r, rev_involutive.
Qed.

(** A match found at a position is a match of the pattern there. *)
Lemma match_at_sound (r : re) (bef aft : text) (m : rmatch) :
  match_at r bef aft = Some m ->
  exists post, aft = m_text m ++ post /\ match_of r (rev bef) m post.
Proof.
  unfold match_at. intros H. apply run_sound in H as (c' & Hl & Hm).
  injection Hm as <-.
  destruct (lang_advance _ _ _ Hl) as [s Hs].
  destruct (consumed_advance _ _ _ Hs) as [Hc Hp].
  pose proof Hs as [Ha Hb]. cbn [ahead behind] in Ha, Hb.
  exists (ahead c'). unfold match_of. cbn [m_text m_start m_end m_group].
  rewrite Hc, Hp, length_rev, rev_involutive, <- Ha.
  unfold pos. cbn [behind].
  split; [reflexivity|]. split; [reflexivity|]. split; [reflexivity|].
  exists c'. split; [exact Hl|]. split; [exact Hs|reflexivity].
Qed.

(** Every match of a scan is a match of the pattern at some place of
    the subject. *)
Lemma scan_sound (r : re) (aft bef : text) (skip : nat) (m : rmatch) :
  m ∈ scan r bef aft skip ->
  exists pre post,
    rev bef ++ aft = pre ++ m_text m ++ post /\ match_of r pre m post.
Proof.
  revert bef skip. induction aft as [|x aft IH]; intros bef skip.
  - destruct skip as [|sk]; cbn [scan]; [|now intros H%elem_of_nil].
    destruct (match_at r bef []) as [m'|] eqn:E; [|now intros H%elem_of_nil].
    intros H%list_elem_of_singleton. subst m'.
    apply match_at_sound in E as (post & Ha & Hm).
    exists (rev bef), post. split; [now rewrite <- Ha|exact Hm].
  - assert (Hrec : forall sk, m ∈ scan r (x :: bef) aft sk ->
              exists pre post,
                rev bef ++ x :: aft = pre ++ m_text m ++ post
                /\ match_of r pre m post).
    { intros sk H. apply IH in H as (pre & post & E & Hm).
      exists pre, post. split; [|exact Hm].
      rewrite <- E. cbn [rev]. now rewrite <- app_assoc. }
    destruct skip as [|sk]; cbn [scan]; [|apply Hrec].
    destruct (match_at r bef (x :: aft)) as [m'|] eqn:E; [|apply Hrec].
    intros [->|H]%elem_of_cons; [|now apply Hrec in H].
    apply match_at_sound in E as (post & Ha & Hm).
    exists (rev bef), post. split; [now rewrite <- Ha|exact Hm].
Qed.

Lemma finditer_sound (r : re) (s : text) (m : rmatch) :
  m ∈ finditer r s ->
  exists pre post, s = pre ++ m_text m ++ post /\ match_of r pre m post.
Proof. unfold finditer. intros H. now apply scan_sound in H. Qed.

(** *** Reading a match off a pattern *)

Lemma advance_unique (s t : text) (c c' : cursor) :
  advance s c c' -> advance t c c' -> s = t.
Proof.
  intros [H1 _] [H2 _]. rewrite H1 in H2. now apply app_inv_tail in H2.
Qed.

Lemma step_advance (p : ascii -> bool) (c c' : cursor) :
  step p c c' ->
  exists x, p x = true /\ advance [x] c c' /\ group1 c' = group1 c.
Proof.
  intros (x & Ha & Hp & Hb & Hg). exists x. repeat split; assumption.
Qed.

(** A literal passes its own characters. *)
Lemma lang_lit (s : text) (c c' : cursor) :
  lang (lit_with Chars.same s) c c' ->
  advance s c c' /\ group1 c' = group1 c.
Proof.
  revert c. induction s as [|x s IH]; intros c; cbn [lit_with lang].
  - intros ->. split; [apply advance_refl|reflexivity].
  - intros (c1 & (y & Hy & Ha & Hg)%step_advance & H2).
    apply StrFacts.same_eq in Hy as ->.
    destruct (IH _ H2) as [H3 H4]. split.
    + apply (advance_trans [x] s c c1 c'); assumption.
    + congruence.
Qed.

(** A starred class passes characters of the class. *)
Lemma lang_star_chr (g : bool) (p : ascii -> bool) (c c' : cursor) :
  lang (Star g (Chr p)) c c' ->
  exists s, advance s c c' /\ forallb p s = true /\ group1 c' = group1 c.
Proof.
  cbn [lang]. induction 1 as [c|c c1 c2 H1 _ IH].
  - exists []. split; [apply advance_refl|]. now split.
  - apply step_advance in H1 as (x & Hx & Ha & Hg).
    destruct IH as (s & Hs & Hp & Hg'). exists (x :: s). split.
    + apply (advance_trans [x] s c c1 c2); assumption.
    + split; [cbn; now rewrite Hx, Hp|congruence].
Qed.

(** A scan finds nothing in a subject that lacks a text every match
    must hold. *)
Lemma finditer_needs (r : re) (p s : text) :
  (forall c c', lang r c c' -> exists a b, ahead c = a ++ p ++ b) ->
  Str.contains p s = false -> finditer r s = [].
Proof.
  intros Hr Hp. destruct (finditer r s) as [|m ms] eqn:E; [reflexivity|].
  assert (Hm : m ∈ finditer r s) by (rewrite E; apply list_elem_of_here).
  apply finditer_sound in Hm as (pre & post & Hs & _ & _ & c' & Hl & _).
  apply Hr in Hl as (a & b & Ha). cbn [ahead] in Ha.
  assert (Hc : Str.contains p s = true).
  { apply StrFacts.contains_spec. exists (pre ++ a), b.
    rewrite Hs, Ha. now rewrite <- !app_assoc. }
  congruence.
Qed.

(** A group around one or more characters of a class holds them. *)
Lemma lang_group_plus (p : ascii -> bool) (c c' : cursor) :
  lang (Group (Plus (Chr p))) c c' ->
  exists (x : ascii) (s : text),
    p x = true /\ forallb p s = true
    /\ advance (x :: s) c c' /\ group1 c' = Some (x :: s).
Proof.
  unfold Plus. cbn [lang].
  intros (c2 & (c1 & Hx & Hs) & ->).
  apply step_advance in Hx as (x & Hx & Ax & _).
  apply (lang_star_chr true) in Hs as (s & As & Hs & _).
  pose proof (advance_trans [x] s c c1 c2 Ax As) as A.
  exists x, s. split; [exact Hx|]. split; [exact Hs|].
  destruct (consumed_advance _ _ _ A) as [Hc _].
  cbn [group1]. rewrite Hc. split; [|reflexivity].
  destruct A as [A1 A2]. split; cbn [ahead behind]; assumption.
Qed.

(** *** Patterns with two groups *)

Lemma match_at2_sound (r1 r2 : re) (bef aft : text) (m : Re2.rmatch2) :
  Re2.match_at2 r1 r2 bef aft = Some m ->
  exists c1 c2,
    lang r1 (Cursor bef aft None) c1
    /\ lang r2 (Cursor (behind c1) (ahead c1) None) c2
    /\ Re2.m_group1 m = group1 c1 /\ Re2.m_group2 m = group1 c2.
Proof.
  unfold Re2.match_at2. intros H.
  apply run_sound in H as (c1 & H1 & H).
  apply run_sound in H as (c2 & H2 & H). injection H as <-.
  exists c1, c2. repeat split; assumption.
Qed.

Lemma scan2_sound (r1 r2 : re) (aft bef : text) (skip : nat)
    (m : Re2.rmatch2) :
  m ∈ Re2.scan2 r1 r2 bef aft skip ->
  exists pre rest,
    rev bef ++ aft = pre ++ rest
    /\ Re2.match_at2 r1 r2 (rev pre) rest = Some m.
Proof.
  revert bef skip. induction aft as [|x aft IH]; intros bef skip.
  - destruct skip as [|sk]; cbn [Re2.scan2]; [|now intros H%elem_of_nil].
    destruct (Re2.match_at2 r1 r2 bef []) as [m'|] eqn:E;
      [|now intros H%elem_of_nil].
    intros H%list_elem_of_singleton. subst m'.
    exists (rev bef), []. now rewrite rev_involutive.
  - assert (Hrec : forall sk, m ∈ Re2.scan2 r1 r2 (x :: bef) aft sk ->
              exists pre rest,
                rev bef ++ x :: aft = pre ++ rest
                /\ Re2.match_at2 r1 r2 (rev pre) rest = Some m).
    { intros sk H. apply IH in H as (pre & rest & E & Hm).
      exists pre, rest. split; [|exact Hm].
      rewrite <- E. cbn [rev]. now rewrite <- app_assoc. }
    destruct skip as [|sk]; cbn [Re2.scan2]; [|apply Hrec].
    destruct (Re2.match_at2 r1 r2 bef (x :: aft)) as [m'|] eqn:E;
      [|apply Hrec].
    intros [->|H]%elem_of_cons; [|now apply Hrec in H].
    exists (rev bef), (x :: aft). now rewrite rev_involutive.
Qed.

End ReFacts.

(** * The directory pass: coverage window, lists, totals and modules *)

Module DocRunFacts.
Import Py DocAnalyzer DocSpec DocCoverage.

(** *** The lines marked as documented *)

Lemma mark_lines_spec (lines : list text) (i n : Z) (acc : gset Z) (x : Z) :
  x ∈ mark_lines i n lines acc <->
  x ∈ acc
  \/ exists (j : nat) (line : text),
       lines !! j = Some line /\ opener line = true
       /\ i + Z.of_nat j <= x < Z.min (i + Z.of_nat j + 10) n.
Proof.
  revert i acc. induction lines as [|l lines IH]; intros i acc;
    cbn [mark_lines].
  - split; [now left|]. intros [H|(j & line & H & _)]; [exact H|].
    now rewrite lookup_nil in H.
  - rewrite IH. fold (opener l). split.
    + intros [H|(j & line & Hj & Ho & Hx)].
      * destruct (opener l) eqn:Hl; [|now left].
        apply elem_of_union in H as [H|H]; [now left|].
        apply elem_of_list_to_set, elem_of_seqZ in H.
        right. exists O, l. split; [reflexivity|]. split; [exact Hl|]. lia.
      * right. exists (S j), line. split; [exact Hj|]. split; [exact Ho|].
        lia.
    + intros [H|(j & line & Hj & Ho & Hx)].
      * left. destruct (opener l); [|exact H]. apply elem_of_union. now left.
      * destruct j as [|j].
        -- cbn in Hj. injection Hj as ->. rewrite Ho. left.
           apply elem_of_union. right.
           apply elem_of_list_to_set, elem_of_seqZ. lia.
        -- right. exists j, line. split; [exact Hj|]. split; [exact Ho|].
           lia.
Qed.

Lemma doc_positions_spec (lines : list text) (x : Z) :
  x ∈ doc_positions lines <->
  exists (j : nat) (line : text),
    lines !! j = Some line /\ opener line = true
    /\ Z.of_nat j <= x < Z.min (Z.of_nat j + 10) (len lines).
Proof.
  unfold doc_positions. rewrite mark_lines_spec. split.
  - intros [H|H]; [now apply not_elem_of_empty in H|exact H].
  - intros H. right. exact H.
Qed.

Lemma split_nl_count (s : text) :
  len (Str.split_nl s) = Str.count Chars.nl s + 1.
Proof.
  unfold len, Str.count.
  induction s as [|c s IH]; cbn [Str.split_nl List.filter]; [reflexivity|].
  destruct (Chars.same Chars.nl c); cbn [length].
  - lia.
  - destruct (Str.split_nl s) as [|l ls]; cbn [length] in *; lia.
Qed.

Lemma count_firstn (x : ascii) (n : nat) (s : text) :
  0 <= Str.count x (firstn n s) <= Str.count x s.
Proof.
  unfold Str.count. split; [lia|].
  revert n. induction s as [|c s IH]; intros [|n]; cbn [firstn List.filter];
    try (cbn [length]; lia).
  specialize (IH n). destruct (Chars.same x c); cbn [length]; lia.
Qed.

(** The line of a match is a line of the file. *)
Lemma line_num_bound (content : text) (m : Re.rmatch) :
  0 <= line_num content m < len (Str.split_nl content).
Proof.
  unfold line_num. rewrite split_nl_count.
  pose proof (count_firstn Chars.nl (Re.m_start m) content). lia.
Qed.

Lemma covered_window (lines : list text) (n : Z) :
  0 <= n < len lines ->
  covered (doc_positions lines) n = true <->
  exists (i : nat) (line : text),
    lines !! i = Some line /\ opener line = true
    /\ Z.of_nat i <= n <= Z.of_nat i + 11.
Proof.
  intros Hn. unfold covered.
  rewrite !orb_true_iff, !bool_decide_eq_true, !doc_positions_spec. split.
  - intros [[H|H]|H]; destruct H as (j & line & Hj & Ho & Hx);
      exists j, line; (split; [exact Hj|]); (split; [exact Ho|]); lia.
  - intros (i & line & Hi & Ho & Hx).
    destruct (Z_le_gt_dec n (Z.of_nat i + 9)) as [H0|H0].
    + left. left. exists i, line. split; [exact Hi|]. split; [exact Ho|]. lia.
    + destruct (Z_le_gt_dec n (Z.of_nat i + 10)) as [H1|H1].
      * left. right. exists i, line. split; [exact Hi|].
        split; [exact Ho|]. lia.
      * right. exists i, line. split; [exact Hi|]. split; [exact Ho|]. lia.
Qed.

Lemma count_documented_filter (positions : gset Z) (content : text)
    (ms : list Re.rmatch) :
  count_documented positions content ms
  = len (List.filter (fun m => covered positions (line_num content m)) ms).
Proof.
  unfold count_documented, len.
  enough (G : forall n : Z,
            foldl (fun n m =>
                     if covered positions (line_num content m)
                     then n + 1 else n) n ms
            = n + Z.of_nat (length (List.filter
                     (fun m => covered positions (line_num content m)) ms)))
    by (rewrite G; lia).
  induction ms as [|m ms IH]; intros n; cbn [foldl List.filter length].
  - lia.
  - rewrite IH. destruct (covered positions (line_num content m));
      cbn [length]; lia.
Qed.

(** *** Files without a documentation opener *)

Lemma doc_block_needs (c c' : Re.cursor) :
  ReSpec.lang DocPatterns.doc_block_pattern c c' ->
  exists a b, Re.ahead c = a ++ txt "/**" ++ b.
Proof.
  unfold DocPatterns.doc_block_pattern. cbn [ReSpec.lang].
  intros (c1 & [[H _] _]%ReFacts.lang_lit & _).
  now exists [], (Re.ahead c1).
Qed.

Lemma doc_line_needs (c c' : Re.cursor) :
  ReSpec.lang DocPatterns.doc_line_pattern c c' ->
  exists a b, Re.ahead c = a ++ txt "///" ++ b.
Proof.
  unfold DocPatterns.doc_line_pattern, DocPatterns.s.
  intros (c0 & [_ ->] & c1
          & (sp & [Hs _] & _)%ReFacts.lang_star_chr
          & c2 & [[H _] _]%ReFacts.lang_lit & _).
  exists sp, (Re.ahead c2). now rewrite Hs, H.
Qed.

Lemma no_opener_no_site (content : text) (m : Re.rmatch) :
  Str.contains (txt "/**") content = false ->
  Str.contains (txt "///") content = false ->
  documented_site content m = false.
Proof.
  intros H1 H2. unfold documented_site.
  destruct (covered _ _) eqn:E; [|reflexivity].
  apply covered_window in E; [|apply line_num_bound].
  destruct E as (i & line & Hi & Ho & _).
  apply list_elem_of_lookup_2 in Hi. unfold opener in Ho.
  apply orb_true_iff in Ho as [Ho|Ho];
    apply (StrFacts.contains_line _ _ _ Hi) in Ho; congruence.
Qed.

Lemma count_documented_none (content : text) (ms : list Re.rmatch) :
  Str.contains (txt "/**") content = false ->
  Str.contains (txt "///") content = false ->
  count_documented (doc_positions (Str.split_nl content)) content ms = 0.
Proof.
  intros H1 H2. rewrite count_documented_filter.
  induction ms as [|m ms IH]; [reflexivity|]. cbn [List.filter].
  pose proof (no_opener_no_site content m H1 H2) as Hm.
  unfold documented_site in Hm. now rewrite Hm.
Qed.

Lemma zero_quotient_is_low (y l : spec_float) :
  l = lit_0_7 \/ l = lit_0_4 \/ l = lit_0_1 ->
  gt (Float (SFdiv prec emax (of_int 0) y)) (Float l) = false.
Proof.
  intros H. change (of_int 0) with (S754_zero false).
  destruct y as [sg|sg| |sg mt e]; destruct H as [->|[->| ->]];
    try reflexivity.
  all: destruct sg; reflexivity.
Qed.

Lemma zero_ratio_no_bonus (total : Z) :
  exists d, doc_ratio_of 0 total = Ok d /\ ratio_bonus d = 0.
Proof.
  destruct (DocFacts.doc_ratio_of_cases 0 total) as [[_ E]|[_ E]];
    eexists; (split; [exact E|]).
  - unfold ratio_bonus. rewrite !zero_quotient_is_low; tauto.
  - reflexivity.
Qed.

Lemma size_bonus_none (q code_chars : Z) : size_bonus q 0 code_chars = Ok q.
Proof.
  unfold size_bonus. destruct (code_chars >? 0) eqn:Hc; [|reflexivity].
  rewrite (DocFacts.truediv_ok (Int 0) (Int code_chars)) by (cbn; lia).
  cbn [bind to_float]. rewrite zero_quotient_is_low; tauto.
Qed.

(** *** The run as a fold over the analyses *)

Section Directory.
Variable read_text : Path -> option text.

Lemma analysis_of_cases (p : Path) :
  (analyzable read_text p = true
   /\ exists content r,
        read_text p = Some content /\ analyze_content p content = Ok r
        /\ r_file r = p /\ r_category r = categorize (r_quality_score r)
        /\ r_classes r = len (classes content)
        /\ r_documented_classes r = documented_classes_in content
        /\ r_functions r = len (functions content)
        /\ r_documented_functions r = documented_functions_in content
        /\ analysis_of read_text p = Some r)
  \/ (analyzable read_text p = false /\ analysis_of read_text p = None).
Proof.
  unfold analysis_of. destruct (analyzable read_text p) eqn:Ha; [|now right].
  left. split; [reflexivity|]. unfold analyzable in Ha.
  destruct (read_text p) as [content|];
    [|now rewrite andb_false_r in Ha].
  destruct (DocFacts.analyze_content_shape p content)
    as (d & q & _ & _ & E).
  eexists content, _. split; [reflexivity|]. split; [exact E|].
  rewrite E. cbn. repeat split; reflexivity.
Qed.

Lemma visit_analysis (p : Path) (st : stats) :
  visit read_text p st
  = Ok (match analysis_of read_text p with
        | Some r => fold_result (r_file r) r st
        | None => st
        end).
Proof.
  destruct (analysis_of_cases p)
    as [(Ha & content & r & Hr & E & Hf & _ & _ & _ & _ & _ & ->)|(Ha & ->)].
  - unfold visit, analyze_file. unfold analyzable in Ha.
    destruct (bool_decide _ || bool_decide _); [discriminate|].
    rewrite Hr, E, Hf. reflexivity.
  - destruct (DocFacts.visit_cases read_text p st)
      as [(Ha' & _)|(_ & E)]; [congruence|exact E].
Qed.

Lemma visit_all_analyses (paths : list Path) (st : stats) :
  visit_all read_text paths st
  = Ok (run_results (analyses read_text paths) st).
Proof.
  revert st. induction paths as [|p paths IH]; intros st;
    cbn [visit_all]; [reflexivity|].
  rewrite visit_analysis. cbn [bind]. rewrite IH. unfold analyses.
  change (omap (analysis_of read_text) (p :: paths))
    with (match analysis_of read_text p with
          | Some r => r :: omap (analysis_of read_text) paths
          | None => omap (analysis_of read_text) paths
          end).
  destruct (analysis_of read_text p); reflexivity.
Qed.

Lemma analyses_of_module (k : string) (paths : list Path) :
  map r_file (of_module k (analyses read_text paths))
  = module_paths read_text k paths.
Proof.
  unfold of_module, module_paths, analyses.
  induction paths as [|p paths IH]; [reflexivity|].
  change (omap (analysis_of read_text) (p :: paths))
    with (match analysis_of read_text p with
          | Some r => r :: omap (analysis_of read_text) paths
          | None => omap (analysis_of read_text) paths
          end).
  cbn [List.filter].
  destruct (analysis_of_cases p)
    as [(Ha & content & r & _ & _ & Hf & _ & _ & _ & _ & _ & ->)|(Ha & ->)];
    rewrite Ha; cbn [andb List.filter]; [|exact IH].
  rewrite Hf. destruct (String.eqb (module_of p) k); cbn [map].
  - now rewrite IH, Hf.
  - exact IH.
Qed.

Lemma analyses_poorly (paths : list Path) :
  map r_file (results_in read_text poorly_documented paths)
  = List.filter (poorly read_text) paths.
Proof.
  unfold results_in, analyses, poorly.
  induction paths as [|p paths IH]; [reflexivity|].
  change (omap (analysis_of read_text) (p :: paths))
    with (match analysis_of read_text p with
          | Some r => r :: omap (analysis_of read_text) paths
          | None => omap (analysis_of read_text) paths
          end).
  cbn [List.filter].
  destruct (analysis_of_cases p)
    as [(Ha & content & r & _ & _ & Hf & _ & _ & _ & _ & _ & ->)|(Ha & ->)];
    cbn [List.filter]; [|exact IH].
  destruct (same_category poorly_documented (r_category r)); cbn [map].
  - now rewrite IH, Hf.
  - exact IH.
Qed.

Lemma analyses_spec (paths : list Path) (r : result) :
  r ∈ analyses read_text paths <->
  exists p, p ∈ paths /\ analysis_of read_text p = Some r.
Proof. unfold analyses. apply list_elem_of_omap. Qed.

End Directory.

(** *** What a fold of results does to the statistics *)

Lemma result_sum_app (f : result -> Z) (l k : list result) :
  result_sum f (l ++ k) = result_sum f l + result_sum f k.
Proof.
  unfold result_sum. induction l as [|r l IH]; cbn [app foldr]; lia.
Qed.

Lemma result_sum_one (l : list result) : result_sum (fun _ => 1) l = len l.
Proof.
  unfold result_sum, len. induction l as [|r l IH]; cbn [foldr length]; lia.
Qed.

Lemma result_sum_in_category (c : category) (l : list result) :
  result_sum (in_category c) l
  = len (List.filter (fun r => same_category c (r_category r)) l).
Proof.
  unfold result_sum, len, in_category.
  induction l as [|r l IH]; cbn [foldr List.filter length]; [reflexivity|].
  destruct (same_category c (r_category r)); cbn [length]; lia.
Qed.

Lemma module_sum_insert (f : module_stat -> Z) (k : string)
    (v : module_stat) (m : gmap string module_stat) :
  module_sum f (<[k := v]> m)
  = module_sum f m + f v
    - match m !! k with Some old => f old | None => 0 end.
Proof.
  unfold module_sum.
  assert (Hc : forall (m' : gmap string module_stat) (j1 j2 : string)
                 (z1 z2 : module_stat) (y : Z),
             j1 <> j2 -> m' !! j1 = Some z1 -> m' !! j2 = Some z2 ->
             f z1 + (f z2 + y) = f z2 + (f z1 + y)) by (intros; lia).
  destruct (m !! k) as [old|] eqn:Hk.
  - rewrite <- (insert_delete_eq m k v).
    rewrite (map_fold_insert_L _ _ k v (delete k m) (Hc _)
               (lookup_delete_eq m k)).
    rewrite (map_fold_delete_L _ _ k old m (Hc _) Hk). lia.
  - rewrite (map_fold_insert_L _ _ k v m (Hc _) Hk). lia.
Qed.

Section Fields.
Variable f : module_stat -> Z.
Variable g : result -> Z.
Hypothesis f_new : f new_module_stat = 0.
Hypothesis f_fold : forall r ms, f (fold_module r ms) = f ms + g r.

Lemma module_sum_fold_result (p : Path) (r : result) (st : stats) :
  module_sum f (module_stats (fold_result p r st))
  = module_sum f (module_stats st) + g r.
Proof.
  unfold fold_result. cbn [module_stats].
  rewrite module_sum_insert, f_fold.
  destruct (module_stats st !! module_of p) as [ms|];
    cbn [default from_option id].
  - lia.
  - rewrite f_new. lia.
Qed.

Lemma module_sum_run (rs : list result) (st : stats) :
  module_sum f (module_stats (run_results rs st))
  = module_sum f (module_stats st) + result_sum g rs.
Proof.
  unfold run_results. revert st.
  induction rs as [|r rs IH]; intros st; cbn [foldl].
  - unfold result_sum. cbn. lia.
  - rewrite IH, module_sum_fold_result. unfold result_sum. cbn [foldr]. lia.
Qed.

Lemma module_stat_of_fold_result (k : string) (p : Path) (r : result)
    (st : stats) :
  module_stat_of k (fold_result p r st)
  = if String.eqb (module_of p) k
    then fold_module r (module_stat_of k st)
    else module_stat_of k st.
Proof.
  unfold module_stat_of, fold_result. cbn [module_stats].
  destruct (String.eqb_spec (module_of p) k) as [->|Hne].
  - now rewrite lookup_insert_eq.
  - now rewrite lookup_insert_ne.
Qed.

Lemma module_field_run (k : string) (rs : list result) (st : stats) :
  f (module_stat_of k (run_results rs st))
  = f (module_stat_of k st) + result_sum g (of_module k rs).
Proof.
  unfold run_results, of_module. revert st.
  induction rs as [|r rs IH]; intros st; cbn [foldl List.filter].
  - unfold result_sum. cbn. lia.
  - rewrite IH, module_stat_of_fold_result.
    destruct (String.eqb (module_of (r_file r)) k).
    + rewrite f_fold. unfold result_sum. cbn [foldr]. lia.
    + reflexivity.
Qed.

End Fields.

Lemma module_key_run (k : string) (rs : list result) (st : stats) :
  module_stats (run_results rs st) !! k = None <->
  module_stats st !! k = None /\ of_module k rs = [].
Proof.
  unfold run_results, of_module. revert st.
  induction rs as [|r rs IH]; intros st; cbn [foldl List.filter].
  - tauto.
  - rewrite IH. unfold fold_result at 1. cbn [module_stats].
    destruct (String.eqb_spec (module_of (r_file r)) k) as [->|Hne].
    + rewrite lookup_insert_eq. split; [intros [? _]; discriminate|].
      intros [_ ?]; discriminate.
    + now rewrite lookup_insert_ne.
Qed.

Lemma balanced_run (k : string) (rs : list result) (st : stats) :
  balanced (module_stat_of k st) ->
  balanced (module_stat_of k (run_results rs st)).
Proof.
  unfold run_results. revert st.
  induction rs as [|r rs IH]; intros st H; cbn [foldl]; [exact H|].
  apply IH. rewrite module_stat_of_fold_result.
  destruct (String.eqb (module_of (r_file r)) k); [|exact H].
  unfold balanced, fold_module in *. cbn.
  destruct (r_category r); lia.
Qed.

Lemma lists_run (rs : list result) (st : stats) :
  files_by_category (run_results rs st)
  = ByCategory
      (well (files_by_category st)
       ++ List.filter (fun r => same_category well_documented (r_category r))
            rs)
      (partial (files_by_category st)
       ++ List.filter
            (fun r => same_category partially_documented (r_category r)) rs)
      (poor (files_by_category st)
       ++ List.filter
            (fun r => same_category poorly_documented (r_category r)) rs).
Proof.
  unfold run_results. revert st.
  induction rs as [|r rs IH]; intros st; cbn [foldl List.filter].
  - rewrite !app_nil_r. now destruct (files_by_category st).
  - rewrite IH. unfold fold_result at 1 2 3. cbn [files_by_category].
    unfold append_to.
    destruct (r_category r); cbn [same_category well partial poor];
      now rewrite <- ?app_assoc.
Qed.

Lemma totals_run (rs : list result) (st : stats) :
  total_files (run_results rs st) = total_files st + len rs
  /\ total_classes (run_results rs st)
     = total_classes st + result_sum r_classes rs
  /\ total_functions (run_results rs st)
     = total_functions st + result_sum r_functions rs
  /\ documented_classes (run_results rs st)
     = documented_classes st + result_sum r_documented_classes rs
  /\ documented_functions (run_results rs st)
     = documented_functions st + result_sum r_documented_functions rs.
Proof.
  unfold run_results, result_sum, len. revert st.
  induction rs as [|r rs IH]; intros st; cbn [foldl foldr length].
  - repeat split; lia.
  - destruct (IH (fold_result (r_file r) r st)) as (H1 & H2 & H3 & H4 & H5).
    rewrite H1, H2, H3, H4, H5. unfold fold_result. cbn.
    repeat split; lia.
Qed.

Lemma elem_of_filter_bool {A : Type} (f : A -> bool) (l : list A) (x : A) :
  x ∈ List.filter f l <-> f x = true /\ x ∈ l.
Proof. rewrite !list_elem_of_In, filter_In. tauto. Qed.

Lemma analyses_sound (read_text : Path -> option text) (paths : list Path)
    (r : result) :
  r ∈ analyses read_text paths <->
  exists p content,
    p ∈ paths /\ analyzable read_text p = true
    /\ read_text p = Some content /\ analyze_content p content = Ok r.
Proof.
  rewrite analyses_spec. split.
  - intros (p & Hp & Hr).
    destruct (analysis_of_cases read_text p)
      as [(Ha & content & r' & Hc & E & _ & _ & _ & _ & _ & _ & Hr')|
          (_ & Hn)]; [|congruence].
    exists p, content. rewrite Hr in Hr'. injection Hr' as ->.
    repeat split; assumption.
  - intros (p & content & Hp & Ha & Hc & E). exists p. split; [exact Hp|].
    unfold analysis_of. now rewrite Ha, Hc, E.
Qed.

Lemma categorize_bands (q : Z) :
  match categorize q with
  | well_documented => 60 <= q
  | partially_documented => 25 <= q < 60
  | poorly_documented => q < 25
  end.
Proof.
  unfold categorize, ge.
  destruct (60 <=? q) eqn:H60; [lia|]. destruct (25 <=? q) eqn:H25; lia.
Qed.

Lemma results_in_band (read_text : Path -> option text) (c : category)
    (paths : list Path) :
  Forall (fun r =>
            r_category r = c
            /\ match c with
               | well_documented => 60 <= r_quality_score r
               | partially_documented => 25 <= r_quality_score r < 60
               | poorly_documented => r_quality_score r < 25
               end)
         (results_in read_text c paths).
Proof.
  apply Forall_forall. intros r Hr. unfold results_in in Hr.
  apply elem_of_filter_bool in Hr as [Hc Hr].
  apply analyses_spec in Hr as (p & _ & Hr).
  destruct (analysis_of_cases read_text p)
    as [(_ & content & r' & _ & _ & _ & Hcat & _ & _ & _ & _ & Hr')|
        (_ & Hn)]; [|congruence].
  rewrite Hr in Hr'. injection Hr' as <-.
  assert (E : r_category r = c) by (now destruct c, (r_category r)).
  split; [exact E|]. rewrite <- E, Hcat. apply categorize_bands.
Qed.

Lemma result_sum_le (f g : result -> Z) (l : list result) :
  Forall (fun r => f r <= g r) l -> result_sum f l <= result_sum g l.
Proof.
  unfold result_sum. induction 1; cbn [foldr]; lia.
Qed.

(** X9.  The site of a class or of a callable counts as documented exactly
    when an opener, [/**] or [///], stands on its line or on one of the
    eleven lines above it; the documented counts are the numbers of such
    sites among the matches of the two patterns, the stoplisted ones
    included. *)
Theorem documented_sites_have_an_opener_above (content : text) :
  (forall m : Re.rmatch,
     documented_site content m = true <->
     exists (i : nat) (line : text),
       Str.split_nl content !! i = Some line /\ opener line = true
       /\ Z.of_nat i <= line_num content m <= Z.of_nat i + 11)
  /\ documented_classes_in content
     = len (List.filter (documented_site content)
              (Re.finditer DocPatterns.class_pattern content))
  /\ documented_functions_in content
     = len (List.filter (documented_site content)
              (Re.finditer DocPatterns.function_pattern content)).
Proof.
  split; [|split].
  - intros m. apply covered_window, line_num_bound.
  - apply count_documented_filter.
  - apply count_documented_filter.
Qed.

(** X10.  A file in which neither [/**] nor [///] occurs earns nothing: no
    documented class or callable, no documentation block or line, score
    0 and the category poorly_documented, whatever its size and its
    other comments. *)
Theorem no_opener_no_credit (filepath : Path) (content : text)
    (Hblock : Str.contains (txt "/**") content = false)
    (Hline : Str.contains (txt "///") content = false) :
  exists doc_ratio,
    analyze_content filepath content
    = Ok (Result filepath (len (classes content)) (len (functions content))
            0 0 0 0 0 0 0 doc_ratio 0 poorly_documented (len content))
    /\ ratio_bonus doc_ratio = 0.
Proof.
  assert (Hb : doc_blocks content = []).
  { unfold doc_blocks, Re.findall.
    now rewrite (ReFacts.finditer_needs _ _ _ doc_block_needs Hblock). }
  assert (Hl : doc_lines content = []).
  { unfold doc_lines, Re.findall.
    now rewrite (ReFacts.finditer_needs _ _ _ doc_line_needs Hline). }
  assert (Hd : all_docs content = [])
    by (unfold all_docs; now rewrite Hb, Hl).
  assert (Hc : documented_classes_in content = 0)
    by now apply count_documented_none.
  assert (Hf : documented_functions_in content = 0)
    by now apply count_documented_none.
  destruct (zero_ratio_no_bonus (total_items content)) as (d & Ed & Hr).
  exists d. split; [|exact Hr].
  unfold analyze_content, documented_items, brief_count, param_count,
    return_count.
  rewrite Hc, Hf, Hb, Hl, Hd. change (0 + 0) with 0. rewrite Ed.
  cbn [bind].
  unfold quality_score_of. rewrite Hr.
  change (len (Re.findall false DocPatterns.param_pattern [])) with 0.
  change (len (Re.findall false DocPatterns.return_pattern [])) with 0.
  change (len (Re.findall false DocPatterns.brief_pattern [])) with 0.
  change (len (@nil ascii)) with 0. cbn [Z.gtb Z.compare Z.add].
  rewrite size_bonus_none. reflexivity.
Qed.

Lemma no_opener_no_credit_witness :
  Str.contains (txt "/**") Samples.plain_file = false
  /\ Str.contains (txt "///") Samples.plain_file = false
  /\ exists doc_ratio,
       analyze_content Samples.sample_path Samples.plain_file
       = Ok (Result Samples.sample_path 0 0 0 0 0 0 0 0 0 doc_ratio 0
               poorly_documented 7).
Proof.
  assert (H1 : Str.contains (txt "/**") Samples.plain_file = false)
    by (vm_compute; reflexivity).
  assert (H2 : Str.contains (txt "///") Samples.plain_file = false)
    by (vm_compute; reflexivity).
  split; [exact H1|]. split; [exact H2|].
  destruct (no_opener_no_credit Samples.sample_path Samples.plain_file H1 H2)
    as (d & E & _).
  exists d. exact E.
Defined.

(** X11.  A run of [analyze_directory] leaves in each category list the
    analyses of the walked files that are analyzed and fall in the
    category, in the order of the walk; every such result is the
    analysis of the content of its own file, and its score lies in the
    band of its list. *)
Theorem category_lists_are_the_analyses
    (read_text : Path -> option text) (rglob : string -> list Path) :
  exists st',
    analyze_directory read_text rglob init = Ok st'
    /\ files_by_category st'
       = ByCategory
           (results_in read_text well_documented (walk rglob))
           (results_in read_text partially_documented (walk rglob))
           (results_in read_text poorly_documented (walk rglob))
    /\ (forall r,
          r ∈ categorized st' <->
          exists p content,
            p ∈ walk rglob /\ analyzable read_text p = true
            /\ read_text p = Some content
            /\ analyze_content p content = Ok r)
    /\ Forall (fun r => 60 <= r_quality_score r)
         (well (files_by_category st'))
    /\ Forall (fun r => 25 <= r_quality_score r < 60)
         (partial (files_by_category st'))
    /\ Forall (fun r => r_quality_score r < 25)
         (poor (files_by_category st')).
Proof.
  eexists. split; [apply visit_all_analyses|].
  assert (E : files_by_category
                (run_results (analyses read_text (walk rglob)) init)
              = ByCategory
                  (results_in read_text well_documented (walk rglob))
                  (results_in read_text partially_documented (walk rglob))
                  (results_in read_text poorly_documented (walk rglob)))
    by (rewrite lists_run; reflexivity).
  split; [exact E|]. unfold categorized. rewrite E. cbn [well partial poor].
  split; [|split; [|split]].
  - intros r. rewrite <- analyses_sound. unfold results_in.
    rewrite !elem_of_app, !elem_of_filter_bool.
    destruct (r_category r); cbn [same_category]; tauto.
  - eapply Forall_impl; [apply results_in_band|]. cbn. tauto.
  - eapply Forall_impl; [apply results_in_band|]. cbn. tauto.
  - eapply Forall_impl; [apply results_in_band|]. cbn. tauto.
Qed.

(** X12.  After a run the totals are the sums of the per-file counts over the
    analyzed files; no counter is negative, and the documented classes
    never outnumber the classes. *)
Theorem totals_are_sums_over_the_analyses
    (read_text : Path -> option text) (rglob : string -> list Path) :
  exists st',
    analyze_directory read_text rglob init = Ok st'
    /\ total_files st' = len (analyses read_text (walk rglob))
    /\ total_classes st'
       = result_sum r_classes (analyses read_text (walk rglob))
    /\ total_functions st'
       = result_sum r_functions (analyses read_text (walk rglob))
    /\ documented_classes st'
       = result_sum r_documented_classes (analyses read_text (walk rglob))
    /\ documented_functions st'
       = result_sum r_documented_functions
           (analyses read_text (walk rglob))
    /\ 0 <= documented_classes st' <= total_classes st'
    /\ 0 <= documented_functions st' /\ 0 <= total_functions st'.
Proof.
  eexists. split; [apply visit_all_analyses|].
  destruct (totals_run (analyses read_text (walk rglob)) init)
    as (H1 & H2 & H3 & H4 & H5).
  cbn [init total_files total_classes total_functions documented_classes
       documented_functions] in H1, H2, H3, H4, H5.
  rewrite H1, H2, H3, H4, H5, !Z.add_0_l.
  repeat (split; [reflexivity|]).
  assert (Hall : Forall (fun r =>
                   0 <= r_documented_classes r <= r_classes r
                   /\ 0 <= r_documented_functions r /\ 0 <= r_functions r)
                 (analyses read_text (walk rglob))).
  { apply Forall_forall. intros r Hr.
    apply analyses_spec in Hr as (p & _ & Hr).
    destruct (analysis_of_cases read_text p)
      as [(_ & content & r' & _ & _ & _ & _ & Hc & Hdc & Hf & Hdf & Hr')|
          (_ & Hn)]; [|congruence].
    rewrite Hr in Hr'. injection Hr' as ->. rewrite Hc, Hdc, Hf, Hdf.
    pose proof (DocFacts.documented_classes_le_classes content).
    unfold documented_classes_in, documented_functions_in.
    pose proof (DocFacts.count_documented_le
                  (doc_positions (Str.split_nl content)) content
                  (Re.finditer DocPatterns.class_pattern content)).
    pose proof (DocFacts.count_documented_le
                  (doc_positions (Str.split_nl content)) content
                  (Re.finditer DocPatterns.function_pattern content)).
    unfold documented_classes_in in *. unfold len in *. lia. }
  assert (B1 : result_sum (fun _ => 0) (analyses read_text (walk rglob))
               <= result_sum r_documented_classes
                    (analyses read_text (walk rglob)))
    by (apply result_sum_le; eapply Forall_impl; [exact Hall|];
        cbn; intros; lia).
  assert (B2 : result_sum r_documented_classes
                 (analyses read_text (walk rglob))
               <= result_sum r_classes (analyses read_text (walk rglob)))
    by (apply result_sum_le; eapply Forall_impl; [exact Hall|];
        cbn; intros; lia).
  assert (B3 : result_sum (fun _ => 0) (analyses read_text (walk rglob))
               <= result_sum r_documented_functions
                    (analyses read_text (walk rglob)))
    by (apply result_sum_le; eapply Forall_impl; [exact Hall|];
        cbn; intros; lia).
  assert (B4 : result_sum (fun _ => 0) (analyses read_text (walk rglob))
               <= result_sum r_functions (analyses read_text (walk rglob)))
    by (apply result_sum_le; eapply Forall_impl; [exact Hall|];
        cbn; intros; lia).
  assert (Z0 : forall l, result_sum (fun _ => 0) l = 0)
    by (intros l; unfold result_sum; induction l; cbn [foldr]; lia).
  rewrite Z0 in B1, B3, B4. lia.
Qed.

(** X13.  After a run the statistics of the modules partition the files: the
    module fields add up to the totals and to the lengths of the
    category lists; the files of a module are the analyzed walked paths
    that [module_of] sends to it, its three category counters add up to
    its files, and a module has an entry exactly when it has a file. *)
Theorem module_stats_partition_the_run
    (read_text : Path -> option text) (rglob : string -> list Path) :
  exists st',
    analyze_directory read_text rglob init = Ok st'
    /\ (module_sum ms_files (module_stats st') = total_files st'
        /\ module_sum ms_classes (module_stats st') = total_classes st'
        /\ module_sum ms_functions (module_stats st') = total_functions st'
        /\ module_sum ms_doc_classes (module_stats st')
           = documented_classes st'
        /\ module_sum ms_doc_functions (module_stats st')
           = documented_functions st')
    /\ (module_sum ms_well_doc (module_stats st')
        = len (well (files_by_category st'))
        /\ module_sum ms_partial_doc (module_stats st')
           = len (partial (files_by_category st'))
        /\ module_sum ms_poor_doc (module_stats st')
           = len (poor (files_by_category st')))
    /\ forall k : string,
         ms_files (module_stat_of k st')
         = len (module_paths read_text k (walk rglob))
         /\ balanced (module_stat_of k st')
         /\ (module_stats st' !! k = None <->
             module_paths read_text k (walk rglob) = []).
Proof.
  eexists. split; [apply visit_all_analyses|].
  set (rs := analyses read_text (walk rglob)).
  destruct (totals_run rs init) as (H1 & H2 & H3 & H4 & H5).
  cbn [init total_files total_classes total_functions documented_classes
       documented_functions] in H1, H2, H3, H4, H5.
  assert (S0 : forall f, module_sum f (module_stats init) = 0)
    by (intros f; apply map_fold_empty).
  split; [|split].
  - rewrite H1, H2, H3, H4, H5.
    rewrite (module_sum_run ms_files (fun _ => 1)),
            (module_sum_run ms_classes r_classes),
            (module_sum_run ms_functions r_functions),
            (module_sum_run ms_doc_classes r_documented_classes),
            (module_sum_run ms_doc_functions r_documented_functions);
      try reflexivity.
    rewrite !S0, result_sum_one. repeat split; reflexivity.
  - rewrite (lists_run rs init). cbn [init files_by_category well partial poor
                                      app].
    rewrite (module_sum_run ms_well_doc (in_category well_documented)),
            (module_sum_run ms_partial_doc
               (in_category partially_documented)),
            (module_sum_run ms_poor_doc (in_category poorly_documented));
      try reflexivity;
      try (intros r ms; unfold fold_module, in_category; cbn;
           destruct (r_category r); cbn; lia).
    rewrite !S0, !result_sum_in_category. repeat split; reflexivity.
  - intros k.
    assert (K0 : module_stat_of k init = new_module_stat)
      by (unfold module_stat_of; cbn [init module_stats];
          now rewrite lookup_empty).
    split; [|split].
    + rewrite (module_field_run ms_files (fun _ => 1)) by reflexivity.
      rewrite result_sum_one, K0. unfold len.
      rewrite <- (analyses_of_module read_text k (walk rglob)), length_map.
      reflexivity.
    + apply balanced_run. rewrite K0. reflexivity.
    + rewrite module_key_run.
      rewrite <- (analyses_of_module read_text k (walk rglob)).
      fold rs. cbn [init module_stats]. rewrite lookup_empty. split.
      * intros [_ ->]. reflexivity.
      * intros H. split; [reflexivity|].
        now destruct (of_module k rs).
Qed.

(** X14.  The two passes compose: handed the statistics of the first pass,
    [analyze_from_json] runs over the walked files that the first pass
    analyzed and scored below 25, in the order of the walk. *)
Theorem second_pass_runs_over_the_poor_files
    (read_text : Path -> option text) (rglob : string -> list Path)
    (root_dir : Path) (read_again : Path -> option text)
    (exists_ : Path -> bool) :
  exists data,
    analyze_directory read_text rglob init = Ok data
    /\ (forall st,
          CodeQualityAnalyzer.analyze_from_json root_dir read_again exists_
            data st
          = CodeQualityAnalyzer.analyze_files root_dir read_again exists_
              (List.filter (poorly read_text) (walk rglob)) st)
    /\ (forall p,
          poorly read_text p = true <->
          exists content r,
            analyzable read_text p = true /\ read_text p = Some content
            /\ analyze_content p content = Ok r
            /\ r_quality_score r < 25).
Proof.
  eexists. split; [apply visit_all_analyses|]. split.
  - intros st. unfold CodeQualityAnalyzer.analyze_from_json.
    rewrite lists_run. cbn [init files_by_category poor app].
    now rewrite <- analyses_poorly.
  - intros p. unfold poorly.
    destruct (analysis_of_cases read_text p)
      as [(Ha & content & r & Hc & E & _ & Hcat & _ & _ & _ & _ & ->)|
          (Ha & ->)].
    + pose proof (categorize_bands (r_quality_score r)) as Hb.
      rewrite Hcat. split.
      * intros H. exists content, r. repeat split; try assumption.
        destruct (categorize (r_quality_score r)); (discriminate || lia).
      * intros (content' & r' & _ & Hc' & E' & Hq).
        rewrite Hc in Hc'. injection Hc' as <-.
        rewrite E in E'. injection E' as <-.
        destruct (categorize (r_quality_score r)); (reflexivity || lia).
    + split; [discriminate|]. intros (? & ? & H & _). congruence.
Qed.

End DocRunFacts.

(** * The years behind the age indicators *)

Module AgeFacts.
Import Py CodeQualityAnalyzer QualitySpec QualityEffect.

(** A match of the year pattern is [19] or [20] followed by two
    digits. *)
Lemma year_text (pre post : text) (m : Re.rmatch) :
  ReSpec.match_of QualityPatterns.year_pattern pre m post ->
  exists x y : ascii,
    Chars.digit x = true /\ Chars.digit y = true
    /\ (Re.m_text m = txt "19" ++ [x; y] \/ Re.m_text m = txt "20" ++ [x; y]).
Proof.
  intros (_ & _ & c' & Hl & Ha & _).
  unfold QualityPatterns.year_pattern, QualityPatterns.d in Hl.
  cbn [ReSpec.lang Re.Exactly] in Hl.
  destruct Hl as (c1 & Hc & c2 & Hx & c3 & Hy & ->).
  apply ReFacts.step_advance in Hx as (x & Hx & Ax & _).
  apply ReFacts.step_advance in Hy as (y & Hy & Ay & _).
  exists x, y. split; [exact Hx|]. split; [exact Hy|].
  destruct Hc as [Hc|Hc]; apply ReFacts.lang_lit in Hc as [Hc _].
  - left. apply (ReFacts.advance_unique _ _ _ _ Ha).
    apply (ReFacts.advance_trans (txt "19") [x; y] _ c1 c3); [exact Hc|].
    apply (ReFacts.advance_trans [x] [y] c1 c2 c3); assumption.
  - right. apply (ReFacts.advance_unique _ _ _ _ Ha).
    apply (ReFacts.advance_trans (txt "20") [x; y] _ c1 c3); [exact Hc|].
    apply (ReFacts.advance_trans [x] [y] c1 c2 c3); assumption.
Qed.

Lemma year_value (x y : ascii) :
  Chars.digit x = true -> Chars.digit y = true ->
  1900 <= int_of (txt "19" ++ [x; y]) <= 1999
  /\ 2000 <= int_of (txt "20" ++ [x; y]) <= 2099.
Proof.
  unfold Chars.digit, Chars.between, int_of. cbn [txt list_ascii_of_string app foldl].
  change (Chars.code "1") with 49%N. change (Chars.code "9") with 57%N.
  change (Chars.code "2") with 50%N. change (Chars.code "0") with 48%N.
  generalize (Chars.code x) (Chars.code y). intros a b Ha Hb. lia.
Qed.

Lemma found_years_in_range (content : text) (z : Z) :
  z ∈ map int_of (Re.findall false QualityPatterns.year_pattern content) ->
  1900 <= z <= 2099.
Proof.
  unfold Re.findall. rewrite map_map.
  intros (m & -> & Hm)%list_elem_of_fmap.
  apply ReFacts.finditer_sound in Hm as (pre & post & _ & Hm).
  apply year_text in Hm as (x & y & Hx & Hy & [-> | ->]);
    pose proof (year_value x y Hx Hy); lia.
Qed.

Lemma min_of_spec (a : Z) (l : list Z) :
  min_of a l ∈ a :: l /\ forall z, z ∈ a :: l -> min_of a l <= z.
Proof.
  unfold min_of. revert a. induction l as [|b l IH]; intros a; cbn [foldl].
  - split; [apply list_elem_of_here|].
    intros z ->%list_elem_of_singleton. lia.
  - destruct (IH (Z.min a b)) as [Hin Hle]. split.
    + apply elem_of_cons in Hin as [Hin|Hin].
      * rewrite Hin. destruct (Z.min_spec a b) as [[_ ->]|[_ ->]].
        -- apply list_elem_of_here.
        -- apply list_elem_of_further, list_elem_of_here.
      * now apply list_elem_of_further, list_elem_of_further.
    + intros z Hz.
      assert (H0 : foldl Z.min (Z.min a b) l <= Z.min a b)
        by (apply Hle, list_elem_of_here).
      apply elem_of_cons in Hz as [->|Hz]; [lia|].
      apply elem_of_cons in Hz as [->|Hz]; [lia|].
      apply Hle. now apply list_elem_of_further.
Qed.

(** X7.  The year an age indicator is computed from is the least of the
    years found in the file, and every year found is a four-digit number
    from 1900 to 2099: the pattern knows no other. *)
Theorem oldest_year_is_the_least_year (content : text) (y : Z)
    (H : oldest_year content = Some y) :
  1900 <= y <= 2099
  /\ y ∈ map int_of (Re.findall false QualityPatterns.year_pattern content)
  /\ (forall z,
        z ∈ map int_of
              (Re.findall false QualityPatterns.year_pattern content) ->
        y <= z <= 2099)
  /\ (age_of y = Modern <-> 2021 <= y)
  /\ (age_of y = VeryOld <-> y < 2010).
Proof.
  unfold oldest_year in H.
  destruct (Re.findall false QualityPatterns.year_pattern content)
    as [|y0 years] eqn:E; [discriminate|].
  injection H as <-. cbn [map].
  destruct (min_of_spec (int_of y0) (map int_of years)) as [Hin Hle].
  assert (Hr : forall z, z ∈ int_of y0 :: map int_of years ->
                 1900 <= z <= 2099).
  { intros z Hz. apply (found_years_in_range content). now rewrite E. }
  split; [now apply Hr|]. split; [exact Hin|]. split.
  - intros z Hz. specialize (Hle z Hz). specialize (Hr z Hz). lia.
  - unfold age_of.
    destruct (_ <? 2010) eqn:H1; [|destruct (_ <? 2016) eqn:H2;
                                    [|destruct (_ <? 2021) eqn:H3]];
      repeat split; intros; try discriminate; try reflexivity; lia.
Qed.

Lemma oldest_year_is_the_least_year_witness :
  oldest_year Samples.smelly_file = Some 1999
  /\ 1900 <= 1999 <= 2099 /\ age_of 1999 = VeryOld.
Proof.
  assert (H : oldest_year Samples.smelly_file = Some 1999)
    by (vm_compute; reflexivity).
  split; [exact H|].
  destruct (oldest_year_is_the_least_year Samples.smelly_file 1999 H)
    as (Hr & _ & _ & _ & Ho).
  split; [exact Hr|]. apply Ho. lia.
Defined.

End AgeFacts.

(** * The nesting depth in closed form *)

Module NestingFacts.
Import Py CodeQualityAnalyzer NestingSpec.

Lemma depth_after_cons (k : nat) (c : ascii) (s : text) :
  depth_after (S k) (c :: s) = brace_delta c + depth_after k s.
Proof.
  unfold depth_after, Str.count, brace_delta. cbn [firstn List.filter].
  destruct (Chars.same "{" c) eqn:Ho.
  - apply StrFacts.same_eq in Ho as ->.
    change (Chars.same "}" "{") with false. cbn [length]. lia.
  - destruct (Chars.same "}" c); cbn [length]; lia.
Qed.

Lemma depth_after_0 (s : text) : depth_after 0 s = 0.
Proof. reflexivity. Qed.

Lemma nest_step_delta (cur mx : Z) (c : ascii) :
  nest_step (cur, mx) c
  = (cur + brace_delta c,
     if Chars.same "{" c then Z.max mx (cur + 1) else mx).
Proof.
  unfold nest_step, brace_delta.
  destruct (Chars.same "{" c); [reflexivity|].
  destruct (Chars.same "}" c); f_equal; lia.
Qed.

Lemma nesting_loop (s : text) (cur mx : Z) :
  cur <= mx ->
  snd (foldl nest_step (cur, mx) s) >= mx
  /\ (forall k, cur + depth_after k s <= snd (foldl nest_step (cur, mx) s))
  /\ (snd (foldl nest_step (cur, mx) s) = mx
      \/ exists k, (k <= length s)%nat
           /\ snd (foldl nest_step (cur, mx) s) = cur + depth_after k s)
  /\ snd (foldl nest_step (cur, mx) s) <= Z.max mx (cur + Str.count "{" s).
Proof.
  revert cur mx. induction s as [|c s IH]; intros cur mx Hle; cbn [foldl].
  - cbn [snd]. split; [lia|]. split.
    + intros k. unfold depth_after, Str.count. rewrite firstn_nil.
      cbn [List.filter length]. lia.
    + split; [now left|]. unfold Str.count. cbn [List.filter length]. lia.
  - rewrite nest_step_delta.
    remember (cur + brace_delta c) as cur' eqn:Ec.
    remember (if Chars.same "{" c then Z.max mx (cur + 1) else mx) as mx'
      eqn:Em.
    assert (Hd : cur' <= mx' /\ mx <= mx'
                 /\ (mx' = mx \/ mx' = cur')
                 /\ Str.count "{" (c :: s)
                    = (if Chars.same "{" c then 1 else 0) + Str.count "{" s
                 /\ (mx' = mx \/ brace_delta c = 1)).
    { subst cur' mx'. unfold brace_delta, Str.count. cbn [List.filter].
      destruct (Chars.same "{" c); [cbn [length]; lia|].
      destruct (Chars.same "}" c); lia. }
    destruct Hd as (H1 & H2 & H3 & H4 & H5).
    destruct (IH cur' mx' H1) as (I1 & I2 & I3 & I4).
    split; [lia|]. split; [|split].
    + intros [|k].
      * rewrite depth_after_0. lia.
      * rewrite depth_after_cons. specialize (I2 k). lia.
    + destruct I3 as [I3|(k & Hk & I3)].
      * destruct H3 as [H3|H3]; [left; congruence|].
        right. exists 1%nat. split; [cbn; lia|].
        rewrite depth_after_cons, depth_after_0, I3, H3. lia.
      * right. exists (S k). split; [cbn; lia|].
        rewrite depth_after_cons, I3. lia.
    + rewrite H4.
      assert (H0 : 0 <= Str.count "{" s) by (unfold Str.count; lia).
      revert Ec Em I4. unfold brace_delta.
      destruct (Chars.same "{" c); [intros; lia|].
      destruct (Chars.same "}" c); intros; lia.
Qed.

(** X8.  The depth found by the brace loop is the greatest excess of opening
    over closing braces over the prefixes of the file; a file is flagged
    for deep nesting exactly when some prefix has seven more [{] than
    [}], wherever the braces stand. *)
Theorem max_nesting_is_the_deepest_prefix (content : text) :
  (forall k, depth_after k content <= max_nesting content)
  /\ (exists k, (k <= length content)%nat
        /\ max_nesting content = depth_after k content)
  /\ 0 <= max_nesting content <= Str.count "{" content
  /\ ((max_nesting content >? 6) = true <->
      exists k, 7 <= depth_after k content).
Proof.
  unfold max_nesting.
  destruct (nesting_loop content 0 0 (Z.le_refl 0)) as (H1 & H2 & H3 & H4).
  assert (Hc : 0 <= Str.count "{" content) by (unfold Str.count; lia).
  assert (Hk : exists k, (k <= length content)%nat
                 /\ snd (foldl nest_step (0, 0) content)
                    = depth_after k content).
  { destruct H3 as [H3|(k & Hk & H3)].
    - exists O. split; [lia|]. now rewrite depth_after_0.
    - exists k. split; [exact Hk|]. rewrite H3. lia. }
  split; [intros k; specialize (H2 k); lia|].
  split; [exact Hk|]. split; [lia|]. split.
  - intros H. destruct Hk as (k & _ & Hk). exists k. lia.
  - intros (k & Hk'). specialize (H2 k). lia.
Qed.

End NestingFacts.

(** * The reports: divisions and rankings *)

Module ReportFacts.
Import Py DocAnalyzer DocReport ShowExamples.

Lemma percent_ok (n d : Z) :
  percent n d
  = Ok (Float (SFdiv prec emax (of_int (100 * n)) (of_int (Z.max d 1)))).
Proof.
  unfold percent, max2, gt.
  destruct (d <? 1) eqn:Hd.
  - rewrite DocFacts.truediv_ok by reflexivity. cbn [to_float].
    now replace (Z.max d 1) with 1 by lia.
  - rewrite DocFacts.truediv_ok by (cbn; lia). cbn [to_float].
    now replace (Z.max d 1) with d by lia.
Qed.

Lemma module_rows_ok (l : list module_stat) :
  exists rows, module_rows l = Ok rows.
Proof.
  induction l as [|ms l [rows IH]]; cbn [module_rows]; [now eexists|].
  unfold module_row. destruct (ms_files ms =? 0).
  - cbn [bind]. rewrite IH. cbn [bind]. now eexists.
  - rewrite percent_ok. cbn [bind]. rewrite IH. cbn [bind]. now eexists.
Qed.

Lemma generate_report_formula (st : stats) :
  generate_report st
  = Ok {| well_documented_pct :=
            quotient_pct (len (well (files_by_category st)))
                         (total_files st);
          partially_documented_pct :=
            quotient_pct (len (partial (files_by_category st)))
                         (total_files st);
          poorly_documented_pct :=
            quotient_pct (len (poor (files_by_category st)))
                         (total_files st);
          class_documentation_pct :=
            quotient_pct (documented_classes st) (total_classes st);
          function_documentation_pct :=
            quotient_pct (documented_functions st) (total_functions st) |}.
Proof.
  unfold generate_report. rewrite !percent_ok. cbn [bind].
  destruct (module_rows_ok (map snd (map_to_list (module_stats st))))
    as [rows ->].
  reflexivity.
Qed.

(** X15.  [generate_report] never raises: every divisor is at least 1.  The
    summary holds, for each of the five ratios, the binary64 quotient of
    a hundred times the count by the total, the total taken as 1 when it
    is 0; after a run over no file the five percentages are 0.0. *)
Theorem generate_report_never_raises (st : stats) :
  generate_report st
  = Ok {| well_documented_pct :=
            quotient_pct (len (well (files_by_category st)))
                         (total_files st);
          partially_documented_pct :=
            quotient_pct (len (partial (files_by_category st)))
                         (total_files st);
          poorly_documented_pct :=
            quotient_pct (len (poor (files_by_category st)))
                         (total_files st);
          class_documentation_pct :=
            quotient_pct (documented_classes st) (total_classes st);
          function_documentation_pct :=
            quotient_pct (documented_functions st) (total_functions st) |}
  /\ (forall n d, percent n d <> Raise ZeroDivisionError)
  /\ generate_report init
     = Ok (Summary (Float (S754_zero false)) (Float (S754_zero false))
             (Float (S754_zero false)) (Float (S754_zero false))
             (Float (S754_zero false))).
Proof.
  split; [|split].
  - apply generate_report_formula.
  - intros n d. rewrite percent_ok. discriminate.
  - vm_compute. reflexivity.
Qed.

(** *** The ranking of [show_examples] *)

Lemma insert_desc_perm (r : result) (l : list result) :
  insert_desc r l ≡ₚ r :: l.
Proof.
  induction l as [|x l IH]; cbn [insert_desc]; [reflexivity|].
  destruct (r_quality_score r <? r_quality_score x); [|reflexivity].
  rewrite IH. apply Permutation_swap.
Qed.

Lemma sort_desc_perm (l : list result) : sort_desc l ≡ₚ l.
Proof.
  unfold sort_desc. induction l as [|r l IH]; cbn [foldr]; [reflexivity|].
  now rewrite insert_desc_perm, IH.
Qed.

Lemma insert_desc_sorted (r : result) (l : list result) :
  descending l -> descending (insert_desc r l).
Proof.
  induction l as [|x l IH]; cbn [insert_desc descending].
  - intros _. now split.
  - intros [Hx Hs].
    destruct (r_quality_score r <? r_quality_score x) eqn:E;
      cbn [descending].
    + split; [|now apply IH].
      apply Forall_forall. intros y Hy.
      rewrite (insert_desc_perm r l) in Hy.
      apply elem_of_cons in Hy as [->|Hy]; [lia|].
      rewrite Forall_forall in Hx. now apply Hx.
    + split; [|now split].
      constructor; [lia|].
      eapply Forall_impl; [exact Hx|]. cbn. intros y Hy. lia.
Qed.

Lemma sort_desc_sorted (l : list result) : descending (sort_desc l).
Proof.
  unfold sort_desc. induction l as [|r l IH]; cbn [foldr]; [exact I|].
  now apply insert_desc_sorted.
Qed.

Lemma descending_lookup (l : list result) (i j : nat) (x y : result) :
  descending l -> (i <= j)%nat -> l !! i = Some x -> l !! j = Some y ->
  r_quality_score y <= r_quality_score x.
Proof.
  revert i j. induction l as [|z l IH]; intros i j Hd Hij Hi Hj.
  - now rewrite lookup_nil in Hi.
  - destruct Hd as [Hz Hd]. destruct i as [|i], j as [|j]; cbn in Hi, Hj.
    + injection Hi as <-. injection Hj as <-. lia.
    + injection Hi as <-. rewrite Forall_forall in Hz. apply Hz.
      eapply list_elem_of_lookup_2. exact Hj.
    + lia.
    + apply (IH i j); [assumption|lia|assumption|assumption].
Qed.

Lemma descending_take (n : nat) (l : list result) :
  descending l -> descending (take n l).
Proof.
  revert n. induction l as [|x l IH]; intros [|n]; cbn [take descending];
    try tauto.
  intros [Hx Hd]. split; [|now apply IH].
  apply Forall_forall. intros y Hy. rewrite Forall_forall in Hx. apply Hx.
  exact (subseteq_take n l y Hy).
Qed.

Lemma insert_desc_stable (q : Z) (r : result) (l : list result) :
  with_score q (insert_desc r l) = with_score q (r :: l).
Proof.
  unfold with_score.
  induction l as [|x l IH]; cbn [insert_desc]; [reflexivity|].
  destruct (r_quality_score r <? r_quality_score x) eqn:E; [|reflexivity].
  cbn [List.filter] in *. rewrite IH.
  destruct (r_quality_score x =? q) eqn:Ex,
           (r_quality_score r =? q) eqn:Er; try reflexivity.
  lia.
Qed.

Lemma sort_desc_stable (q : Z) (l : list result) :
  with_score q (sort_desc l) = with_score q l.
Proof.
  unfold sort_desc. induction l as [|r l IH]; cbn [foldr]; [reflexivity|].
  rewrite insert_desc_stable. unfold with_score in *. cbn [List.filter].
  now rewrite IH.
Qed.

Lemma relative_to_app (p rel : Path) :
  CodeQualityAnalyzer.relative_to p project_root = Ok rel -> p = project_root ++ rel.
Proof.
  generalize project_root. intros rt. revert p.
  induction rt as [|r rt IH]; intros p H.
  - cbn in H. destruct p; now injection H as <-.
  - destruct p as [|x p]; cbn in H; [discriminate|].
    destruct (String.eqb_spec r x) as [->|]; [|discriminate].
    cbn. f_equal. now apply IH.
Qed.

Lemma shown_entries_ok (l : list result) (es : list (Path * result)) :
  shown_entries l = Ok es ->
  map snd es = l /\ Forall (fun e => r_file e.2 = project_root ++ e.1) es.
Proof.
  revert es. induction l as [|f l IH]; intros es; cbn [shown_entries].
  - intros [= <-]. now split.
  - unfold shown_entry.
    destruct (CodeQualityAnalyzer.relative_to (r_file f) project_root)
      as [rel|e] eqn:E; cbn [bind]; [|discriminate].
    destruct (shown_entries l) as [es'|e]; cbn [bind]; [|discriminate].
    intros [= <-]. destruct (IH es' eq_refl) as [H1 H2]. split.
    + cbn. now rewrite H1.
    + constructor; [now apply relative_to_app|exact H2].
Qed.

Lemma shown_entries_under (l : list result) :
  all_under_root l -> exists es, shown_entries l = Ok es.
Proof.
  induction 1 as [|f l [rel Hf] _ [es IH]]; cbn [shown_entries];
    [now eexists|].
  unfold shown_entry. rewrite Hf. cbn [bind]. rewrite IH. cbn [bind].
  now eexists.
Qed.

Lemma all_under_root_sub (l l' : list result) :
  (forall x, x ∈ l' -> x ∈ l) -> all_under_root l -> all_under_root l'.
Proof.
  unfold all_under_root. rewrite !Forall_forall. intros Hs H x Hx.
  apply H, Hs, Hx.
Qed.

Lemma elem_of_take_sort (n : nat) (l : list result) (x : result) :
  x ∈ take n (sort_desc l) -> x ∈ l.
Proof.
  intros H. rewrite <- (sort_desc_perm l).
  exact (subseteq_take n _ x H).
Qed.

Lemma elem_of_take_filter (n : nat) (f : result -> bool) (l : list result)
    (x : result) :
  x ∈ take n (List.filter f l) -> x ∈ l.
Proof.
  intros H. apply (subseteq_take n) in H. apply list_elem_of_In in H.
  apply filter_In in H as [H _]. now apply list_elem_of_In.
Qed.

Lemma shown_entries_raise (l : list result) (e : exn) :
  shown_entries l = Raise e ->
  e = ValueError /\ ~ all_under_root l.
Proof.
  induction l as [|f l IH]; cbn [shown_entries]; [discriminate|].
  unfold shown_entry.
  destruct (CodeQualityAnalyzer.relative_to (r_file f) project_root)
    as [rel|e'] eqn:E; cbn [bind].
  - destruct (shown_entries l) as [es'|e']; cbn [bind]; [discriminate|].
    intros [= ->]. destruct (IH eq_refl) as [-> Hn]. split; [reflexivity|].
    intros H. apply Hn. now inversion H.
  - intros [= ->]. split.
    + clear -E. revert E. generalize (r_file f), project_root. intros p rt.
      revert p. induction rt as [|r rt IH]; intros p; destruct p as [|x p];
        cbn; try discriminate; [now intros [= ->]|].
      destruct (String.eqb r x); [apply IH|now intros [= ->]].
    + intros H. inversion H as [|? ? [rel Hrel] ?]; subst. congruence.
Qed.

Lemma divide_by_files (n total : Z) :
  (total = 0 -> truediv (Int n) (Int total) = Raise ZeroDivisionError)
  /\ (total <> 0 ->
      truediv (Int n) (Int total)
      = Ok (Float (SFdiv prec emax (of_int n) (of_int total)))).
Proof.
  unfold truediv. cbn [is_zero to_float]. split; intros H.
  - subst total. reflexivity.
  - destruct (total =? 0) eqn:E; [lia|reflexivity].
Qed.

(** What a returning [show_examples] has gone through. *)
Lemma show_examples_ok (data : stats) (s : shown) :
  show_examples data = Ok s ->
  total_files data <> 0
  /\ exists tw tp le me,
       shown_entries (take 5 (sort_desc (well (files_by_category data))))
       = Ok tw
       /\ shown_entries
            (take 5 (sort_desc (partial (files_by_category data))))
          = Ok tp
       /\ match List.filter is_large_no_docs (poor (files_by_category data))
          with
          | f :: _ => exists rel,
              CodeQualityAnalyzer.relative_to (r_file f) project_root = Ok rel
              /\ le = Some (rel, f)
          | [] => le = None
          end
       /\ shown_entries
            (take 3 (List.filter is_minimal_docs
                       (poor (files_by_category data)))) = Ok me
       /\ s = {| top_well := tw; top_partial := tp; large_example := le;
                 minimal_examples := me;
                 well_count :=
                   len (take 5 (sort_desc (well (files_by_category data))));
                 well_pct :=
                   Float (SFdiv prec emax
                            (of_int (100 * len (well (files_by_category data))))
                            (of_int (total_files data)));
                 partial_count := len (partial (files_by_category data));
                 partial_pct :=
                   Float (SFdiv prec emax
                            (of_int
                               (100 * len (partial (files_by_category data))))
                            (of_int (total_files data)));
                 poor_count := len (poor (files_by_category data));
                 poor_pct :=
                   Float (SFdiv prec emax
                            (of_int (100 * len (poor (files_by_category data))))
                            (of_int (total_files data))) |}.
Proof.
  unfold show_examples.
  destruct (shown_entries (take 5 (sort_desc (well _)))) as [tw|e];
    cbn [bind]; [|discriminate].
  destruct (shown_entries (take 5 (sort_desc (partial _)))) as [tp|e];
    cbn [bind]; [|discriminate].
  set (large := List.filter is_large_no_docs (poor (files_by_category data))).
  intros H.
  assert (Hle : exists le,
            match large with
            | f :: _ => let! e := shown_entry f in Ok (Some e)
            | [] => Ok None
            end = Ok le
            /\ match large with
               | f :: _ => exists rel,
                   CodeQualityAnalyzer.relative_to (r_file f) project_root = Ok rel
                   /\ le = Some (rel, f)
               | [] => le = None
               end).
  { destruct large as [|f fs].
    - now exists None.
    - unfold shown_entry in *.
      destruct (CodeQualityAnalyzer.relative_to (r_file f) project_root)
        as [rel|e] eqn:E; cbn [bind] in *; [|discriminate].
      exists (Some (rel, f)). split; [reflexivity|]. now exists rel. }
  destruct Hle as (le & Ele & Hle). rewrite Ele in H. cbn [bind] in H.
  destruct (shown_entries (take 3 _)) as [me|e]; cbn [bind] in H;
    [|discriminate].
  destruct (Z.eq_dec (total_files data) 0) as [H0|H0].
  - rewrite (proj1 (divide_by_files _ _) H0) in H. discriminate.
  - rewrite !(proj2 (divide_by_files _ _) H0) in H. cbn [bind] in H.
    injection H as <-. split; [exact H0|].
    exists tw, tp, le, me. repeat split; try reflexivity. exact Hle.
Qed.

(** X16.  [show_examples] divides by the number of files, unguarded: on
    statistics without a file it raises [ZeroDivisionError], where
    [generate_report] returns; with at least one file it returns,
    provided the files are under [/home/user/geant4]; a file shown that
    is not makes it raise [ValueError].  The statistics of a run that
    analyzed no file are of the first kind. *)
Theorem show_examples_needs_a_file :
  (forall data : stats,
     all_under_root (DocSpec.categorized data) ->
     (total_files data = 0 ->
      show_examples data = Raise ZeroDivisionError)
     /\ (total_files data <> 0 -> exists s, show_examples data = Ok s))
  /\ (forall (data : stats) (e : exn),
        show_examples data = Raise e ->
        (e = ZeroDivisionError /\ total_files data = 0)
        \/ (e = ValueError
            /\ ~ all_under_root (DocSpec.categorized data)))
  /\ (forall (read_text : Path -> option text)
             (rglob : string -> list Path),
        List.filter (DocSpec.analyzable read_text) (walk rglob) = [] ->
        analyze_directory read_text rglob init = Ok init
        /\ (exists s, generate_report init = Ok s)
        /\ show_examples init = Raise ZeroDivisionError).
Proof.
  assert (Hsub : forall data,
            all_under_root (DocSpec.categorized data) ->
            all_under_root (take 5 (sort_desc (well (files_by_category data))))
            /\ all_under_root
                 (take 5 (sort_desc (partial (files_by_category data))))
            /\ all_under_root (poor (files_by_category data))
            /\ all_under_root
                 (take 3 (List.filter is_minimal_docs
                            (poor (files_by_category data))))).
  { intros data Hu. unfold DocSpec.categorized in Hu.
    split; [|split; [|split]];
      (eapply all_under_root_sub; [|exact Hu]); intros x Hx;
      rewrite !elem_of_app.
    - left. eapply elem_of_take_sort, Hx.
    - right. left. eapply elem_of_take_sort, Hx.
    - right. right. exact Hx.
    - right. right. eapply elem_of_take_filter, Hx. }
  split; [|split].
  - intros data Hu. destruct (Hsub data Hu) as (U1 & U2 & U3 & U4).
    destruct (shown_entries_under _ U1) as [tw E1].
    destruct (shown_entries_under _ U2) as [tp E2].
    destruct (shown_entries_under _ U4) as [me E4].
    assert (E3 : exists le,
              match List.filter is_large_no_docs
                      (poor (files_by_category data)) with
              | f :: _ => let! e := shown_entry f in Ok (Some e)
              | [] => Ok None
              end = Ok le).
    { destruct (List.filter is_large_no_docs _) as [|f fs] eqn:E;
        [exists None; reflexivity|].
      assert (Hf : f ∈ poor (files_by_category data)).
      { apply list_elem_of_In.
        apply (proj1 (filter_In is_large_no_docs f _)).
        rewrite E. now left. }
      unfold all_under_root in U3. rewrite Forall_forall in U3.
      destruct (U3 f Hf) as [rel Hrel]. unfold shown_entry.
      rewrite Hrel. cbn [bind]. now eexists. }
    destruct E3 as [le E3].
    unfold show_examples. rewrite E1, E2. cbn [bind]. rewrite E3.
    cbn [bind]. rewrite E4. cbn [bind]. split; intros H0.
    + now rewrite (proj1 (divide_by_files _ _) H0).
    + rewrite !(proj2 (divide_by_files _ _) H0). cbn [bind]. now eexists.
  - intros data e. unfold show_examples.
    assert (Hno : forall l : list result,
              (forall x, x ∈ l -> x ∈ DocSpec.categorized data) ->
              ~ all_under_root l ->
              ~ all_under_root (DocSpec.categorized data)).
    { intros l Hl Hn Hu. apply Hn.
      now apply (all_under_root_sub (DocSpec.categorized data)). }
    unfold DocSpec.categorized in Hno.
    destruct (shown_entries (take 5 (sort_desc (well _)))) as [tw|e1]
      eqn:E1; cbn [bind].
    2: { intros [= ->]. right.
         destruct (shown_entries_raise _ _ E1) as [-> Hn].
         split; [reflexivity|]. eapply Hno; [|exact Hn].
         intros x Hx. rewrite !elem_of_app. left.
         eapply elem_of_take_sort, Hx. }
    destruct (shown_entries (take 5 (sort_desc (partial _)))) as [tp|e2]
      eqn:E2; cbn [bind].
    2: { intros [= ->]. right.
         destruct (shown_entries_raise _ _ E2) as [-> Hn].
         split; [reflexivity|]. eapply Hno; [|exact Hn].
         intros x Hx. rewrite !elem_of_app. right. left.
         eapply elem_of_take_sort, Hx. }
    destruct (List.filter is_large_no_docs _) as [|f fs] eqn:E3.
    + cbn [bind].
      destruct (shown_entries (take 3 _)) as [me|e4] eqn:E4; cbn [bind].
      2: { intros [= ->]. right.
           destruct (shown_entries_raise _ _ E4) as [-> Hn].
           split; [reflexivity|]. eapply Hno; [|exact Hn].
           intros x Hx. rewrite !elem_of_app. right. right.
           eapply elem_of_take_filter, Hx. }
      destruct (Z.eq_dec (total_files data) 0) as [H0|H0].
      * rewrite (proj1 (divide_by_files _ _) H0). cbn [bind].
        intros [= <-]. now left.
      * rewrite !(proj2 (divide_by_files _ _) H0). discriminate.
    + destruct (shown_entry f) as [x|e3] eqn:Ef; cbn [bind].
      2: { intros [= ->]. right.
           assert (E' : shown_entries [f] = Raise e)
             by (cbn [shown_entries]; now rewrite Ef).
           destruct (shown_entries_raise _ _ E') as [-> Hn].
           split; [reflexivity|]. eapply Hno; [|exact Hn].
           intros y ->%list_elem_of_singleton. rewrite !elem_of_app.
           right. right. apply list_elem_of_In.
           apply (proj1 (filter_In is_large_no_docs f _)).
           rewrite E3. now left. }
      destruct (shown_entries (take 3 _)) as [me|e4] eqn:E4; cbn [bind].
      2: { intros [= ->]. right.
           destruct (shown_entries_raise _ _ E4) as [-> Hn].
           split; [reflexivity|]. eapply Hno; [|exact Hn].
           intros y Hy. rewrite !elem_of_app. right. right.
           eapply elem_of_take_filter, Hy. }
      destruct (Z.eq_dec (total_files data) 0) as [H0|H0].
      * rewrite (proj1 (divide_by_files _ _) H0). cbn [bind].
        intros [= <-]. now left.
      * rewrite !(proj2 (divide_by_files _ _) H0). discriminate.
  - intros read_text rglob Hnone. split; [|split].
    + unfold analyze_directory. rewrite DocRunFacts.visit_all_analyses.
      replace (DocCoverage.analyses read_text (walk rglob)) with (@nil result);
        [reflexivity|].
      symmetry. unfold DocCoverage.analyses.
      induction (walk rglob) as [|p paths IH]; [reflexivity|].
      cbn [List.filter] in Hnone.
      destruct (DocSpec.analyzable read_text p) eqn:Ha; [discriminate|].
      change (omap (DocCoverage.analysis_of read_text) (p :: paths))
        with (match DocCoverage.analysis_of read_text p with
              | Some r => r :: omap (DocCoverage.analysis_of read_text) paths
              | None => omap (DocCoverage.analysis_of read_text) paths
              end).
      unfold DocCoverage.analysis_of at 1. rewrite Ha. now apply IH.
    + eexists. apply generate_report_formula.
    + reflexivity.
Qed.

Lemma show_examples_needs_a_file_witness :
  show_examples init = Raise ZeroDivisionError
  /\ (exists s, show_examples ReportSamples.seven_files = Ok s)
  /\ analyze_directory Samples.sample_read ReportSamples.no_files init
     = Ok init.
Proof.
  destruct show_examples_needs_a_file as (H1 & _ & H3).
  split; [|split].
  - apply (H1 init); [constructor|reflexivity].
  - apply (H1 ReportSamples.seven_files).
    + unfold all_under_root. repeat constructor; now eexists.
    + discriminate.
  - apply (H3 Samples.sample_read ReportSamples.no_files). reflexivity.
Defined.

Lemma outranked (l : list result) (n : nat) (x y : result) :
  descending l -> x ∈ take n l -> y ∈ l -> y ∉ take n l ->
  r_quality_score y <= r_quality_score x.
Proof.
  intros Hd Hx Hy Hn.
  apply elem_of_take in Hx as (i & Hi & Hlt).
  apply list_elem_of_lookup in Hy as [j Hj].
  destruct (Nat.lt_ge_cases j n) as [Hjn|Hjn].
  - exfalso. apply Hn. apply elem_of_take. now exists j.
  - apply (descending_lookup l i j x y Hd); [lia|assumption|assumption].
Qed.

(** X17.  The two rankings show the five best files of their category: the
    list, sorted by descending score with files of equal score in the
    order of the results, cut after five.  No file left out has a higher
    score than a file shown, and every path shown is the path of its
    file below [/home/user/geant4]. *)
Theorem top_five_are_the_best (data : stats) (s : shown)
    (H : show_examples data = Ok s) :
  map snd (top_well s)
  = take 5 (sort_desc (well (files_by_category data)))
  /\ map snd (top_partial s)
     = take 5 (sort_desc (partial (files_by_category data)))
  /\ (forall l : list result,
        sort_desc l ≡ₚ l /\ descending (sort_desc l)
        /\ forall q, with_score q (sort_desc l) = with_score q l)
  /\ descending (map snd (top_well s))
  /\ descending (map snd (top_partial s))
  /\ (forall x y,
        x ∈ map snd (top_well s) ->
        y ∈ well (files_by_category data) ->
        y ∉ map snd (top_well s) ->
        r_quality_score y <= r_quality_score x)
  /\ (forall x y,
        x ∈ map snd (top_partial s) ->
        y ∈ partial (files_by_category data) ->
        y ∉ map snd (top_partial s) ->
        r_quality_score y <= r_quality_score x)
  /\ Forall (fun e => r_file e.2 = project_root ++ e.1)
       (top_well s ++ top_partial s ++ minimal_examples s).
Proof.
  apply show_examples_ok in H
    as (_ & tw & tp & le & me & E1 & E2 & _ & E4 & ->).
  cbn [top_well top_partial minimal_examples].
  apply shown_entries_ok in E1 as [M1 F1].
  apply shown_entries_ok in E2 as [M2 F2].
  apply shown_entries_ok in E4 as [M4 F4].
  rewrite M1, M2.
  split; [reflexivity|]. split; [reflexivity|]. split.
  { intros l. split; [apply sort_desc_perm|].
    split; [apply sort_desc_sorted|]. intros q. apply sort_desc_stable. }
  split; [apply descending_take, sort_desc_sorted|].
  split; [apply descending_take, sort_desc_sorted|].
  split; [|split].
  - intros x y Hx Hy Hn.
    apply (outranked (sort_desc (well (files_by_category data))) 5 x y);
      [apply sort_desc_sorted|exact Hx| |exact Hn].
    now rewrite sort_desc_perm.
  - intros x y Hx Hy Hn.
    apply (outranked (sort_desc (partial (files_by_category data))) 5 x y);
      [apply sort_desc_sorted|exact Hx| |exact Hn].
    now rewrite sort_desc_perm.
  - rewrite !Forall_app. repeat split; assumption.
Qed.

Lemma top_five_are_the_best_witness :
  exists s,
    show_examples ReportSamples.seven_files = Ok s
    /\ map (fun e => r_quality_score e.2) (top_well s)
       = [100; 100; 80; 75; 60]
    /\ map fst (top_well s)
       = [["source"; "run"; "b.hh"]; ["source"; "run"; "d.hh"];
          ["source"; "run"; "e.hh"]; ["source"; "run"; "c.hh"];
          ["source"; "run"; "a.hh"]].
Proof.
  assert (H : exists s, show_examples ReportSamples.seven_files = Ok s)
    by (eexists; vm_compute; reflexivity).
  destruct H as [s H]. exists s. split; [exact H|].
  destruct (top_five_are_the_best _ _ H) as (Hw & _).
  assert (Hs : map (fun e => r_quality_score e.2) (top_well s)
               = map r_quality_score (map snd (top_well s)))
    by now rewrite map_map.
  rewrite Hs, Hw. split; [vm_compute; reflexivity|].
  revert H. vm_compute. intros [= <-]. reflexivity.
Defined.

(** X18.  The summary of [show_examples] prints, for the well-documented
    files, the length of the ranking it has cut to five, not the number
    of files: at most 5, next to a percentage computed from the full
    number.  The other two lines print the full numbers. *)
Theorem well_count_is_the_cut_ranking (data : stats) (s : shown)
    (H : show_examples data = Ok s) :
  well_count s = Z.min 5 (len (well (files_by_category data)))
  /\ well_pct s
     = Float (SFdiv prec emax
                (of_int (100 * len (well (files_by_category data))))
                (of_int (total_files data)))
  /\ partial_count s = len (partial (files_by_category data))
  /\ poor_count s = len (poor (files_by_category data))
  /\ (5 < len (well (files_by_category data)) ->
      well_count s <> len (well (files_by_category data))).
Proof.
  apply show_examples_ok in H
    as (_ & tw & tp & le & me & _ & _ & _ & _ & ->).
  cbn [well_count well_pct partial_count poor_count].
  assert (Hl : len (take 5 (sort_desc (well (files_by_category data))))
               = Z.min 5 (len (well (files_by_category data)))).
  { unfold len. rewrite length_take, (Permutation_length (sort_desc_perm _)).
    lia. }
  rewrite Hl. repeat split; try reflexivity. lia.
Qed.

Lemma well_count_is_the_cut_ranking_witness :
  exists s,
    show_examples ReportSamples.seven_files = Ok s
    /\ len (well (files_by_category ReportSamples.seven_files)) = 6
    /\ well_count s = 5.
Proof.
  assert (H : exists s, show_examples ReportSamples.seven_files = Ok s)
    by (eexists; vm_compute; reflexivity).
  destruct H as [s H]. exists s. split; [exact H|].
  split; [reflexivity|].
  destruct (well_count_is_the_cut_ranking _ _ H) as (Hw & _).
  rewrite Hw. reflexivity.
Defined.

End ReportFacts.

(** * The link checker *)

Module LinkFacts.
Import Re ReSpec CheckLinks.

(** *** The walk *)

Lemma tree_induction (P : tree -> Prop) :
  (forall dirs files, Forall (fun d => P d.2) dirs -> P (Dir dirs files)) ->
  forall t, P t.
Proof.
  intros H. fix IH 1. intros [dirs files]. apply H.
  induction dirs as [|[d sub] dirs IHd]; constructor; [apply IH|exact IHd].
Qed.

Lemma endswith_spec (p s : text) :
  PosixPath.endswith p s = true <-> exists a, s = a ++ p.
Proof.
  unfold PosixPath.endswith. rewrite StrFacts.startswith_spec. split.
  - intros [b Hb]. exists (rev b).
    rewrite <- (rev_involutive s), Hb, rev_app_distr.
    now rewrite rev_involutive.
  - intros [a ->]. exists (rev a). now rewrite rev_app_distr.
Qed.

Lemma join_endswith (p a b : text) :
  PosixPath.endswith p b = true -> PosixPath.endswith p (PosixPath.join a b) = true.
Proof.
  rewrite !endswith_spec. intros [x ->]. unfold PosixPath.join.
  destruct (Str.startswith _ _); [now exists x|].
  destruct (_ || _).
  - exists (a ++ x). now rewrite app_assoc.
  - exists (a ++ txt "/" ++ x). now rewrite <- !app_assoc.
Qed.

Lemma found_files_end_with_md (t : tree) :
  forall root p,
    p ∈ find_markdown_files root t ->
    PosixPath.endswith (txt ".md") p = true.
Proof.
  induction t as [dirs files IH] using tree_induction. intros root p.
  cbn [find_markdown_files]. rewrite elem_of_app. intros [H|H].
  - apply list_elem_of_fmap in H as (f & -> & Hf).
    apply list_elem_of_In, filter_In in Hf as [_ Hf].
    now apply join_endswith.
  - induction IH as [|[d sub] dirs Hd _ IHd]; [now apply elem_of_nil in H|].
    apply elem_of_app in H as [H|H]; [|now apply IHd].
    destruct (Str.mem d pruned); [now apply elem_of_nil in H|].
    exact (Hd _ _ H).
Qed.

Lemma pruned_directory_is_skipped (root d : text) (sub : tree)
    (before after : list (text * tree)) (files : list text) :
  Str.mem d pruned = true ->
  find_markdown_files root (Dir (before ++ (d, sub) :: after) files)
  = find_markdown_files root (Dir (before ++ after) files).
Proof.
  intros Hd. cbn [find_markdown_files]. f_equal.
  induction before as [|[d' sub'] before IH]; cbn [app].
  - now rewrite Hd.
  - now rewrite IH.
Qed.

(** *** The links of a page *)

(** A match of the link pattern: its two groups and the place where it
    stands. *)
Lemma link_match (pre rest : text) (m : Re2.rmatch2) :
  Re2.match_at2 link_text link_url (rev pre) rest = Some m ->
  exists (x y : ascii) (t u post : text),
    Re2.m_group1 m = Some (x :: t) /\ Re2.m_group2 m = Some (y :: u)
    /\ forallb not_rbracket (x :: t) = true
    /\ forallb DocPatterns.not_rparen (y :: u) = true
    /\ rest = link_source (x :: t, y :: u) ++ post.
Proof.
  intros H. apply ReFacts.match_at2_sound in H as (c1 & c2 & H1 & H2 & G1 & G2).
  unfold link_text in H1. cbn [lang] in H1.
  destruct H1 as (c0 & [[A0 _] _]%ReFacts.lang_lit & H1).
  apply ReFacts.lang_group_plus in H1 as (x & t & Hx & Ht & [A1 _] & Hg1).
  unfold link_url in H2. cbn [lang] in H2.
  destruct H2 as (c3 & [[A3 _] _]%ReFacts.lang_lit & c4 & H2 & H4).
  apply ReFacts.lang_group_plus in H2 as (y & u & Hy & Hu & [A4 _] & Hg2).
  apply ReFacts.lang_lit in H4 as [[A5 _] G5].
  cbn [ahead] in A0, A3.
  exists x, y, t, u, (ahead c2).
  split; [congruence|]. split; [congruence|].
  split; [cbn [forallb]; now rewrite Hx, Ht|].
  split; [cbn [forallb]; now rewrite Hy, Hu|].
  unfold link_source. cbn [fst snd].
  rewrite A0, A1, A3, A4, A5. now rewrite <- !app_assoc.
Qed.

Lemma findall_links (content label url : text) :
  (label, url) ∈ Re2.findall2 link_text link_url content ->
  label <> [] /\ url <> []
  /\ forallb not_rbracket label = true /\ forallb DocPatterns.not_rparen url = true
  /\ exists pre post, content = pre ++ link_source (label, url) ++ post.
Proof.
  unfold Re2.findall2. intros (m & E & Hm)%list_elem_of_fmap.
  apply ReFacts.scan2_sound in Hm as (pre & rest & Hc & Hm).
  apply link_match in Hm as (x & y & t & u & post & G1 & G2 & Ht & Hu & ->).
  rewrite G1, G2 in E. cbn in E. injection E as -> ->.
  split; [discriminate|]. split; [discriminate|].
  split; [exact Ht|]. split; [exact Hu|].
  exists pre, post. exact Hc.
Qed.

(** *** Resolving a link *)

Lemma split_first (c : ascii) (s : text) :
  exists l ls,
    PosixPath.split c s = l :: ls
    /\ (l = [] <-> s = [] \/ Str.startswith [c] s = true).
Proof.
  induction s as [|x s (l & ls & E & _)]; cbn [PosixPath.split].
  - exists [], []. split; [reflexivity|]. split; [now left|reflexivity].
  - cbn [Str.startswith]. destruct (Chars.same c x).
    + eexists [], _. split; [reflexivity|]. split; [now right|reflexivity].
    + rewrite E. exists (x :: l), ls. split; [reflexivity|].
      split; [discriminate|]. intros [H|H]; discriminate.
Qed.

Lemma splitext_nil : PosixPath.splitext [] = ([], []).
Proof. reflexivity. Qed.

Lemma resolve_link_target (source_file link_url docs : text) :
  (link_url = [] \/ Str.startswith (txt "#") link_url = true ->
   fst (resolve_link source_file link_url docs) = None)
  /\ (link_url <> [] -> Str.startswith (txt "#") link_url = false ->
      exists target,
        fst (resolve_link source_file link_url docs) = Some target
        /\ target <> []).
Proof.
  unfold resolve_link.
  destruct (split_first "#" link_url) as (l & ls & E & Hl).
  rewrite E. cbn [lookup list_lookup default from_option id].
  change (txt "#") with ["#"%char]. split.
  - intros H. apply Hl in H. subst l. reflexivity.
  - intros H1 H2. destruct l as [|x l].
    + exfalso. destruct (proj1 Hl eq_refl) as [H|H]; congruence.
    + cbn [PosixPath.is_empty].
      match goal with
      | |- context [PosixPath.splitext ?t] =>
          generalize t; intros target
      end.
      destruct (PosixPath.is_empty (PosixPath.splitext target).2) eqn:Ex;
        cbn [fst]; eexists; (split; [reflexivity|]).
      * now destruct target.
      * intros ->. now rewrite splitext_nil in Ex.
Qed.

Section Files.
Variable read_text : text -> option text.
Variable exists_ : text -> bool.
Variable isfile : text -> bool.

Lemma extract_links_spec (file_path docs : text) (links : list (text * text))
    (label url : text) :
  extract_links read_text file_path docs = Some links ->
  (label, url) ∈ links ->
  skipped url = false
  /\ exists content,
       read_text file_path = Some content
       /\ (label, url) ∈ Re2.findall2 link_text link_url content.
Proof.
  unfold extract_links. destruct (read_text file_path) as [content|];
    [|discriminate].
  intros [= <-] H. apply list_elem_of_In, filter_In in H as [H Hs].
  split; [now apply negb_true_iff in Hs|].
  exists content. split; [reflexivity|]. now apply list_elem_of_In.
Qed.

Lemma skipped_anchor (url : text) :
  skipped url = false -> Str.startswith (txt "#") url = false.
Proof.
  unfold skipped. intros H. repeat apply orb_false_iff in H as [H ?].
  assumption.
Qed.

(** *** The count of [main] *)

Lemma check_link_effect (md_file : text) (total : Z) (bs : list broken)
    (link : text * text) :
  exists b,
    check_link exists_ isfile md_file docs_dir (total, bs) link
    = (total + 1, bs ++ (if missing exists_ isfile md_file link
                         then [b] else [])).
Proof.
  unfold check_link, missing. destruct link as [t u]. cbn [snd].
  destruct (resolve_link md_file u docs_dir) as [[target|] anchor] eqn:E;
    cbn [fst].
  - assert (Hne : PosixPath.is_empty target = false).
    { destruct (Str.startswith (txt "#") u) eqn:Hh.
      - pose proof (proj1 (resolve_link_target md_file u docs_dir)
                      (or_intror Hh)) as Hn.
        rewrite E in Hn. discriminate.
      - destruct u as [|x u].
        + pose proof (proj1 (resolve_link_target md_file [] docs_dir)
                        (or_introl eq_refl)) as Hn.
          rewrite E in Hn. discriminate.
        + destruct (proj2 (resolve_link_target md_file (x :: u) docs_dir)
                      ltac:(discriminate) Hh) as (t' & Ht & Hne).
          rewrite E in Ht. injection Ht as <-. now destruct target. }
    rewrite Hne. cbn [negb andb].
    exists (Broken md_file t u target).
    destruct (check_file_exists exists_ isfile target); cbn [negb];
      [now rewrite app_nil_r|reflexivity].
  - exists (Broken md_file t u []). now rewrite app_nil_r.
Qed.

Lemma check_links_effect (md_file : text) (links : list (text * text))
    (total : Z) (bs : list broken) :
  exists bs',
    foldl (check_link exists_ isfile md_file docs_dir) (total, bs) links
    = (total + Py.len links, bs ++ bs')
    /\ length bs'
       = length (List.filter (missing exists_ isfile md_file) links).
Proof.
  revert total bs. induction links as [|link links IH]; intros total bs;
    cbn [foldl List.filter].
  - exists []. unfold Py.len. cbn. now rewrite app_nil_r, Z.add_0_r.
  - destruct (check_link_effect md_file total bs link) as [b ->].
    destruct (IH (total + 1)
                 (bs ++ (if missing exists_ isfile md_file link
                         then [b] else []))) as (bs' & -> & Hl).
    exists ((if missing exists_ isfile md_file link then [b] else []) ++ bs').
    split.
    + unfold Py.len. cbn [length]. rewrite <- app_assoc. f_equal. lia.
    + rewrite length_app, Hl.
      now destruct (missing exists_ isfile md_file link).
Qed.

Lemma check_files_effect (md_files : list text) (total : Z)
    (bs : list broken) :
  if readable read_text md_files then
    exists bs',
      check_files read_text exists_ isfile md_files docs_dir (total, bs)
      = Some (total + link_count read_text md_files, bs ++ bs')
      /\ length bs'
         = length (missing_links read_text exists_ isfile md_files)
  else
    check_files read_text exists_ isfile md_files docs_dir (total, bs) = None.
Proof.
  revert total bs. induction md_files as [|f fs IH]; intros total bs;
    cbn [check_files readable forallb].
  - exists []. unfold link_count, Py.len. cbn.
    now rewrite app_nil_r, Z.add_0_r.
  - destruct (extract_links read_text f docs_dir) as [links|] eqn:Ex.
    + assert (Hr : bool_decide (is_Some (read_text f)) = true).
      { apply bool_decide_eq_true_2. unfold extract_links in Ex.
        destruct (read_text f); [now eexists|discriminate]. }
      rewrite Hr. cbn [andb]. fold (readable read_text fs).
      destruct (check_links_effect f links total bs) as (b1 & -> & H1).
      specialize (IH (total + Py.len links) (bs ++ b1)).
      destruct (readable read_text fs); [|exact IH].
      destruct IH as (b2 & -> & H2). exists (b1 ++ b2).
      unfold missing_links, link_count. cbn [map concat].
      assert (Hl : links_of read_text f = links)
        by (unfold links_of; now rewrite Ex).
      rewrite Hl. split.
      * unfold link_count, Py.len. rewrite <- app_assoc.
        rewrite length_app. do 2 f_equal. lia.
      * rewrite !length_app, length_map, H1, H2. reflexivity.
    + assert (Hr : bool_decide (is_Some (read_text f)) = false).
      { apply bool_decide_eq_false_2. unfold extract_links in Ex.
        destruct (read_text f); [discriminate|]. now intros [? ?]. }
      now rewrite Hr.
Qed.

Lemma missing_links_le (md_files : list text) :
  0 <= Py.len (missing_links read_text exists_ isfile md_files)
    <= link_count read_text md_files.
Proof.
  unfold missing_links, link_count, Py.len. split; [lia|].
  apply inj_le.
  induction md_files as [|f fs IH]; cbn [map concat length]; [lia|].
  rewrite !length_app, length_map.
  pose proof (filter_length_le (missing exists_ isfile f)
                (links_of read_text f)).
  lia.
Qed.

Lemma missing_links_nil (md_files : list text) :
  missing_links read_text exists_ isfile md_files = [] <->
  forall f link,
    f ∈ md_files -> link ∈ links_of read_text f ->
    missing exists_ isfile f link = false.
Proof.
  unfold missing_links.
  induction md_files as [|f fs IH]; cbn [map concat].
  - split; [|reflexivity]. intros _ f link Hf. now apply elem_of_nil in Hf.
  - split.
    + intros [H1 H2]%app_eq_nil g link Hg Hl.
      apply elem_of_cons in Hg as [->|Hg]; [|now apply (proj1 IH H2 g)].
      apply map_eq_nil in H1.
      destruct (missing exists_ isfile f link) eqn:Hm; [|reflexivity].
      assert (Hin : link ∈ List.filter (missing exists_ isfile f)
                             (links_of read_text f)).
      { apply list_elem_of_In, filter_In. split; [|exact Hm].
        now apply list_elem_of_In. }
      rewrite H1 in Hin. now apply elem_of_nil in Hin.
    + intros H.
      assert (E1 : List.filter (missing exists_ isfile f)
                     (links_of read_text f) = []).
      { destruct (List.filter _ _) as [|link l] eqn:E; [reflexivity|].
        assert (Hin : In link (List.filter (missing exists_ isfile f)
                                 (links_of read_text f)))
          by (rewrite E; now left).
        apply filter_In in Hin as [Hin Hm].
        rewrite (H f link) in Hm; [discriminate|apply list_elem_of_here|].
        now apply list_elem_of_In. }
      rewrite E1. cbn [map app].
      apply IH. intros g link Hg. apply H. now apply list_elem_of_further.
Qed.

End Files.

(** X19.  The walk returns only files whose name ends in [.md], and a
    directory named [node_modules], [dist] or [.vitepress] is skipped
    with all it holds, wherever it stands in the tree. *)
Theorem walk_finds_markdown_outside_pruned_directories :
  (forall (root : text) (t : tree) (p : text),
     p ∈ find_markdown_files root t ->
     PosixPath.endswith (txt ".md") p = true)
  /\ (forall (root d : text) (sub : tree)
             (before after : list (text * tree)) (files : list text),
        Str.mem d pruned = true ->
        find_markdown_files root (Dir (before ++ (d, sub) :: after) files)
        = find_markdown_files root (Dir (before ++ after) files))
  /\ (forall (root d : text) (sub : tree) (rest : list (text * tree))
             (files : list text),
        Str.mem d pruned = false ->
        find_markdown_files root (Dir ((d, sub) :: rest) files)
        = map (PosixPath.join root)
            (List.filter (PosixPath.endswith (txt ".md")) files)
          ++ find_markdown_files (PosixPath.join root d) sub
          ++ find_markdown_files root (Dir rest [])).
Proof.
  split; [|split].
  - intros root t p. apply found_files_end_with_md.
  - intros. now apply pruned_directory_is_skipped.
  - intros root d sub rest files Hd. cbn [find_markdown_files].
    now rewrite Hd.
Qed.

Lemma walk_finds_markdown_outside_pruned_directories_witness :
  find_markdown_files docs_dir LinkSamples.docs
  = [ txt "/home/user/geant4/docs/index.md";
      txt "/home/user/geant4/docs/guide/intro.md";
      txt "/home/user/geant4/docs/guide/setup.md" ]
  /\ find_markdown_files docs_dir LinkSamples.docs
     = find_markdown_files docs_dir
         (Dir [ (txt "guide",
                 Dir [] [txt "intro.md"; txt "setup.md"; txt "logo.png"]);
                (txt ".vitepress",
                 Dir [(txt "cache", Dir [] [txt "x.md"])] []) ]
              [txt "index.md"]).
Proof.
  split; [vm_compute; reflexivity|].
  destruct walk_finds_markdown_outside_pruned_directories as (_ & H & _).
  apply (H docs_dir (txt "dist") (Dir [] [txt "intro.md"])
           [ (txt "guide",
              Dir [] [txt "intro.md"; txt "setup.md"; txt "logo.png"]) ]).
  vm_compute; reflexivity.
Defined.

(** X20.  Every link that [extract_links] returns stands in the page as
    [[text](url)], with a text free of [\]] and a url free of [)], both
    non-empty, and a url that starts with none of [http://],
    [https://], [#] and [mailto:]. *)
Theorem extracted_links_are_internal (read_text : text -> option text)
    (file_path docs : text) (links : list (text * text)) (label url : text)
    (H : extract_links read_text file_path docs = Some links)
    (Hin : (label, url) ∈ links) :
  label <> [] /\ url <> []
  /\ forallb not_rbracket label = true /\ forallb DocPatterns.not_rparen url = true
  /\ Str.startswith (txt "http://") url = false
  /\ Str.startswith (txt "https://") url = false
  /\ Str.startswith (txt "#") url = false
  /\ Str.startswith (txt "mailto:") url = false
  /\ exists content pre post,
       read_text file_path = Some content
       /\ content = pre ++ link_source (label, url) ++ post.
Proof.
  destruct (extract_links_spec read_text file_path docs links label url H Hin)
    as (Hs & content & Hc & Hf).
  apply findall_links in Hf as (Ht & Hu & Hb & Hp & pre & post & E).
  unfold skipped in Hs.
  apply orb_false_iff in Hs as [Hs H4].
  apply orb_false_iff in Hs as [Hs H3].
  apply orb_false_iff in Hs as [H1 H2].
  repeat (split; [assumption|]).
  now exists content, pre, post.
Qed.

Lemma extracted_links_are_internal_witness :
  LinkSamples.read_text (txt "/home/user/geant4/docs/index.md")
  = Some LinkSamples.index_md
  /\ extract_links LinkSamples.read_text
       (txt "/home/user/geant4/docs/index.md") docs_dir
     = Some [ (txt "Intro", txt "guide/intro");
              (txt "Setup", txt "/guide/setup.md#install");
              (txt "Gone", txt "guide/gone") ]
  /\ Str.startswith (txt "#") (txt "/guide/setup.md#install") = false.
Proof.
  assert (H : extract_links LinkSamples.read_text
                (txt "/home/user/geant4/docs/index.md") docs_dir
              = Some [ (txt "Intro", txt "guide/intro");
                       (txt "Setup", txt "/guide/setup.md#install");
                       (txt "Gone", txt "guide/gone") ])
    by (vm_compute; reflexivity).
  split; [reflexivity|]. split; [exact H|].
  apply (extracted_links_are_internal _ _ _ _ (txt "Setup") _ H).
  apply list_elem_of_further, list_elem_of_here.
Defined.

(** X21.  [resolve_link] gives no target exactly for the empty url and for a
    url that starts with [#]; a target it gives is never empty.  Hence
    every link that [extract_links] returns has a target: in [main] each
    of them is tested for existence and the guard on the target skips
    none. *)
Theorem every_extracted_link_is_resolved :
  (forall source_file link_url docs : text,
     fst (resolve_link source_file link_url docs) = None <->
     link_url = [] \/ Str.startswith (txt "#") link_url = true)
  /\ (forall source_file link_url docs target : text,
        fst (resolve_link source_file link_url docs) = Some target ->
        target <> [])
  /\ (forall (read_text : text -> option text) (file_path docs : text)
             (links : list (text * text)) (label url : text),
        extract_links read_text file_path docs = Some links ->
        (label, url) ∈ links ->
        forall source_file docs' : text,
          exists target,
            fst (resolve_link source_file url docs') = Some target
            /\ target <> []).
Proof.
  assert (Hcases : forall url : text,
            (url = [] \/ Str.startswith (txt "#") url = true)
            \/ (url <> [] /\ Str.startswith (txt "#") url = false)).
  { intros [|x url]; [now left; left|].
    destruct (Str.startswith (txt "#") (x :: url)); [now left; right|].
    right. now split. }
  split; [|split].
  - intros src url docs. split; [|apply resolve_link_target].
    intros Hn. destruct (Hcases url) as [H|[H1 H2]]; [exact H|].
    destruct (proj2 (resolve_link_target src url docs) H1 H2)
      as (t & Ht & _).
    congruence.
  - intros src url docs target Ht.
    destruct (Hcases url) as [H|[H1 H2]].
    + rewrite (proj1 (resolve_link_target src url docs) H) in Ht.
      discriminate.
    + destruct (proj2 (resolve_link_target src url docs) H1 H2)
        as (t & Ht' & Hne).
      congruence.
  - intros read_text file_path docs links label url H Hin src docs'.
    destruct (extract_links_spec read_text file_path docs links label url
                H Hin) as (Hs & content & _ & Hf).
    apply findall_links in Hf as (_ & Hu & _).
    apply resolve_link_target; [exact Hu|now apply skipped_anchor].
Qed.

Lemma every_extracted_link_is_resolved_witness :
  fst (resolve_link (txt "/home/user/geant4/docs/index.md") (txt "#top")
         docs_dir) = None
  /\ exists target,
       fst (resolve_link (txt "/home/user/geant4/docs/guide/intro.md")
              (txt "../index.md") docs_dir) = Some target
       /\ target <> [].
Proof.
  destruct every_extracted_link_is_resolved as (H1 & _ & H3).
  split.
  - apply H1. right. reflexivity.
  - apply (H3 LinkSamples.read_text
              (txt "/home/user/geant4/docs/guide/intro.md") docs_dir
              [ (txt "Back", txt "../index.md");
                (txt "Logo", txt "logo.png") ] (txt "Back")).
    + vm_compute; reflexivity.
    + apply list_elem_of_here.
Defined.

(** X22.  [main] returns the number of links, over the pages found, whose
    target is not an existing file, and raises when a page cannot be
    read; the number is at most the number of links checked, and it is 0
    exactly when the target of every link exists. *)
Theorem main_counts_the_missing_targets (read_text : text -> option text)
    (exists_ isfile : text -> bool) (docs : tree) :
  main read_text exists_ isfile docs
  = (if readable read_text (find_markdown_files docs_dir docs)
     then Some (Py.len (missing_links read_text exists_ isfile
                          (find_markdown_files docs_dir docs)))
     else None)
  /\ 0 <= Py.len (missing_links read_text exists_ isfile
                    (find_markdown_files docs_dir docs))
       <= link_count read_text (find_markdown_files docs_dir docs)
  /\ (main read_text exists_ isfile docs = Some 0 <->
      readable read_text (find_markdown_files docs_dir docs) = true
      /\ forall f link,
           f ∈ find_markdown_files docs_dir docs ->
           link ∈ links_of read_text f ->
           exists target,
             fst (resolve_link f (snd link) docs_dir) = Some target
             /\ check_file_exists exists_ isfile target = true).
Proof.
  set (md_files := find_markdown_files docs_dir docs).
  assert (Hmain : main read_text exists_ isfile docs
                  = (if readable read_text md_files
                     then Some (Py.len (missing_links read_text exists_ isfile
                                          md_files))
                     else None)).
  { unfold main. fold md_files.
    pose proof (check_files_effect read_text exists_ isfile md_files 0 [])
      as H.
    destruct (readable read_text md_files).
    - destruct H as (bs' & -> & Hl). cbn [app]. unfold Py.len.
      now rewrite Hl.
    - now rewrite H. }
  split; [exact Hmain|]. split; [apply missing_links_le|].
  rewrite Hmain. destruct (readable read_text md_files) eqn:Hr.
  - assert (Hz : Some (Py.len (missing_links read_text exists_ isfile md_files))
                 = Some 0
                 <-> missing_links read_text exists_ isfile md_files = []).
    { unfold Py.len. split.
      - intros [= H]. destruct (missing_links _ _ _ _); [reflexivity|].
        cbn in H. lia.
      - now intros ->. }
    rewrite Hz, missing_links_nil. split.
    + intros H. split; [reflexivity|]. intros f [t u] Hf Hl.
      specialize (H f (t, u) Hf Hl). unfold missing in H. cbn [snd] in *.
      assert (Hex : exists target,
                fst (resolve_link f u docs_dir) = Some target).
      { unfold links_of in Hl.
        destruct (extract_links read_text f docs_dir) as [links|] eqn:Ex;
          [|now apply elem_of_nil in Hl].
        destruct (extract_links_spec read_text f docs_dir links t u Ex Hl)
          as (Hs & content & _ & Hfa).
        apply findall_links in Hfa as (_ & Hu & _).
        destruct (proj2 (resolve_link_target f u docs_dir) Hu
                    (skipped_anchor u Hs)) as (target & Ht & _).
        now exists target. }
      destruct Hex as [target Ht]. exists target. split; [exact Ht|].
      rewrite Ht in H. now apply negb_false_iff in H.
    + intros [_ H] f link Hf Hl.
      destruct (H f link Hf Hl) as (target & Ht & Hc).
      unfold missing. now rewrite Ht, Hc.
  - split; [discriminate|]. intros [? _]. discriminate.
Qed.

Lemma main_counts_the_missing_targets_witness :
  main LinkSamples.read_text LinkSamples.isfile LinkSamples.isfile
    LinkSamples.docs = Some 1
  /\ link_count LinkSamples.read_text
       (find_markdown_files docs_dir LinkSamples.docs) = 5.
Proof.
  destruct (main_counts_the_missing_targets LinkSamples.read_text
              LinkSamples.isfile LinkSamples.isfile LinkSamples.docs)
    as (H & _ & _).
  split; [rewrite H|]; vm_compute; reflexivity.
Defined.

End LinkFacts.
